(** * Standup tracker: the analytics and question-generation core

    A shallow embedding of the functions of [services/storageService.js],
    [handlers/dataHandler.js] and [services/aiService.js] that carry the
    aggregation, trend, recurrence, scoring, insight and follow-up-question
    logic, followed by the properties established about them.

    Conventions of the embedding:
    - a JavaScript string is a [string] whose characters are the code units
      of the text, all below 256;
    - a JavaScript number that is computed by division or by multiplication
      with a decimal constant is an IEEE-754 binary64 value ([spec_float]
      at precision 53); lengths and counters, which stay integers, are [nat];
    - a plain object used as a table is the list of its own properties in
      creation order, enumerated the way [Object.keys] does;
    - a failing property access or call is a [Throw] completion. *)

From Stdlib Require Import ZArith NArith List String Ascii Bool Lia Arith.
From Stdlib Require Import QArith Sorted Permutation.
From Stdlib Require Import Floats.SpecFloat.
Import ListNotations.

Close Scope Q_scope.
Open Scope string_scope.
Open Scope list_scope.
Open Scope nat_scope.

(** ** Part I. The host language *)

Module JS.

(** *** Strings *)

Definition code (c : ascii) : nat := nat_of_ascii c.

(** Code units with a lower-case partner: A-Z and the Latin-1 capitals
    U+00C0..U+00DE without the multiplication sign U+00D7. *)
Definition isUpperCase (c : ascii) : bool :=
  let n := code c in
  ((65 <=? n) && (n <=? 90)) || ((192 <=? n) && (n <=? 222) && negb (n =? 215)).

Definition toLowerCaseUnit (c : ascii) : ascii :=
  if isUpperCase c then ascii_of_nat (code c + 32) else c.

Fixpoint toLowerCase (s : string) : string :=
  match s with
  | EmptyString => EmptyString
  | String c r => String (toLowerCaseUnit c) (toLowerCase r)
  end.

(** White space and line terminators, as [trim] and the regular expression
    class [\s] see them: TAB, LF, VT, FF, CR, SPACE, NBSP. *)
Definition isWhiteSpace (c : ascii) : bool :=
  let n := code c in
  ((9 <=? n) && (n <=? 13)) || (n =? 32) || (n =? 160).

Definition isDigit (c : ascii) : bool :=
  let n := code c in (48 <=? n) && (n <=? 57).

Fixpoint trimStart (s : string) : string :=
  match s with
  | EmptyString => EmptyString
  | String c r => if isWhiteSpace c then trimStart r else s
  end.

Fixpoint reverse (acc s : string) : string :=
  match s with
  | EmptyString => acc
  | String c r => reverse (String c acc) r
  end.

Definition trimEnd (s : string) : string :=
  reverse EmptyString (trimStart (reverse EmptyString s)).

Definition trim (s : string) : string := trimEnd (trimStart s).

(** [s.substring(from, to)] for [from <= to]; both ends are clamped to the
    length of [s]. *)
Definition substring (s : string) (from to : nat) : string :=
  String.substring from (to - from) s.

(** [s.includes(sub)]: [sub] occurs somewhere in [s]. *)
Fixpoint includes (s sub : string) : bool :=
  String.prefix sub s ||
  match s with
  | EmptyString => false
  | String _ r => includes r sub
  end.

Definition endsWith (s suffix : string) : bool :=
  String.prefix (reverse EmptyString suffix) (reverse EmptyString s).

(** [s.split(sep)] for a one-character separator. *)
Fixpoint splitAux (sep : ascii) (cur s : string) : list string :=
  match s with
  | EmptyString => [reverse EmptyString cur]
  | String c r =>
      if Ascii.eqb c sep then reverse EmptyString cur :: splitAux sep EmptyString r
      else splitAux sep (String c cur) r
  end.

Definition split (s : string) (sep : ascii) : list string :=
  splitAux sep EmptyString s.

(** A string is truthy when it is not empty. *)
Definition truthy (s : string) : bool := negb (String.eqb s EmptyString).

(** [a < b] on strings compares code units lexicographically. *)
Definition stringLt (a b : string) : bool := String.ltb a b.

Definition LF : ascii := ascii_of_nat 10.
Definition quote : string := String (ascii_of_nat 34) EmptyString.

(** Decimal rendering of a counter, as template literals print it. *)
Fixpoint digitsOf (fuel n : nat) (acc : string) : string :=
  match fuel with
  | O => acc
  | S fuel' =>
      let acc' := String (ascii_of_nat (48 + n mod 10)) acc in
      if n / 10 =? 0 then acc' else digitsOf fuel' (n / 10) acc'
  end.

Definition natToString (n : nat) : string := digitsOf (S n) n EmptyString.

(** *** Numbers

    Binary64 arithmetic with round-to-nearest-even, as specified by
    [SpecFloat]. *)

Definition number : Type := spec_float.

Definition prec : Z := 53.
Definition emax : Z := 1024.

Definition ofZ (z : Z) : number := binary_normalize prec emax z 0 false.
Definition ofNat (n : nat) : number := ofZ (Z.of_nat n).

Definition add (a b : number) : number := SFadd prec emax a b.
Definition sub (a b : number) : number := SFsub prec emax a b.
Definition mul (a b : number) : number := SFmul prec emax a b.
Definition div (a b : number) : number := SFdiv prec emax a b.

(** [a < b], [a > b] and [a === b]; all three are false on NaN. *)
Definition lt (a b : number) : bool := SFltb a b.
Definition gt (a b : number) : bool := SFltb b a.
Definition strictEq (a b : number) : bool := SFeqb a b.

(** The value of a decimal literal [digits / 10^decimals].  Both operands
    are exactly representable for the literals used here, so the correctly
    rounded quotient is the binary64 number nearest to the literal, which is
    what the source text denotes. *)
Definition literal (digits : Z) (decimals : nat) : number :=
  div (ofZ digits) (ofZ (10 ^ Z.of_nat decimals)).

(** [Math.round]: the nearest integer, halves going up; the sign of a
    zero result is that of the argument. *)
Definition round (x : number) : number :=
  match x with
  | S754_finite s m e =>
      match e with
      | Zneg p =>
          let z := if s then Zneg m else Zpos m in
          let r := ((2 * z + 2 ^ Zpos p) / 2 ^ (Zpos p + 1))%Z in
          if (r =? 0)%Z then S754_zero s else ofZ r
      | _ => x
      end
  | _ => x
  end.

(** *** Plain objects used as tables

    The own properties in creation order.  Enumeration lists the keys that
    are array indices first, in ascending numeric order, and then the other
    keys in creation order. *)

Definition Obj (V : Type) : Type := list (string * V).

Fixpoint getOwn {V : Type} (o : Obj V) (k : string) : option V :=
  match o with
  | [] => None
  | (k', v) :: r => if String.eqb k' k then Some v else getOwn r k
  end.

Fixpoint setOwn {V : Type} (o : Obj V) (k : string) (v : V) : Obj V :=
  match o with
  | [] => [(k, v)]
  | (k', v') :: r =>
      if String.eqb k' k then (k', v) :: r else (k', v') :: setOwn r k v
  end.

Definition digitValue (c : ascii) : option N :=
  if isDigit c then Some (N_of_ascii c - 48)%N else None.

Fixpoint digitsValue (acc : N) (s : string) : option N :=
  match s with
  | EmptyString => Some acc
  | String c r =>
      match digitValue c with
      | Some d => digitsValue (10 * acc + d)%N r
      | None => None
      end
  end.

(** [arrayIndex k] is [Some i] when [k] is the canonical decimal form of an
    integer [i] with [0 <= i < 2^32 - 1]. *)
Definition arrayIndex (k : string) : option N :=
  match k with
  | EmptyString => None
  | String c r =>
      match digitValue c with
      | None => None
      | Some d =>
          if (d =? 0)%N && negb (String.eqb r EmptyString) then None
          else
            match digitsValue d r with
            | Some i => if (i <? 4294967295)%N then Some i else None
            | None => None
            end
      end
  end.

Definition isArrayIndex (k : string) : bool :=
  match arrayIndex k with Some _ => true | None => false end.

Definition indexOf (k : string) : N :=
  match arrayIndex k with Some i => i | None => 0%N end.

Fixpoint insertByIndex {V : Type} (p : string * V) (l : list (string * V))
  : list (string * V) :=
  match l with
  | [] => [p]
  | q :: r =>
      if (indexOf (fst p) <=? indexOf (fst q))%N then p :: q :: r
      else q :: insertByIndex p r
  end.

Definition sortByIndex {V : Type} (l : list (string * V)) : list (string * V) :=
  fold_right insertByIndex [] l.

(** [Object.entries], [Object.keys] and [Object.values]. *)
Definition entries {V : Type} (o : Obj V) : list (string * V) :=
  sortByIndex (filter (fun p => isArrayIndex (fst p)) o)
  ++ filter (fun p => negb (isArrayIndex (fst p))) o.

Definition keys {V : Type} (o : Obj V) : list string := map fst (entries o).
Definition values {V : Type} (o : Obj V) : list V := map snd (entries o).

(** The property names every plain object inherits from [Object.prototype].
    Reading one of them from an object that has no own property of that name
    yields a function (or, for [__proto__], the prototype object): a truthy
    value that is not a table cell. *)
Definition prototypeNames : list string :=
  [ "constructor"; "__defineGetter__"; "__defineSetter__"; "hasOwnProperty";
    "__lookupGetter__"; "__lookupSetter__"; "isPrototypeOf";
    "propertyIsEnumerable"; "toString"; "valueOf"; "__proto__";
    "toLocaleString" ].

Definition inherited (k : string) : bool :=
  existsb (String.eqb k) prototypeNames.

(** *** Completions *)

Inductive Completion (A : Type) : Type :=
| Normal (a : A)
| Throw (error : string).

Arguments Normal {A} a.
Arguments Throw {A} error.

Definition bind {A B : Type} (c : Completion A) (k : A -> Completion B)
  : Completion B :=
  match c with
  | Normal a => k a
  | Throw e => Throw e
  end.

(** [try { body } catch (e) { handler }] *)
Definition tryCatch {A : Type} (body : Completion A)
  (handler : string -> Completion A) : Completion A :=
  match body with
  | Normal a => Normal a
  | Throw e => handler e
  end.

(** Reading a property of the element at [i]: a [TypeError] when the array
    has no such element. *)
Definition elementAt {A : Type} (l : list A) (i : nat) : Completion A :=
  match nth_error l i with
  | Some a => Normal a
  | None => Throw "TypeError"
  end.

(** [a.slice(0, n)] and [a.slice(-n)]. *)
Definition sliceTo {A : Type} (l : list A) (n : nat) : list A := firstn n l.
Definition sliceLast {A : Type} (l : list A) (n : nat) : list A :=
  skipn (List.length l - n) l.

(** [a.sort(cmp)]: the sort is stable; [cmp x y] is the sign that matters,
    [None] standing for NaN, which counts as zero.  For a comparator that
    orders the elements consistently the stable sorted arrangement is
    unique, and insertion from the right computes it.  For a comparator
    that is not consistent, as one that yields NaN for some pairs only, the
    language leaves the arrangement to the implementation; the one computed
    here is then one of those allowed and need not be the one an engine
    yields.  The properties that speak of an order are stated for
    comparisons that are consistent. *)
Definition comesAfter {A : Type} (cmp : A -> A -> option Z) (x y : A) : bool :=
  match cmp x y with
  | Some v => (0 <? v)%Z
  | None => false
  end.

Fixpoint insertSorted {A : Type} (cmp : A -> A -> option Z) (x : A) (l : list A)
  : list A :=
  match l with
  | [] => [x]
  | y :: r => if comesAfter cmp x y then y :: insertSorted cmp x r else x :: y :: r
  end.

Definition sort {A : Type} (cmp : A -> A -> option Z) (l : list A) : list A :=
  fold_right (insertSorted cmp) [] l.

End JS.

Notation "x <- c ;; k" := (JS.bind c (fun x => k))
  (at level 61, c at next level, right associativity).

(** ** Part II. Records kept by the store *)

(** An issue-tracker task as the code reads it: [key], [fields?.summary]
    and [fields?.status?.name]. *)
Module Task.
Record t : Type := { key : string; summary : option string; statusName : option string }.
End Task.

(** A pull request as the code reads it. *)
Module PullRequest.
Record t : Type := { title : string; state : option string; comment_count : option nat }.
End PullRequest.

(** A stored standup.  A text field that is absent behaves like the empty
    string in every test the code applies to it. *)
Module Standup.
Record t : Type := {
  id : string;
  teamMemberName : string;
  timestamp : string;
  yesterday : string;
  today : string;
  blockers : string;
  jiraTasks : option (list Task.t);
  bitbucketPRs : option (list PullRequest.t)
}.
End Standup.

(** ** Part III. [services/storageService.js]: [getTeamMetrics] *)

Module MemberStats.
Record t : Type := {
  standupCount : nat;
  totalTasks : nat;
  totalPRs : nat;
  blockers : list string
}.
End MemberStats.

(** A cell of the blocker-frequency table: a count, or the text that
    [(cell || 0) + 1] produces once a function has been read from the
    prototype chain. *)
Inductive Freq : Type :=
| Count (n : nat)
| Text (s : string).

Module TopBlocker.
Record t : Type := { blocker : string; count : Freq }.
End TopBlocker.

Module Metrics.
Record t : Type := {
  totalStandups : nat;
  activeMembers : nat;
  averageTasksPerMember : JS.number;
  averagePRsPerMember : JS.number;
  topBlockers : list TopBlocker.t;
  memberStats : option (JS.Obj MemberStats.t)
}.
End Metrics.

(** What one listed object yields: nothing usable (the read fails, the body
    is empty or is not JSON), or the standups parsed from it (a body that is
    a single record counts as a one-element array). *)
Inductive StoredObject : Type :=
| Unreadable
| Records (standups : list Standup.t).

Module Tables.
Record t : Type := {
  allStandups : list Standup.t;
  memberStats : JS.Obj MemberStats.t;
  blockerFrequency : JS.Obj Freq
}.
End Tables.

(** [startDate && standup.timestamp < startDate] *)
Definition beforeStart (startDate : option string) (standup : Standup.t) : bool :=
  match startDate with
  | Some d => JS.truthy d && JS.stringLt (Standup.timestamp standup) d
  | None => false
  end.

(** [endDate && standup.timestamp > endDate] *)
Definition afterEnd (endDate : option string) (standup : Standup.t) : bool :=
  match endDate with
  | Some d => JS.truthy d && JS.stringLt d (Standup.timestamp standup)
  | None => false
  end.

(** [standup.blockers && standup.blockers.toLowerCase() !== 'none'] *)
Definition reportsBlocker (text : string) : bool :=
  JS.truthy text && negb (String.eqb (JS.toLowerCase text) "none").

Definition blockerKey (text : string) : string :=
  JS.substring (JS.toLowerCase text) 0 50.

(** The source text of the native function found under an inherited name. *)
Definition nativeSource (k : string) : string :=
  String.append "function "
    (String.append (if String.eqb k "constructor" then "Object" else k)
                   "() { [native code] }").

(** [blockerFrequency[blockerKey] = (blockerFrequency[blockerKey] || 0) + 1].
    Under [__proto__] the read gives the prototype object and the write of
    the resulting string is ignored by the setter. *)
Definition countBlocker (table : JS.Obj Freq) (k : string) : JS.Obj Freq :=
  match JS.getOwn table k with
  | Some (Count n) => JS.setOwn table k (Count (n + 1))
  | Some (Text s) => JS.setOwn table k (Text (String.append s "1"))
  | None =>
      if String.eqb k "__proto__" then table
      else if JS.inherited k then JS.setOwn table k (Text (String.append (nativeSource k) "1"))
      else JS.setOwn table k (Count 1)
  end.

Definition newStats : MemberStats.t :=
  {| MemberStats.standupCount := 0; MemberStats.totalTasks := 0;
     MemberStats.totalPRs := 0; MemberStats.blockers := [] |}.

Definition taskCount (standup : Standup.t) : nat :=
  match Standup.jiraTasks standup with Some l => List.length l | None => 0 end.

Definition prCount (standup : Standup.t) : nat :=
  match Standup.bitbucketPRs standup with Some l => List.length l | None => 0 end.

(** The statements from [stats.standupCount++] to the end of the loop body,
    for a [stats] object that is an own property of [memberStats]. *)
Definition record (standup : Standup.t) (stats : MemberStats.t) : MemberStats.t :=
  {| MemberStats.standupCount := MemberStats.standupCount stats + 1;
     MemberStats.totalTasks := MemberStats.totalTasks stats + taskCount standup;
     MemberStats.totalPRs := MemberStats.totalPRs stats + prCount standup;
     MemberStats.blockers :=
       if reportsBlocker (Standup.blockers standup)
       then MemberStats.blockers stats ++ [Standup.blockers standup]
       else MemberStats.blockers stats |}.

(** One iteration of [for (const standup of standups)].  The tables are
    mutated in place, so they are returned also when the iteration throws.

    When [memberStats] has no own property for the member but the name is
    inherited, [!memberStats[name]] is false, [stats] is the inherited
    function or prototype object, the three updates land on that object,
    and [stats.blockers.push] throws because it has no [blockers]. *)
Definition visit (startDate endDate : option string) (t : Tables.t)
  (standup : Standup.t) : Tables.t * JS.Completion unit :=
  if beforeStart startDate standup then (t, JS.Normal tt)
  else if afterEnd endDate standup then (t, JS.Normal tt)
  else
    let name := Standup.teamMemberName standup in
    let all := Tables.allStandups t ++ [standup] in
    let counted :=
      if reportsBlocker (Standup.blockers standup)
      then countBlocker (Tables.blockerFrequency t) (blockerKey (Standup.blockers standup))
      else Tables.blockerFrequency t in
    match JS.getOwn (Tables.memberStats t) name with
    | Some stats =>
        ({| Tables.allStandups := all;
            Tables.memberStats := JS.setOwn (Tables.memberStats t) name (record standup stats);
            Tables.blockerFrequency := counted |}, JS.Normal tt)
    | None =>
        if JS.inherited name then
          ({| Tables.allStandups := all;
              Tables.memberStats := Tables.memberStats t;
              Tables.blockerFrequency := Tables.blockerFrequency t |},
           if reportsBlocker (Standup.blockers standup)
           then JS.Throw "TypeError" else JS.Normal tt)
        else
          ({| Tables.allStandups := all;
              Tables.memberStats := JS.setOwn (Tables.memberStats t) name (record standup newStats);
              Tables.blockerFrequency := counted |}, JS.Normal tt)
    end.

(** The loop over the standups of one object; a throw leaves the loop. *)
Fixpoint visitAll (startDate endDate : option string) (t : Tables.t)
  (standups : list Standup.t) : Tables.t * JS.Completion unit :=
  match standups with
  | [] => (t, JS.Normal tt)
  | standup :: rest =>
      match visit startDate endDate t standup with
      | (t', JS.Normal _) => visitAll startDate endDate t' rest
      | (t', JS.Throw e) => (t', JS.Throw e)
      end
  end.

(** The body of [for (const obj of objects)]: whatever is thrown inside is
    caught and logged, and the loop goes on with the next object. *)
Definition readObject (startDate endDate : option string) (t : Tables.t)
  (obj : StoredObject) : Tables.t :=
  match obj with
  | Unreadable => t
  | Records standups => fst (visitAll startDate endDate t standups)
  end.

Definition emptyTables : Tables.t :=
  {| Tables.allStandups := []; Tables.memberStats := []; Tables.blockerFrequency := [] |}.

Definition aggregate (startDate endDate : option string) (objects : list StoredObject)
  : Tables.t :=
  fold_left (readObject startDate endDate) objects emptyTables.

(** [([, a], [, b]) => b - a] on the entries of the frequency table; the
    difference is NaN as soon as one side is a text (every text stored in
    the table starts with [function]). *)
Definition byCountDescending (x y : string * Freq) : option Z :=
  match snd x, snd y with
  | Count a, Count b => Some (Z.of_nat b - Z.of_nat a)%Z
  | _, _ => None
  end.

Definition toTopBlocker (entry : string * Freq) : TopBlocker.t :=
  {| TopBlocker.blocker := fst entry; TopBlocker.count := snd entry |}.

Definition sumOf (f : MemberStats.t -> nat) (l : list MemberStats.t) : nat :=
  fold_left (fun sum stats => sum + f stats) l 0.

(** [Math.round(total / activeMembers * 100) / 100] *)
Definition roundedAverage (total activeMembers : nat) : JS.number :=
  if 0 <? activeMembers
  then JS.div (JS.round (JS.mul (JS.div (JS.ofNat total) (JS.ofNat activeMembers))
                                (JS.ofNat 100)))
              (JS.ofNat 100)
  else JS.ofNat 0.

(** [getTeamMetrics(startDate, endDate)], as a function of the objects the
    store lists under the prefix.  Every statement that can throw sits inside
    the [try] of the loop over the objects, so the outer [catch] is never
    entered and is left out. *)
Definition getTeamMetrics (startDate endDate : option string)
  (objects : list StoredObject) : Metrics.t :=
  match objects with
  | [] =>
      {| Metrics.totalStandups := 0; Metrics.activeMembers := 0;
         Metrics.averageTasksPerMember := JS.ofNat 0;
         Metrics.averagePRsPerMember := JS.ofNat 0;
         Metrics.topBlockers := []; Metrics.memberStats := None |}
  | _ =>
      let t := aggregate startDate endDate objects in
      let activeMembers := List.length (JS.keys (Tables.memberStats t)) in
      let totalTasks := sumOf MemberStats.totalTasks (JS.values (Tables.memberStats t)) in
      let totalPRs := sumOf MemberStats.totalPRs (JS.values (Tables.memberStats t)) in
      let topBlockers :=
        map toTopBlocker
          (JS.sliceTo (JS.sort byCountDescending (JS.entries (Tables.blockerFrequency t))) 5) in
      {| Metrics.totalStandups := List.length (Tables.allStandups t);
         Metrics.activeMembers := activeMembers;
         Metrics.averageTasksPerMember := roundedAverage totalTasks activeMembers;
         Metrics.averagePRsPerMember := roundedAverage totalPRs activeMembers;
         Metrics.topBlockers := topBlockers;
         Metrics.memberStats := Some (Tables.memberStats t) |}
  end.

(** ** Part IV. [handlers/dataHandler.js] *)

Module InsightType.
Inductive t : Type := info | concern | positive | warning.
End InsightType.

Inductive Priority : Type := low | medium | high.

Module Insight.
Record t : Type := { type : InsightType.t; message : string; priority : Priority }.
End Insight.

(** [count > n] for a cell of the frequency table. *)
Definition freqGt (c : Freq) (n : nat) : bool :=
  match c with
  | Count k => n <? k
  | Text _ => false
  end.

Definition participationInsight (metrics : Metrics.t) : list Insight.t :=
  if 0 <? Metrics.activeMembers metrics then
    let avgStandupsPerMember :=
      JS.div (JS.ofNat (Metrics.totalStandups metrics))
             (JS.ofNat (Metrics.activeMembers metrics)) in
    if JS.lt avgStandupsPerMember (JS.ofNat 5) then
      [ {| Insight.type := InsightType.concern;
           Insight.message := "Low standup participation - encourage regular updates";
           Insight.priority := medium |} ]
    else if JS.gt avgStandupsPerMember (JS.ofNat 20) then
      [ {| Insight.type := InsightType.positive;
           Insight.message := "Excellent standup participation across the team";
           Insight.priority := low |} ]
    else []
  else [].

Definition workloadInsights (metrics : Metrics.t) : list Insight.t :=
  (if JS.gt (Metrics.averageTasksPerMember metrics) (JS.ofNat 8) then
     [ {| Insight.type := InsightType.warning;
          Insight.message := "High average task load - consider workload distribution";
          Insight.priority := high |} ]
   else [])
  ++
  (if JS.gt (Metrics.averagePRsPerMember metrics) (JS.ofNat 5) then
     [ {| Insight.type := InsightType.warning;
          Insight.message := "Many open PRs per member - prioritize reviews";
          Insight.priority := medium |} ]
   else []).

Definition blockerInsight (metrics : Metrics.t) : JS.Completion (list Insight.t) :=
  if 0 <? List.length (Metrics.topBlockers metrics) then
    topBlocker <- JS.elementAt (Metrics.topBlockers metrics) 0 ;;
    if freqGt (TopBlocker.count topBlocker) 3 then
      JS.Normal
        [ {| Insight.type := InsightType.concern;
             Insight.message :=
               String.append "Recurring blocker detected: "
                 (String.append JS.quote
                    (String.append (TopBlocker.blocker topBlocker)
                       (String.append JS.quote " - needs attention")));
             Insight.priority := high |} ]
    else JS.Normal []
  else JS.Normal [].

(** [generateTeamInsights(metrics)] *)
Definition generateTeamInsights (metrics : Metrics.t) : JS.Completion (list Insight.t) :=
  if Metrics.totalStandups metrics =? 0 then
    JS.Normal
      [ {| Insight.type := InsightType.info;
           Insight.message := "No standup data available yet";
           Insight.priority := low |} ]
  else
    let insights := participationInsight metrics ++ workloadInsights metrics in
    blocked <- blockerInsight metrics ;;
    JS.Normal (insights ++ blocked).

(** [generateTeamRecommendations(metrics)]; no statement of it can throw. *)
Definition generateTeamRecommendations (metrics : Metrics.t) : list string :=
  if Metrics.totalStandups metrics =? 0 then
    [ "Start conducting regular standup meetings" ]
  else
    let recommendations :=
      (if Metrics.activeMembers metrics <? 5
       then [ "Encourage more team members to participate in standups" ] else [])
      ++ (if JS.gt (Metrics.averageTasksPerMember metrics) (JS.ofNat 6)
          then [ "Review task distribution and consider load balancing" ] else [])
      ++ (if JS.gt (Metrics.averagePRsPerMember metrics) (JS.ofNat 3)
          then [ "Implement regular PR review sessions" ] else [])
      ++ (if 2 <? List.length (Metrics.topBlockers metrics)
          then [ "Schedule blocker resolution sessions";
                 "Consider creating a blocker escalation process" ] else []) in
    if List.length recommendations =? 0
    then [ "Team metrics look healthy - keep up the good work!" ]
    else recommendations.

(** *** Trends *)

Inductive Direction : Type := stable | increasing | decreasing.

Module Trends.
Record t : Type := { taskTrend : Direction; prTrend : Direction; blockerTrend : Direction }.
End Trends.

Inductive TrendAnalysis : Type :=
| NotEnoughData (message : string)
| Analysed (trends : Trends.t).

(** [counts.reduce((sum, count) => sum + count, 0) / counts.length] *)
Definition average (counts : list nat) : JS.number :=
  JS.div (fold_left (fun sum count => JS.add sum (JS.ofNat count)) counts (JS.ofNat 0))
         (JS.ofNat (List.length counts)).

(** The two comparisons that decide a direction. *)
Definition direction (recentAvg earlierAvg : JS.number) : Direction :=
  if JS.gt recentAvg (JS.mul earlierAvg (JS.literal 12 1)) then increasing
  else if JS.lt recentAvg (JS.mul earlierAvg (JS.literal 8 1)) then decreasing
  else stable.

Section AnalyzeMemberTrends.

(** [new Date(timestamp)] as the number of milliseconds it stands for;
    [None] is the invalid date, whose value is NaN. *)
Variable dateValue : string -> option Z.

(** [(a, b) => new Date(a.timestamp) - new Date(b.timestamp)] *)
Definition byTimestamp (a b : Standup.t) : option Z :=
  match dateValue (Standup.timestamp a), dateValue (Standup.timestamp b) with
  | Some x, Some y => Some (x - y)%Z
  | _, _ => None
  end.

(** [analyzeMemberTrends(recentUpdates)].  [blockerTrend] is initialised to
    ['stable'] and never assigned again. *)
Definition analyzeMemberTrends (recentUpdates : list Standup.t) : TrendAnalysis :=
  if List.length recentUpdates <? 3 then
    NotEnoughData "Not enough data for trend analysis"
  else
    let sortedUpdates := JS.sort byTimestamp recentUpdates in
    let recentTasks := map taskCount (JS.sliceLast sortedUpdates 3) in
    let earlierTasks := map taskCount (JS.sliceTo sortedUpdates 3) in
    let recentAvgTasks := average recentTasks in
    let earlierAvgTasks := average earlierTasks in
    let recentPRs := map prCount (JS.sliceLast sortedUpdates 3) in
    let earlierPRs := map prCount (JS.sliceTo sortedUpdates 3) in
    let recentAvgPRs := average recentPRs in
    let earlierAvgPRs := average earlierPRs in
    Analysed
      {| Trends.taskTrend := direction recentAvgTasks earlierAvgTasks;
         Trends.prTrend := direction recentAvgPRs earlierAvgPRs;
         Trends.blockerTrend := stable |}.

End AnalyzeMemberTrends.

(** The time value of a timestamp in the form [Date.prototype.toISOString]
    writes, [YYYY-MM-DDTHH:mm:ss.sssZ], which is the form in which
    [processStandup] stamps every standup.  The hour 24 is read as the end
    of the day when minutes, seconds and milliseconds are zero.  The
    function instantiates [dateValue] in the examples; a text in any other
    form is taken as an invalid date. *)
Definition twoDigits (a b : ascii) : option Z :=
  match JS.digitValue a, JS.digitValue b with
  | Some x, Some y => Some (Z.of_N (10 * x + y))
  | _, _ => None
  end.

(** Days from 1970-01-01 to the given civil date. *)
Definition daysFromCivil (y m d : Z) : Z :=
  let y' := (if m <=? 2 then y - 1 else y)%Z in
  let era := (y' / 400)%Z in
  let yoe := (y' - era * 400)%Z in
  let mp := ((m + 9) mod 12)%Z in
  let doy := ((153 * mp + 2) / 5 + d - 1)%Z in
  let doe := (yoe * 365 + yoe / 4 - yoe / 100 + doy)%Z in
  (era * 146097 + doe - 719468)%Z.

Definition isoDateValue (timestamp : string) : option Z :=
  match list_ascii_of_string timestamp with
  | [y1; y2; y3; y4; d1; m1; m2; d2; a1; a2; t; h1; h2; c1; n1; n2; c2; s1; s2; p; f1; f2; f3; z] =>
      if Ascii.eqb d1 "-" && Ascii.eqb d2 "-" && Ascii.eqb t "T" && Ascii.eqb c1 ":"
         && Ascii.eqb c2 ":" && Ascii.eqb p "." && Ascii.eqb z "Z" then
        match twoDigits y1 y2, twoDigits y3 y4, twoDigits m1 m2, twoDigits a1 a2,
              twoDigits h1 h2, twoDigits n1 n2, twoDigits s1 s2,
              JS.digitValue f1, twoDigits f2 f3 with
        | Some yh, Some yl, Some mo, Some da, Some ho, Some mi, Some se, Some fh, Some fl =>
            if ((1 <=? mo) && (mo <=? 12) && (1 <=? da) && (da <=? 31)
                && (mi <=? 59) && (se <=? 59)
                && ((ho <=? 23)
                    || ((ho =? 24) && (mi =? 0) && (se =? 0)
                        && (Z.of_N fh =? 0) && (fl =? 0))))%Z
            then Some ((((daysFromCivil (100 * yh + yl) mo da * 24 + ho) * 60 + mi) * 60 + se)
                       * 1000 + 100 * Z.of_N fh + fl)%Z
            else None
        | _, _, _, _, _, _, _, _, _ => None
        end
      else None
  | _ => None
  end.

(** *** Recurring blockers *)

(** An element of the list [analyzeIndividualBlockers] builds (the
    follow-up questions it also copies play no part below). *)
Module BlockerEntry.
Record t : Type := { date : string; blocker : string }.
End BlockerEntry.

Module Recurring.
Record t : Type := { blocker : string; occurrences : nat }.
End Recurring.

(** [array.map((x, index) => ...)]: the elements with their indices. *)
Definition indexed {A : Type} (l : list A) : list (nat * A) :=
  combine (seq 0 (List.length l)) l.

(** [findRecurringBlockers(blockers)] *)
Definition findRecurringBlockers (blockers : list BlockerEntry.t) : list Recurring.t :=
  let blockerTexts := map (fun b => JS.toLowerCase (BlockerEntry.blocker b)) blockers in
  let recurring :=
    flat_map
      (fun entry : nat * string =>
         let (index, blocker) := entry in
         let similarBlockers :=
           filter
             (fun other : nat * string =>
                negb (fst other =? index)
                && JS.includes (snd other) (JS.substring blocker 0 20))
             (indexed blockerTexts) in
         if 0 <? List.length similarBlockers then
           [ {| Recurring.blocker := JS.substring blocker 0 100;
                Recurring.occurrences := List.length similarBlockers + 1 |} ]
         else [])
      (indexed blockerTexts) in
  JS.sliceTo recurring 3.

(** *** Productivity *)

Inductive Productivity : Type := NoData | High | Medium | Low.

(** [calculateProductivityScore(tasks, prs, blockers, standups)] *)
Definition calculateProductivityScore (tasks prs blockers standups : JS.number)
  : Productivity :=
  if JS.strictEq standups (JS.ofNat 0) then NoData
  else
    let taskScore := JS.mul (JS.div tasks standups) (JS.ofNat 2) in
    let prScore := JS.mul (JS.div prs standups) (JS.literal 15 1) in
    let blockerPenalty := JS.mul (JS.div blockers standups) (JS.ofNat 2) in
    let score := JS.sub (JS.add taskScore prScore) blockerPenalty in
    if JS.gt score (JS.ofNat 6) then High
    else if JS.gt score (JS.ofNat 3) then Medium
    else Low.

(** ** Part V. [services/aiService.js] *)

(** A JSON value.  A number keeps the text of its literal: no function
    below looks at the value of a number. *)
#[warnings="-register-all"]
Inductive JSON : Type :=
| JNull
| JBool (b : bool)
| JNumber (literal : string)
| JString (s : string)
| JArray (elements : list JSON)
| JObject (members : list (string * JSON)).

(** [extractQuestionsFromText(text)] *)

(** [s.replace(/^\d+\.\s*/, '')] *)
Fixpoint dropDigits (s : string) : string :=
  match s with
  | String c r => if JS.isDigit c then dropDigits r else s
  | EmptyString => s
  end.

Definition stripNumbering (s : string) : string :=
  match s with
  | String c _ =>
      if JS.isDigit c then
        match dropDigits s with
        | String d r => if Ascii.eqb d "." then JS.trimStart r else s
        | EmptyString => s
        end
      else s
  | EmptyString => s
  end.

(** [s.replace(/^[-*]\s*/, '')] *)
Definition stripBullet (s : string) : string :=
  match s with
  | String c r => if Ascii.eqb c "-" || Ascii.eqb c "*" then JS.trimStart r else s
  | EmptyString => s
  end.

Definition extractQuestionsFromText (text : string) : list string :=
  flat_map
    (fun line =>
       let trimmed := JS.trim line in
       if JS.endsWith trimmed "?" && (10 <? String.length trimmed) then
         let cleaned := JS.trim (stripBullet (stripNumbering trimmed)) in
         if 5 <? String.length cleaned then [cleaned] else []
       else [])
    (JS.split text JS.LF).

(** [generateFallbackQuestions(standupData, tasks, prs)] on a standup whose
    fields are texts.  The function on values of any type is
    [OnValues.generateFallbackQuestions] below, with which this one agrees
    on texts. *)
Definition isOpen (pr : PullRequest.t) : bool :=
  match PullRequest.state pr with
  | Some st => String.eqb st "OPEN"
  | None => false
  end.

Definition generateFallbackQuestions (standupData : Standup.t)
  (tasks : list Task.t) (prs : list PullRequest.t) : list string :=
  let blockers := Standup.blockers standupData in
  let aboutBlockers :=
    if JS.truthy blockers
       && negb (String.eqb (JS.toLowerCase blockers) "none")
       && negb (String.eqb (JS.trim blockers) "")
    then
      [ String.append "What specific help do you need to resolve the blocker: "
          (String.append JS.quote
             (String.append (JS.substring blockers 0 50)
                (String.append "..." (String.append JS.quote "?"))));
        "How long do you estimate it will take to resolve your current blockers?" ]
    else [] in
  let openPRs := filter isOpen prs in
  let aboutPRs :=
    if 2 <? List.length openPRs then
      [ String.append "You have "
          (String.append (JS.natToString (List.length openPRs))
             " open PRs. Which ones are priority for review and merge?") ]
    else [] in
  let aboutTasks :=
    if 5 <? List.length tasks then
      [ String.append "With "
          (String.append (JS.natToString (List.length tasks))
             " assigned tasks, how are you prioritizing your work?") ]
    else [] in
  let questions := aboutBlockers ++ aboutPRs ++ aboutTasks in
  if List.length questions =? 0 then
    [ "Are there any dependencies on other team members that might affect your today's plan?";
      "Do you need any additional resources or support to complete your planned work?";
      "Are there any risks or concerns about meeting your sprint commitments?" ]
  else questions.

(** [buildContextForAI(standupData, previousUpdates, tasks, prs)] *)
Definition nl : string := String JS.LF EmptyString.

Definition orElse (s : option string) (default : string) : string :=
  match s with
  | Some v => if JS.truthy v then v else default
  | None => default
  end.

Definition taskLine (entry : nat * Task.t) : string :=
  let (index, task) := entry in
  String.concat ""
    [ JS.natToString (index + 1); ". "; orElse (Task.summary task) (Task.key task);
      " - Status: "; orElse (Task.statusName task) "Unknown"; nl ].

Definition prLine (entry : nat * PullRequest.t) : string :=
  let (index, pr) := entry in
  let commentCount := match PullRequest.comment_count pr with Some n => n | None => 0 end in
  let state := orElse (PullRequest.state pr) "Unknown" in
  String.concat ""
    [ JS.natToString (index + 1); ". "; PullRequest.title pr; " - State: "; state;
      ", Comments: "; JS.natToString commentCount; nl ].

Definition buildContextForAI (standupData : Standup.t) (previousUpdates : list Standup.t)
  (tasks : list Task.t) (prs : list PullRequest.t) : string :=
  String.concat ""
    [ "Team Member: "; Standup.teamMemberName standupData; nl;
      "Date: "; Standup.timestamp standupData; nl; nl;
      "CURRENT STANDUP:"; nl;
      "Yesterday: "; Standup.yesterday standupData; nl;
      "Today: "; Standup.today standupData; nl;
      "Blockers: "; Standup.blockers standupData; nl; nl;
      (if 0 <? List.length tasks then
         String.concat ""
           [ "JIRA TASKS ("; JS.natToString (List.length tasks); " total):"; nl;
             String.concat "" (map taskLine (indexed (JS.sliceTo tasks 5))); nl ]
       else "");
      (if 0 <? List.length prs then
         String.concat ""
           [ "PULL REQUESTS ("; JS.natToString (List.length prs); " total):"; nl;
             String.concat "" (map prLine (indexed (JS.sliceTo prs 5))); nl ]
       else "");
      match nth_error previousUpdates (List.length previousUpdates - 1) with
      | Some recentUpdate =>
          String.concat ""
            [ "RECENT HISTORY:"; nl;
              "Last standup blockers: ";
              orElse (Some (Standup.blockers recentUpdate)) "None"; nl;
              "Previous updates count: "; JS.natToString (List.length previousUpdates);
              nl; nl ]
      | None => ""
      end ].

Definition promptFor (context : string) : string :=
  String.concat ""
    [ "You are an AI assistant helping with daily standup meetings. Based on the following information, generate 3-5 intelligent follow-up questions that a scrum master or team lead would ask.";
      nl; nl; "Context:"; nl; context; nl; nl; "Focus on:"; nl;
      "1. Incomplete or delayed tasks"; nl;
      "2. Unmerged PRs with many comments"; nl;
      "3. Recurring blockers"; nl;
      "4. Dependencies between team members"; nl;
      "5. Risk identification"; nl;
      "6. Progress tracking"; nl; nl;
      "Generate questions that are:"; nl;
      "- Specific and actionable"; nl;
      "- Professional and supportive"; nl;
      "- Focused on removing blockers"; nl;
      "- Aimed at improving team productivity"; nl; nl;
      "Return only the questions as a JSON array of strings, no additional text." ].

(** The parsed body of the model's answer, reduced to what the code reads
    from it, [responseBody.content[0].text]: the text, or no text block to
    read (the access throws, or yields [undefined], on which both
    [JSON.parse] and [split] throw). *)
Inductive ResponseBody : Type :=
| NoTextBlock
| TextBlock (text : string).

Definition contentText (responseBody : ResponseBody) : JS.Completion string :=
  match responseBody with
  | TextBlock text => JS.Normal text
  | NoTextBlock => JS.Throw "TypeError"
  end.

(** [Array.isArray(questions) && questions.length !== 0] *)
Definition isNonEmptyArray (v : JSON) : bool :=
  match v with
  | JArray l => negb (List.length l =? 0)
  | _ => false
  end.

(** [questions.slice(0, 5)] *)
Definition firstFive (v : JSON) : JS.Completion (list JSON) :=
  match v with
  | JArray l => JS.Normal (JS.sliceTo l 5)
  | _ => JS.Throw "TypeError"
  end.

Section GenerateFollowUpQuestions.

(** The generative-text service: [bedrockClient.send] followed by the
    decoding of the body.  A [Throw] is a rejected call, a timeout reported
    by the client, or a body that is not JSON. *)
Variable invokeModel : string -> JS.Completion ResponseBody.

(** [JSON.parse]; a [Throw] is its [SyntaxError]. *)
Variable JSONparse : string -> JS.Completion JSON.

Definition fallbackArray (standupData : Standup.t) (tasks : list Task.t)
  (prs : list PullRequest.t) : JSON :=
  JArray (map JString (generateFallbackQuestions standupData tasks prs)).

(** [generateFollowUpQuestions({ standupData, previousUpdates, tasks, prs })] *)
Definition generateFollowUpQuestions (standupData : Standup.t)
  (previousUpdates : list Standup.t) (tasks : list Task.t) (prs : list PullRequest.t)
  : JS.Completion (list JSON) :=
  JS.tryCatch
    (let context := buildContextForAI standupData previousUpdates tasks prs in
     let prompt := promptFor context in
     responseBody <- invokeModel prompt ;;
     questions <-
       JS.tryCatch
         (content <- contentText responseBody ;;
          questions <-
            JS.tryCatch (JSONparse content)
              (fun _ => JS.Normal (JArray (map JString (extractQuestionsFromText content)))) ;;
          if negb (isNonEmptyArray questions)
          then JS.Normal (fallbackArray standupData tasks prs)
          else JS.Normal questions)
         (fun _ => JS.Normal (fallbackArray standupData tasks prs)) ;;
     firstFive questions)
    (fun _ => JS.Normal (map JString (generateFallbackQuestions standupData tasks prs))).

End GenerateFollowUpQuestions.

(** *** A reader of JSON texts

    The grammar of [JSON.parse] on texts whose strings stay within code
    units below 256 (an escape [\uXXXX] above that is refused).  It serves
    to run the functions above on concrete answers of the model. *)

Definition isJSONSpace (c : ascii) : bool :=
  let n := JS.code c in (n =? 32) || (n =? 9) || (n =? 10) || (n =? 13).

Fixpoint skipSpace (s : list ascii) : list ascii :=
  match s with
  | c :: r => if isJSONSpace c then skipSpace r else s
  | [] => []
  end.

Definition hexValue (c : ascii) : option nat :=
  let n := JS.code c in
  if (48 <=? n) && (n <=? 57) then Some (n - 48)
  else if (65 <=? n) && (n <=? 70) then Some (n - 55)
  else if (97 <=? n) && (n <=? 102) then Some (n - 87)
  else None.

(** The characters of a string literal after its opening quote. *)
Fixpoint readString (fuel : nat) (s : list ascii) (acc : string)
  : option (string * list ascii) :=
  match fuel with
  | O => None
  | S fuel' =>
      match s with
      | [] => None
      | c :: r =>
          if JS.code c =? 34 then Some (JS.reverse EmptyString acc, r)
          else if JS.code c =? 92 then
            match r with
            | e :: r' =>
                let simple (x : nat) := readString fuel' r' (String (ascii_of_nat x) acc) in
                if JS.code e =? 34 then simple 34
                else if JS.code e =? 92 then simple 92
                else if JS.code e =? 47 then simple 47
                else if Ascii.eqb e "b" then simple 8
                else if Ascii.eqb e "f" then simple 12
                else if Ascii.eqb e "n" then simple 10
                else if Ascii.eqb e "r" then simple 13
                else if Ascii.eqb e "t" then simple 9
                else if Ascii.eqb e "u" then
                  match r' with
                  | h1 :: h2 :: h3 :: h4 :: r'' =>
                      match hexValue h1, hexValue h2, hexValue h3, hexValue h4 with
                      | Some 0, Some 0, Some a, Some b =>
                          readString fuel' r'' (String (ascii_of_nat (16 * a + b)) acc)
                      | _, _, _, _ => None
                      end
                  | _ => None
                  end
                else None
            | [] => None
            end
          else if JS.code c <? 32 then None
          else readString fuel' r (String c acc)
      end
  end.

Fixpoint readDigits (s : list ascii) (acc : string) : string * list ascii :=
  match s with
  | c :: r => if JS.isDigit c then readDigits r (String c acc) else (acc, s)
  | [] => (acc, [])
  end.

(** A number literal: an optional minus sign, then a single zero or a run
    of digits that does not start with zero, then optionally a point with
    at least one digit, then optionally an exponent mark with an optional
    sign and at least one digit. *)
Definition readNumber (s : list ascii) : option (string * list ascii) :=
  let (sign, s1) :=
    match s with
    | c :: r => if Ascii.eqb c "-" then (String c EmptyString, r) else (EmptyString, s)
    | [] => (EmptyString, s)
    end in
  match s1 with
  | c :: r =>
      if JS.isDigit c then
        let (int, s2) :=
          if Ascii.eqb c "0" then (String c sign, r) else readDigits r (String c sign) in
        let afterFraction :=
          match s2 with
          | d :: (f :: r') =>
              if Ascii.eqb d "." && JS.isDigit f
              then Some (readDigits r' (String f (String d int)))
              else if Ascii.eqb d "." then None else Some (int, s2)
          | [d] => if Ascii.eqb d "." then None else Some (int, s2)
          | [] => Some (int, s2)
          end in
        match afterFraction with
        | None => None
        | Some (frac, s3) =>
            match s3 with
            | e :: r' =>
                if Ascii.eqb e "e" || Ascii.eqb e "E" then
                  let (withSign, s4) :=
                    match r' with
                    | g :: r'' =>
                        if Ascii.eqb g "+" || Ascii.eqb g "-"
                        then (String g (String e frac), r'')
                        else (String e frac, r')
                    | [] => (String e frac, r')
                    end in
                  match s4 with
                  | x :: r'' =>
                      if JS.isDigit x then
                        let (all, s5) := readDigits r'' (String x withSign) in
                        Some (JS.reverse EmptyString all, s5)
                      else None
                  | [] => None
                  end
                else Some (JS.reverse EmptyString frac, s3)
            | [] => Some (JS.reverse EmptyString frac, s3)
            end
        end
      else None
  | [] => None
  end.

Fixpoint expect (word : list ascii) (s : list ascii) : option (list ascii) :=
  match word, s with
  | [], _ => Some s
  | w :: word', c :: r => if Ascii.eqb w c then expect word' r else None
  | _ :: _, [] => None
  end.

Fixpoint readValue (fuel : nat) (s : list ascii) : option (JSON * list ascii) :=
  match fuel with
  | O => None
  | S fuel' =>
      let elements :=
        fix elements (n : nat) (s : list ascii) (acc : list JSON)
          : option (list JSON * list ascii) :=
          match n with
          | O => None
          | S n' =>
              match readValue fuel' s with
              | Some (v, r) =>
                  match skipSpace r with
                  | c :: r' =>
                      if Ascii.eqb c "," then elements n' r' (v :: acc)
                      else if Ascii.eqb c "]" then Some (rev (v :: acc), r')
                      else None
                  | [] => None
                  end
              | None => None
              end
          end in
      let members :=
        fix members (n : nat) (s : list ascii) (acc : list (string * JSON))
          : option (list (string * JSON) * list ascii) :=
          match n with
          | O => None
          | S n' =>
              match skipSpace s with
              | q :: r =>
                  if JS.code q =? 34 then
                    match readString fuel' r EmptyString with
                    | Some (k, r1) =>
                        match skipSpace r1 with
                        | c :: r2 =>
                            if Ascii.eqb c ":" then
                              match readValue fuel' r2 with
                              | Some (v, r3) =>
                                  match skipSpace r3 with
                                  | d :: r4 =>
                                      if Ascii.eqb d "," then members n' r4 ((k, v) :: acc)
                                      else if Ascii.eqb d "}" then Some (rev ((k, v) :: acc), r4)
                                      else None
                                  | [] => None
                                  end
                              | None => None
                              end
                            else None
                        | [] => None
                        end
                    | None => None
                    end
                  else None
              | [] => None
              end
          end in
      match skipSpace s with
      | [] => None
      | c :: r =>
          if Ascii.eqb c "n" then option_map (pair JNull) (expect (list_ascii_of_string "ull") r)
          else if Ascii.eqb c "t" then option_map (pair (JBool true)) (expect (list_ascii_of_string "rue") r)
          else if Ascii.eqb c "f" then option_map (pair (JBool false)) (expect (list_ascii_of_string "alse") r)
          else if JS.code c =? 34 then
            option_map (fun p => (JString (fst p), snd p)) (readString fuel' r EmptyString)
          else if Ascii.eqb c "[" then
            match skipSpace r with
            | d :: r' =>
                if Ascii.eqb d "]" then Some (JArray [], r')
                else option_map (fun p => (JArray (fst p), snd p)) (elements fuel' (d :: r') [])
            | [] => None
            end
          else if Ascii.eqb c "{" then
            match skipSpace r with
            | d :: r' =>
                if Ascii.eqb d "}" then Some (JObject [], r')
                else option_map (fun p => (JObject (fst p), snd p)) (members fuel' (d :: r') [])
            | [] => None
            end
          else option_map (fun p => (JNumber (fst p), snd p)) (readNumber (c :: r))
      end
  end.

Definition readJSON (text : string) : JS.Completion JSON :=
  let s := list_ascii_of_string text in
  match readValue (S (List.length s)) s with
  | Some (v, r) =>
      match skipSpace r with
      | [] => JS.Normal v
      | _ :: _ => JS.Throw "SyntaxError"
      end
  | None => JS.Throw "SyntaxError"
  end.

(** ** Part V-b. [handlers/dataHandler.js]: summaries and blocker analysis *)

(** A standup as [processStandup] completes it before it is stored: the
    fields of the standup, the follow-up questions and the number of
    previous updates that were at hand.  The property [analysisMetadata],
    which is stored as well and which nothing reads, is left out. *)
Module StandupRecord.
Record t : Type := {
  standup : Standup.t;
  followUpQuestions : option (list JSON);
  previousUpdatesCount : option nat
}.
End StandupRecord.

(** [Math.round((total / count) * 100) / 100] and
    [Math.round((total / count) * 100)] *)
Definition percentOf (total count : nat) : JS.number :=
  JS.round (JS.mul (JS.div (JS.ofNat total) (JS.ofNat count)) (JS.ofNat 100)).

Definition toTwoDecimals (total count : nat) : JS.number :=
  JS.div (percentOf total count) (JS.ofNat 100).

(** [updates.reduce((sum, update) => sum + (count(update) || 0), 0)] *)
Definition totalOf (count : Standup.t -> nat) (updates : list Standup.t) : nat :=
  fold_left (fun sum update => sum + count update) updates 0.

(** [update.blockers && update.blockers.toLowerCase() !== 'none'
     && update.blockers.trim() !== ''] *)
Definition reportsVisibleBlocker (text : string) : bool :=
  JS.truthy text
  && negb (String.eqb (JS.toLowerCase text) "none")
  && negb (String.eqb (JS.trim text) "").

Inductive Consistency : Type := NoRecord | Excellent | Good | Fair | Poor.

Module Summary.
Record t : Type := {
  totalStandups : nat;
  averageTasksPerStandup : JS.number;
  averagePRsPerStandup : JS.number;
  blockerFrequency : JS.number;
  productivity : Productivity;
  consistency : Consistency
}.
End Summary.

(** The two classifications of [calculateMemberSummary]. *)
Definition summaryProductivity (averageTasks averagePRs blockerFrequency : JS.number)
  : Productivity :=
  let productivityScore :=
    JS.sub (JS.add (JS.mul averageTasks (JS.ofNat 2)) averagePRs)
           (JS.div blockerFrequency (JS.ofNat 10)) in
  if JS.gt productivityScore (JS.ofNat 8) then High
  else if JS.gt productivityScore (JS.ofNat 4) then Medium
  else Low.

Definition consistencyOf (standups : nat) (days : Z) : Consistency :=
  let expectedStandups := JS.ofZ (Z.min days 30) in
  let consistencyRate :=
    JS.mul (JS.div (JS.ofNat standups) expectedStandups) (JS.ofNat 100) in
  if JS.gt consistencyRate (JS.ofNat 80) then Excellent
  else if JS.gt consistencyRate (JS.ofNat 60) then Good
  else if JS.gt consistencyRate (JS.ofNat 40) then Fair
  else Poor.

(** [calculateMemberSummary(recentUpdates, days)] *)
Definition calculateMemberSummary (recentUpdates : list Standup.t) (days : Z)
  : Summary.t :=
  let count := List.length recentUpdates in
  if count =? 0 then
    {| Summary.totalStandups := count;
       Summary.averageTasksPerStandup := JS.ofNat 0;
       Summary.averagePRsPerStandup := JS.ofNat 0;
       Summary.blockerFrequency := JS.ofNat 0;
       Summary.productivity := NoData;
       Summary.consistency := NoRecord |}
  else
    let totalTasks := totalOf taskCount recentUpdates in
    let totalPRs := totalOf prCount recentUpdates in
    let blockersCount :=
      List.length
        (filter (fun update => reportsVisibleBlocker (Standup.blockers update))
                recentUpdates) in
    let averageTasks := toTwoDecimals totalTasks count in
    let averagePRs := toTwoDecimals totalPRs count in
    let blockerFrequency := percentOf blockersCount count in
    {| Summary.totalStandups := count;
       Summary.averageTasksPerStandup := averageTasks;
       Summary.averagePRsPerStandup := averagePRs;
       Summary.blockerFrequency := blockerFrequency;
       Summary.productivity := summaryProductivity averageTasks averagePRs blockerFrequency;
       Summary.consistency := consistencyOf count days |}.

(** [generateMemberInsights(recentUpdates, summary)]; the first argument is
    not read. *)
Definition generateMemberInsights (recentUpdates : list Standup.t) (summary : Summary.t)
  : list string :=
  (match Summary.productivity summary with
   | High => [ "Maintaining high productivity levels" ]
   | Low => [ "Consider reviewing workload and removing blockers" ]
   | _ => []
   end)
  ++ (match Summary.consistency summary with
      | Poor => [ "Irregular standup participation - try to maintain daily updates" ]
      | Excellent => [ "Excellent standup consistency" ]
      | _ => []
      end)
  ++ (if JS.gt (Summary.blockerFrequency summary) (JS.ofNat 50)
      then [ "High blocker frequency - may need additional support" ]
      else if JS.strictEq (Summary.blockerFrequency summary) (JS.ofNat 0)
      then [ "No blockers reported - smooth workflow" ]
      else []).

(** *** Blockers of one member *)

Module ReportedBlocker.
Record t : Type := { date : string; blocker : string; followUpQuestions : list JSON }.
End ReportedBlocker.

Module BlockerAnalysis.
Record t : Type := {
  teamMember : string;
  totalBlockers : nat;
  blockerFrequency : JS.number;
  recentBlockers : list ReportedBlocker.t;
  recurringBlockers : list Recurring.t;
  recommendations : list string
}.
End BlockerAnalysis.

(** [generateBlockerRecommendations(blockers)] *)
Definition generateBlockerRecommendations (blockers : list ReportedBlocker.t)
  : list string :=
  if List.length blockers =? 0 then
    [ "No recent blockers - workflow is smooth" ]
  else
    (if 5 <? List.length blockers
     then [ "High blocker frequency - consider process improvements" ] else [])
    ++ (match JS.sliceTo blockers 3 with
        | first :: _ =>
            [ String.append "Address current blocker: "
                (String.append (JS.substring (ReportedBlocker.blocker first) 0 50) "...") ]
        | [] => []
        end)
    ++ [ "Schedule 1:1 to discuss blocker resolution strategies" ].

(** What [findRecurringBlockers] reads of a reported blocker. *)
Definition toBlockerEntry (b : ReportedBlocker.t) : BlockerEntry.t :=
  {| BlockerEntry.date := ReportedBlocker.date b;
     BlockerEntry.blocker := ReportedBlocker.blocker b |}.

Definition toReportedBlocker (update : StandupRecord.t) : ReportedBlocker.t :=
  {| ReportedBlocker.date := Standup.timestamp (StandupRecord.standup update);
     ReportedBlocker.blocker := Standup.blockers (StandupRecord.standup update);
     ReportedBlocker.followUpQuestions :=
       match StandupRecord.followUpQuestions update with
       | Some questions => questions
       | None => []
       end |}.

(** [analyzeIndividualBlockers(teamMember, recentUpdates)] *)
Definition analyzeIndividualBlockers (teamMember : string)
  (recentUpdates : list StandupRecord.t) : BlockerAnalysis.t :=
  let blockers :=
    map toReportedBlocker
      (filter (fun update => reportsBlocker (Standup.blockers (StandupRecord.standup update)))
              recentUpdates) in
  {| BlockerAnalysis.teamMember := teamMember;
     BlockerAnalysis.totalBlockers := List.length blockers;
     BlockerAnalysis.blockerFrequency :=
       if 0 <? List.length recentUpdates
       then percentOf (List.length blockers) (List.length recentUpdates)
       else JS.ofNat 0;
     BlockerAnalysis.recentBlockers := JS.sliceTo blockers 5;
     BlockerAnalysis.recurringBlockers := findRecurringBlockers (map toBlockerEntry blockers);
     BlockerAnalysis.recommendations := generateBlockerRecommendations blockers |}.

(** *** Productivity of one member and of the team *)

Module IndividualMetrics.
Record t : Type := {
  totalStandups : nat;
  averageTasksPerStandup : JS.number;
  averagePRsPerStandup : JS.number;
  blockerRate : JS.number
}.
End IndividualMetrics.

Module IndividualProductivity.
Record t : Type := {
  teamMember : string;
  productivity : Productivity;
  metrics : option IndividualMetrics.t
}.
End IndividualProductivity.

(** [calculateIndividualProductivity(teamMember, history)]; [metrics] is
    [None] for the empty object of the no-data answer. *)
Definition calculateIndividualProductivity (teamMember : string)
  (history : list Standup.t) : IndividualProductivity.t :=
  if List.length history =? 0 then
    {| IndividualProductivity.teamMember := teamMember;
       IndividualProductivity.productivity := NoData;
       IndividualProductivity.metrics := None |}
  else
    let totalTasks := totalOf taskCount history in
    let totalPRs := totalOf prCount history in
    let totalBlockers :=
      List.length (filter (fun entry => reportsBlocker (Standup.blockers entry)) history) in
    {| IndividualProductivity.teamMember := teamMember;
       IndividualProductivity.productivity :=
         calculateProductivityScore (JS.ofNat totalTasks) (JS.ofNat totalPRs)
           (JS.ofNat totalBlockers) (JS.ofNat (List.length history));
       IndividualProductivity.metrics :=
         Some {| IndividualMetrics.totalStandups := List.length history;
                 IndividualMetrics.averageTasksPerStandup :=
                   toTwoDecimals totalTasks (List.length history);
                 IndividualMetrics.averagePRsPerStandup :=
                   toTwoDecimals totalPRs (List.length history);
                 IndividualMetrics.blockerRate :=
                   percentOf totalBlockers (List.length history) |} |}.

Module TeamMetricsView.
Record t : Type := {
  totalMembers : nat;
  totalStandups : nat;
  averageTasksPerMember : JS.number;
  averagePRsPerMember : JS.number
}.
End TeamMetricsView.

Module TeamProductivity.
Record t : Type := { scope : string; productivity : Productivity; metrics : TeamMetricsView.t }.
End TeamProductivity.

(** [calculateTeamProductivity(teamMetrics)] *)
Definition calculateTeamProductivity (teamMetrics : Metrics.t) : TeamProductivity.t :=
  {| TeamProductivity.scope := "Team";
     TeamProductivity.productivity :=
       if JS.gt (Metrics.averageTasksPerMember teamMetrics) (JS.ofNat 5) then High
       else if JS.gt (Metrics.averageTasksPerMember teamMetrics) (JS.ofNat 3) then Medium
       else Low;
     TeamProductivity.metrics :=
       {| TeamMetricsView.totalMembers := Metrics.activeMembers teamMetrics;
          TeamMetricsView.totalStandups := Metrics.totalStandups teamMetrics;
          TeamMetricsView.averageTasksPerMember := Metrics.averageTasksPerMember teamMetrics;
          TeamMetricsView.averagePRsPerMember := Metrics.averagePRsPerMember teamMetrics |} |}.

Module TeamBlockers.
Record t : Type := {
  scope : string;
  topBlockers : list TopBlocker.t;
  totalMembers : nat;
  recommendations : list string
}.
End TeamBlockers.

(** [analyzeTeamBlockers(teamMetrics)] *)
Definition analyzeTeamBlockers (teamMetrics : Metrics.t) : TeamBlockers.t :=
  {| TeamBlockers.scope := "Team-wide";
     TeamBlockers.topBlockers := Metrics.topBlockers teamMetrics;
     TeamBlockers.totalMembers := Metrics.activeMembers teamMetrics;
     TeamBlockers.recommendations :=
       if 0 <? List.length (Metrics.topBlockers teamMetrics)
       then [ "Address recurring blockers"; "Implement blocker escalation process" ]
       else [ "Team has minimal blockers - good workflow" ] |}.

(** ** Part V-c. [services/aiService.js]: [analyzeStandupPatterns] *)

(** What the code reads from the parsed body of the model's answer,
    [responseBody.content[0].text]: the access throws (no [content], or no
    first block), the block has no [text], or the text. *)
Inductive AnswerBody : Type :=
| NoBlock
| NoText
| AnswerText (text : string).

(** The two canned analyses. *)
Definition textList (texts : list string) : JSON := JArray (map JString texts).

Definition completedAnalysis : JSON :=
  JObject [ ("trends", textList [ "Analysis completed" ]);
            ("concerns", textList []);
            ("recommendations", textList [ "Continue current work patterns" ]) ].

Definition unavailableAnalysis : JSON :=
  JObject [ ("trends", textList [ "Unable to analyze patterns" ]);
            ("concerns", textList [ "AI analysis unavailable" ]);
            ("recommendations", textList [ "Manual review recommended" ]) ].

Section AnalyzeStandupPatterns.

(** [JSON.stringify(value, null, 2)] on a stored record and on an array of
    stored records. *)
Variable stringifyRecord : StandupRecord.t -> string.
Variable stringifyRecords : list StandupRecord.t -> string.

(** [bedrockClient.send] followed by the decoding of the body; a [Throw]
    is a rejected call or a body that is not JSON. *)
Variable invokeModel : string -> JS.Completion AnswerBody.

(** [JSON.parse]; a [Throw] is its [SyntaxError]. *)
Variable JSONparse : string -> JS.Completion JSON.

Definition patternsPromptFor (teamMemberName : string) (currentStandup : StandupRecord.t)
  (historicalData : list StandupRecord.t) : string :=
  String.concat ""
    [ "Analyze the standup patterns for team member "; teamMemberName;
      " and provide insights."; nl; nl;
      "Current Standup:"; nl; stringifyRecord currentStandup; nl; nl;
      "Historical Data (last 5 standups):"; nl;
      stringifyRecords (JS.sliceLast historicalData 5); nl; nl;
      "Provide analysis on:"; nl;
      "1. Productivity trends"; nl;
      "2. Recurring blockers"; nl;
      "3. Task completion patterns"; nl;
      "4. PR merge patterns"; nl;
      "5. Areas for improvement"; nl; nl;
      "Return insights as a JSON object with categories: trends, concerns, recommendations." ].

(** [analyzeStandupPatterns(teamMemberName, currentStandup, historicalData)].
    [JSON.parse(undefined)] throws a [SyntaxError]. *)
Definition analyzeStandupPatterns (teamMemberName : string)
  (currentStandup : StandupRecord.t) (historicalData : list StandupRecord.t)
  : JS.Completion JSON :=
  JS.tryCatch
    (let prompt := patternsPromptFor teamMemberName currentStandup historicalData in
     responseBody <- invokeModel prompt ;;
     match responseBody with
     | NoBlock => JS.Throw "TypeError"
     | NoText => JS.tryCatch (JS.Throw "SyntaxError") (fun _ => JS.Normal completedAnalysis)
     | AnswerText content =>
         JS.tryCatch (JSONparse content) (fun _ => JS.Normal completedAnalysis)
     end)
    (fun _ => JS.Normal unavailableAnalysis).

End AnalyzeStandupPatterns.

(** ** Part V-d. [services/storageService.js]: files and history *)

(** *** Objects of the store *)

(** An entry of a listing, as far as the code reads it. *)
Module S3Object.
Record t : Type := { Key : string; LastModified : Z }.
End S3Object.

(** The body of an object.  The store holds what the program writes to it:
    the JSON text of a record or of an array of records, given here by the
    document it stands for (what [JSON.stringify] was given to write it and
    what [JSON.parse] yields from it), or a text that is not JSON, such as a
    CSV file or an empty body, on which [JSON.parse] throws. *)
Inductive Document : Type :=
| Single (record : StandupRecord.t)
| Array (records : list StandupRecord.t).

Inductive Body : Type :=
| Plain (text : string)
| Json (document : Document).

(** [if (data)] *)
Definition truthyBody (data : Body) : bool :=
  match data with
  | Plain text => JS.truthy text
  | Json _ => true
  end.

(** [JSON.parse(data)] *)
Definition parseBody (data : Body) : JS.Completion Document :=
  match data with
  | Plain _ => JS.Throw "SyntaxError"
  | Json document => JS.Normal document
  end.

(** *** The CSV form of a record *)

(** A value of the flattened record: a text or a counter. *)
Inductive Flat : Type :=
| FText (text : string)
| FCount (n : nat).

Definition joined (texts : list string) : string := String.concat ";" texts.

Section CsvForm.

(** The text of the number that a literal denotes, as [join] prints it. *)
Variable numberToString : string -> string.

(** The text [join] prints for an element of an array. *)
Fixpoint joinedText (v : JSON) : string :=
  match v with
  | JNull => ""
  | JBool b => if b then "true" else "false"
  | JNumber literal => numberToString literal
  | JString s => s
  | JArray elements => String.concat "," (map joinedText elements)
  | JObject _ => "[object Object]"
  end.

(** [flattenStandupRecord(record)]: the object literal, then the properties
    assigned to it. *)
Definition flattenStandupRecord (record : StandupRecord.t) : JS.Obj Flat :=
  let standup := StandupRecord.standup record in
  let flattened : JS.Obj Flat :=
    [ ("id", FText (Standup.id standup));
      ("teamMemberName", FText (Standup.teamMemberName standup));
      ("timestamp", FText (Standup.timestamp standup));
      ("yesterday", FText (Standup.yesterday standup));
      ("today", FText (Standup.today standup));
      ("blockers", FText (Standup.blockers standup));
      ("jiraTasksCount", FCount (taskCount standup));
      ("bitbucketPRsCount", FCount (prCount standup));
      ("openPRsCount",
       FCount (match Standup.bitbucketPRs standup with
               | Some prs => List.length (filter isOpen prs)
               | None => 0
               end));
      ("followUpQuestionsCount",
       FCount (match StandupRecord.followUpQuestions record with
               | Some questions => List.length questions
               | None => 0
               end));
      ("previousUpdatesCount",
       FCount (match StandupRecord.previousUpdatesCount record with
               | Some n => n
               | None => 0
               end)) ] in
  let withTasks :=
    match Standup.jiraTasks standup with
    | Some (task :: tasks) =>
        JS.setOwn
          (JS.setOwn flattened "jiraTaskKeys"
             (FText (joined (map Task.key (task :: tasks)))))
          "jiraTaskStatuses"
          (FText (joined (map (fun t => orElse (Task.statusName t) "Unknown") (task :: tasks))))
    | _ => flattened
    end in
  let withPRs :=
    match Standup.bitbucketPRs standup with
    | Some (pr :: prs) =>
        JS.setOwn
          (JS.setOwn
             (JS.setOwn withTasks "prTitles"
                (FText (joined (map PullRequest.title (pr :: prs)))))
             "prStates"
             (FText (joined (map (fun p => match PullRequest.state p with
                                           | Some st => st
                                           | None => ""
                                           end) (pr :: prs)))))
          "prCommentCounts"
          (FText (joined (map (fun p => JS.natToString
                                          (match PullRequest.comment_count p with
                                           | Some n => n
                                           | None => 0
                                           end)) (pr :: prs))))
    | _ => withTasks
    end in
  match StandupRecord.followUpQuestions record with
  | Some (question :: questions) =>
      JS.setOwn withPRs "followUpQuestions"
        (FText (joined (map joinedText (question :: questions))))
  | _ => withPRs
  end.

End CsvForm.

(** [value.replace(/Q/g, 'QQ')], Q being the double quote. *)
Fixpoint doubleQuotes (s : string) : string :=
  match s with
  | EmptyString => EmptyString
  | String c r =>
      if JS.code c =? 34 then String c (String c (doubleQuotes r))
      else String c (doubleQuotes r)
  end.

Definition needsQuotes (value : string) : bool :=
  JS.includes value "," || JS.includes value JS.quote || JS.includes value nl.

(** The field written for a value of the flattened record. *)
Definition csvField (value : Flat) : string :=
  match value with
  | FText text =>
      if needsQuotes text
      then String.append JS.quote (String.append (doubleQuotes text) JS.quote)
      else text
  | FCount n => JS.natToString n
  end.

Definition csvHeader (flatRecord : JS.Obj Flat) : string :=
  String.concat "," (JS.keys flatRecord).

Definition csvRow (flatRecord : JS.Obj Flat) : string :=
  String.concat "," (map csvField (JS.values flatRecord)).

(** An upload, [putObjectToS3(key, data)], with the content type it
    chooses. *)
Module Upload.
Record t : Type := { Key : string; Data : Body; ContentType : string }.
End Upload.

Definition putObjectToS3 (key : string) (data : Body) : Upload.t :=
  {| Upload.Key := key; Upload.Data := data;
     Upload.ContentType :=
       if JS.endsWith key ".json" then "application/json" else "text/csv" |}.

(** An element of the history: a stored record, or for the CSV format the
    date of a file with its body. *)
Inductive HistoryEntry : Type :=
| Stored (record : StandupRecord.t)
| Raw (date : string) (data : Body).

(** [s.replace(pattern, '')] for a pattern that is a string: the first
    occurrence is removed. *)
Fixpoint removeFirst (pattern s : string) : string :=
  if String.prefix pattern s
  then JS.substring s (String.length pattern) (String.length s)
  else match s with
       | EmptyString => EmptyString
       | String c r => String c (removeFirst pattern r)
       end.

(** [fileName.replace(/\.(json|csv)$/, '')] *)
Definition withoutExtension (fileName : string) : string :=
  if JS.endsWith fileName ".json"
  then JS.substring fileName 0 (String.length fileName - 5)
  else if JS.endsWith fileName ".csv"
  then JS.substring fileName 0 (String.length fileName - 4)
  else fileName.

(** [key.split('/').pop()] *)
Definition baseName (key : string) : string := List.last (JS.split key "/") "".

(** [sorted.slice(0, limit)] for a limit that may be negative. *)
Definition sliceToLimit {A : Type} (l : list A) (limit : Z) : list A :=
  if (0 <=? limit)%Z then firstn (Z.to_nat limit) l
  else firstn (List.length l - Z.to_nat (- limit)) l.

(** The names of the files of a record. *)
Definition dayFileName (standupRecord : StandupRecord.t) (today : string) : string :=
  String.concat ""
    [ "standups/json/"; Standup.teamMemberName (StandupRecord.standup standupRecord);
      "/"; today; ".json" ].

Definition individualFileName (standupRecord : StandupRecord.t) : string :=
  String.concat ""
    [ "standups/json/"; Standup.teamMemberName (StandupRecord.standup standupRecord);
      "/"; Standup.id (StandupRecord.standup standupRecord); ".json" ].

Definition csvFileName (standupRecord : StandupRecord.t) (today : string) : string :=
  String.concat ""
    [ "standups/csv/"; Standup.teamMemberName (StandupRecord.standup standupRecord);
      "/"; today; ".csv" ].

Section Storage.

(** [listObjectsFromS3(prefix)]: the listing, empty when the call fails. *)
Variable listObjectsFromS3 : string -> list S3Object.t.

(** [getObjectFromS3(key)]: the body, [None] for the [null] that stands for
    a missing key, a [Throw] for any other failure. *)
Variable getObjectFromS3 : string -> JS.Completion (option Body).

Variable dateValue : string -> option Z.

(** [JSON.stringify(document, null, 2)] *)
Variable stringify : Document -> string.

Variable numberToString : string -> string.

(** The body of the loops over the listed objects, for the JSON format:
    the records pushed for one object.  Whatever is thrown is caught and
    logged. *)
Definition recordsAt (key : string) : list StandupRecord.t :=
  match
    JS.tryCatch
      (data <- getObjectFromS3 key ;;
       match data with
       | Some data =>
           if truthyBody data then
             parsed <- parseBody data ;;
             JS.Normal (match parsed with
                        | Array records => records
                        | Single record => [record]
                        end)
           else JS.Normal []
       | None => JS.Normal []
       end)
      (fun _ => JS.Normal [])
  with
  | JS.Normal records => records
  | JS.Throw _ => []
  end.

(** [(a, b) => new Date(b.LastModified) - new Date(a.LastModified)] *)
Definition byLastModifiedDescending (a b : S3Object.t) : option Z :=
  Some (S3Object.LastModified b - S3Object.LastModified a)%Z.

(** [(a, b) => new Date(b.timestamp) - new Date(a.timestamp)] *)
Definition byTimestampDescending (a b : StandupRecord.t) : option Z :=
  match dateValue (Standup.timestamp (StandupRecord.standup b)),
        dateValue (Standup.timestamp (StandupRecord.standup a)) with
  | Some x, Some y => Some (x - y)%Z
  | _, _ => None
  end.

(** [getPreviousUpdates(teamMemberName, limit)] *)
Definition getPreviousUpdates (teamMemberName : string) (limit : Z)
  : list StandupRecord.t :=
  let prefix := String.concat "" [ "standups/json/"; teamMemberName; "/" ] in
  let objects := listObjectsFromS3 prefix in
  if List.length objects =? 0 then []
  else
    let sorted := JS.sort byLastModifiedDescending objects in
    let count := Z.to_nat (Z.min (Z.of_nat (List.length sorted)) limit) in
    let updates :=
      flat_map (fun obj => recordsAt (S3Object.Key obj)) (firstn count sorted) in
    sliceToLimit (JS.sort byTimestampDescending updates) limit.

(** The filter on the names of the files. *)
Definition inDateRange (startDate endDate : option string) (obj : S3Object.t) : bool :=
  let fileDate := withoutExtension (baseName (S3Object.Key obj)) in
  let tooEarly :=
    match startDate with
    | Some d => JS.truthy d && JS.stringLt fileDate d
    | None => false
    end in
  let tooLate :=
    match endDate with
    | Some d => JS.truthy d && JS.stringLt d fileDate
    | None => false
    end in
  negb tooEarly && negb tooLate.

Definition given (date : option string) : bool :=
  match date with
  | Some d => JS.truthy d
  | None => false
  end.

(** The entries pushed for one object. *)
Definition entriesAt (format : string) (obj : S3Object.t) : list HistoryEntry :=
  if String.eqb format "json" then map Stored (recordsAt (S3Object.Key obj))
  else
    match getObjectFromS3 (S3Object.Key obj) with
    | JS.Normal (Some data) =>
        if truthyBody data
        then [ Raw (removeFirst ".csv" (baseName (S3Object.Key obj))) data ]
        else []
    | _ => []
    end.

(** [getStandupHistory(teamMemberName, startDate, endDate, format)] *)
Definition getStandupHistory (teamMemberName : string) (startDate endDate : option string)
  (format : string) : list HistoryEntry :=
  let prefix := String.concat "" [ "standups/"; format; "/"; teamMemberName; "/" ] in
  let objects := listObjectsFromS3 prefix in
  if List.length objects =? 0 then []
  else
    let filteredObjects :=
      if given startDate || given endDate
      then filter (inDateRange startDate endDate) objects
      else objects in
    flat_map (entriesAt format) filteredObjects.

(** What [getTeamMetrics] finds in one listed object. *)
Definition storedObjectAt (obj : S3Object.t) : StoredObject :=
  match getObjectFromS3 (S3Object.Key obj) with
  | JS.Normal (Some data) =>
      if truthyBody data then
        match parseBody data with
        | JS.Normal (Array records) => Records (map StandupRecord.standup records)
        | JS.Normal (Single record) => Records [StandupRecord.standup record]
        | JS.Throw _ => Unreadable
        end
      else Unreadable
  | _ => Unreadable
  end.

(** [getTeamMetrics(startDate, endDate)] on the objects listed under
    [standups/json/]. *)
Definition getTeamMetricsOfStore (startDate endDate : option string) : Metrics.t :=
  getTeamMetrics startDate endDate (map storedObjectAt (listObjectsFromS3 "standups/json/")).

(** [saveAsJSON(standupRecord)], as the uploads it asks for, in order, or
    the exception it throws before any upload; the uploads themselves are
    taken to succeed.  [today] is the date part of the current time.  A
    failed read of the day file leaves [dayData] empty; a day file that
    holds a single record parses to an object, on which [push] is not a
    function. *)
Definition saveAsJSON (standupRecord : StandupRecord.t) (today : string)
  : JS.Completion (list Upload.t) :=
  let fileName := dayFileName standupRecord today in
  dayData <-
    match
      JS.tryCatch
        (existingData <- getObjectFromS3 fileName ;;
         match existingData with
         | Some data =>
             if truthyBody data
             then parsed <- parseBody data ;; JS.Normal (Some parsed)
             else JS.Normal None
         | None => JS.Normal None
         end)
        (fun _ => JS.Normal None)
    with
    | JS.Normal (Some (Array records)) => JS.Normal records
    | JS.Normal (Some (Single _)) => JS.Throw "TypeError"
    | JS.Normal None => JS.Normal []
    | JS.Throw error => JS.Throw error
    end ;;
  JS.Normal
    [ putObjectToS3 fileName (Json (Array (dayData ++ [standupRecord])));
      putObjectToS3 (individualFileName standupRecord) (Json (Single standupRecord)) ].

(** The text of a body. *)
Definition textOf (data : Body) : string :=
  match data with
  | Plain text => text
  | Json document => stringify document
  end.

(** [saveAsCSV(standupRecord)], as the upload it asks for. *)
Definition saveAsCSV (standupRecord : StandupRecord.t) (today : string) : Upload.t :=
  let fileName := csvFileName standupRecord today in
  let flatRecord := flattenStandupRecord numberToString standupRecord in
  let existingData :=
    match getObjectFromS3 fileName with
    | JS.Normal (Some data) => textOf data
    | JS.Normal None => ""
    | JS.Throw _ => ""
    end in
  let needsHeader :=
    negb (JS.truthy existingData) || String.eqb (JS.trim existingData) "" in
  let csvContent :=
    if needsHeader then String.append (csvHeader flatRecord) nl else existingData in
  putObjectToS3 fileName
    (Plain (String.append csvContent (String.append (csvRow flatRecord) nl))).

End Storage.

(** *** The bucket *)

(** The store as the program sees it through its three calls: the objects
    of the bucket, each key once; a read finds the object of a key, a write
    replaces it or adds it, a listing shows the keys under a prefix. *)
Module StoredFile.
Record t : Type := { Key : string; Content : Body; LastModified : Z }.
End StoredFile.

Definition Bucket : Type := list StoredFile.t.

Definition getObject (bucket : Bucket) (key : string) : JS.Completion (option Body) :=
  JS.Normal
    (option_map StoredFile.Content
       (find (fun file => String.eqb (StoredFile.Key file) key) bucket)).

(** A write replaces the object of the same key or adds a new one. *)
Fixpoint putObject (bucket : Bucket) (key : string) (data : Body) (now : Z) : Bucket :=
  match bucket with
  | [] => [ {| StoredFile.Key := key; StoredFile.Content := data;
               StoredFile.LastModified := now |} ]
  | file :: rest =>
      if String.eqb (StoredFile.Key file) key
      then {| StoredFile.Key := key; StoredFile.Content := data;
              StoredFile.LastModified := now |} :: rest
      else file :: putObject rest key data now
  end.

Definition upload (now : Z) (bucket : Bucket) (request : Upload.t) : Bucket :=
  putObject bucket (Upload.Key request) (Upload.Data request) now.

Definition byKey (a b : S3Object.t) : option Z :=
  Some (match String.compare (S3Object.Key a) (S3Object.Key b) with
        | Lt => (-1)%Z
        | Eq => 0%Z
        | Gt => 1%Z
        end).

Definition listed (file : StoredFile.t) : S3Object.t :=
  {| S3Object.Key := StoredFile.Key file;
     S3Object.LastModified := StoredFile.LastModified file |}.

(** One page of a listing: the objects under the prefix in the order of
    their keys, a thousand at most. *)
Definition listObjects (bucket : Bucket) (prefix : string) : list S3Object.t :=
  firstn 1000
    (JS.sort byKey
       (map listed (filter (fun file => String.prefix prefix (StoredFile.Key file)) bucket))).

(** The bucket after [saveAsJSON] has run against it, its uploads done at
    the time [now]. *)
Definition savedAsJSON (bucket : Bucket) (standupRecord : StandupRecord.t)
  (today : string) (now : Z) : JS.Completion Bucket :=
  uploads <- saveAsJSON (getObject bucket) standupRecord today ;;
  JS.Normal (fold_left (upload now) uploads bucket).

(** ** Part V-e. The callers: [handlers/standupHandler.js] and the chat handler *)

Inductive InsightKind : Type := recurring_blocker | high_pr_count | pr_review_issues.

Module ReviewDetail.
Record t : Type := { title : string; comments : nat; url : option string }.
End ReviewDetail.

Module StandupInsight.
Record t : Type := {
  type : InsightKind;
  message : string;
  priority : Priority;
  details : option (list ReviewDetail.t)
}.
End StandupInsight.

(** [pr.comment_count && pr.comment_count > 10] *)
Definition hasManyComments (pr : PullRequest.t) : bool :=
  match PullRequest.comment_count pr with
  | Some n => 10 <? n
  | None => false
  end.

Section GenerateInsights.

(** [pr.links?.html?.href], which the record of a pull request does not
    carry. *)
Variable hrefOf : PullRequest.t -> option string.

(** The first block of [generateInsights]: the comparison with the last
    element of [previousUpdates]. *)
Definition recurringBlockerInsight (currentStandup : StandupRecord.t)
  (previousUpdates : list StandupRecord.t) : list StandupInsight.t :=
  match nth_error previousUpdates (List.length previousUpdates - 1) with
  | Some lastUpdate =>
      let current := Standup.blockers (StandupRecord.standup currentStandup) in
      let last := Standup.blockers (StandupRecord.standup lastUpdate) in
      if JS.truthy last && JS.truthy current then
        let currentBlockersLower := JS.toLowerCase current in
        let lastBlockersLower := JS.toLowerCase last in
        if JS.includes currentBlockersLower (JS.substring lastBlockersLower 0 20)
           || JS.includes lastBlockersLower (JS.substring currentBlockersLower 0 20)
        then
          [ {| StandupInsight.type := recurring_blocker;
               StandupInsight.message :=
                 "Similar blockers detected from previous standup. Consider escalating or seeking additional help.";
               StandupInsight.priority := high;
               StandupInsight.details := None |} ]
        else []
      else []
  | None => []
  end.

(** [generateInsights(currentStandup, previousUpdates)]; [filter] throws
    when the record has no array of pull requests. *)
Definition generateInsights (currentStandup : StandupRecord.t)
  (previousUpdates : list StandupRecord.t) : JS.Completion (list StandupInsight.t) :=
  let recurring := recurringBlockerInsight currentStandup previousUpdates in
  match Standup.bitbucketPRs (StandupRecord.standup currentStandup) with
  | None => JS.Throw "TypeError"
  | Some prs =>
      let openPRs := filter isOpen prs in
      let manyOpen :=
        if 3 <? List.length openPRs then
          [ {| StandupInsight.type := high_pr_count;
               StandupInsight.message :=
                 String.concat ""
                   [ "You have "; JS.natToString (List.length openPRs);
                     " open PRs. Consider prioritizing reviews and merges." ];
               StandupInsight.priority := medium;
               StandupInsight.details := None |} ]
        else [] in
      let prsWithManyComments := filter hasManyComments openPRs in
      let reviewIssues :=
        if 0 <? List.length prsWithManyComments then
          [ {| StandupInsight.type := pr_review_issues;
               StandupInsight.message :=
                 String.concat ""
                   [ JS.natToString (List.length prsWithManyComments);
                     " PR(s) have extensive review comments. These may need immediate attention." ];
               StandupInsight.priority := high;
               StandupInsight.details :=
                 Some (map (fun pr =>
                              {| ReviewDetail.title := PullRequest.title pr;
                                 ReviewDetail.comments :=
                                   match PullRequest.comment_count pr with
                                   | Some n => n
                                   | None => 0
                                   end;
                                 ReviewDetail.url := hrefOf pr |})
                           prsWithManyComments) |} ]
        else [] in
      JS.Normal (recurring ++ manyOpen ++ reviewIssues)
  end.

End GenerateInsights.

(** [detectIntent(message)] of the chat handler *)
Inductive Intent : Type :=
| standup_status | team_metrics | task_status | pr_status
| blocker_help | history_query | general_help | general_query.

Definition mentions (text : string) (words : list string) : bool :=
  existsb (JS.includes text) words.

Definition detectIntent (message : string) : Intent :=
  let messageLower := JS.toLowerCase message in
  if mentions messageLower [ "standup"; "update"; "status" ] then standup_status
  else if mentions messageLower [ "team"; "metrics"; "statistics" ] then team_metrics
  else if mentions messageLower [ "task"; "jira"; "ticket" ] then task_status
  else if mentions messageLower [ "pr"; "pull request"; "merge" ] then pr_status
  else if mentions messageLower [ "blocker"; "blocked"; "help" ] then blocker_help
  else if mentions messageLower [ "history"; "previous"; "past" ] then history_query
  else if mentions messageLower [ "help"; "how"; "what" ] then general_help
  else general_query.

(** ** Part V-f. [handlers/dataHandler.js]: the summary of one member *)

(** [text.substring(0, 100) + (text.length > 100 ? '...' : '')] *)
Definition abbreviated (text : string) : string :=
  String.append (JS.substring text 0 100)
                (if 100 <? String.length text then "..." else "").

Module Activity.
Record t : Type := {
  date : string;
  yesterday : string;
  today : string;
  blockers : string;
  tasksCount : nat;
  prsCount : nat
}.
End Activity.

Definition toActivity (update : Standup.t) : Activity.t :=
  {| Activity.date := Standup.timestamp update;
     Activity.yesterday := abbreviated (Standup.yesterday update);
     Activity.today := abbreviated (Standup.today update);
     Activity.blockers := Standup.blockers update;
     Activity.tasksCount := taskCount update;
     Activity.prsCount := prCount update |}.

Module MemberReport.
Record t : Type := {
  summary : Summary.t;
  insights : list string;
  recentActivity : list Activity.t;
  trends : TrendAnalysis
}.
End MemberReport.

(** The answers of [getTeamMemberSummary]: the error 400, the answer for a
    member without recent updates, or the report. *)
Inductive MemberSummaryAnswer : Type :=
| MemberRequired
| NoRecentActivity
| Report (data : MemberReport.t).

Section GetTeamMemberSummary.

Variable listObjectsFromS3 : string -> list S3Object.t.
Variable getObjectFromS3 : string -> JS.Completion (option Body).
Variable dateValue : string -> option Z.

(** [parseInt(text) || 30] on the integer that [parseInt] found, if any. *)
Definition daysOr30 (parsed : option Z) : Z :=
  match parsed with
  | Some days => if (days =? 0)%Z then 30%Z else days
  | None => 30%Z
  end.

(** [getTeamMemberSummary(event)], on the member named in the path and the
    integer read from the query. *)
Definition getTeamMemberSummary (teamMember : option string) (parsedDays : option Z)
  : MemberSummaryAnswer :=
  let days := daysOr30 parsedDays in
  match teamMember with
  | None => MemberRequired
  | Some name =>
      if negb (JS.truthy name) then MemberRequired
      else
        let recentUpdates :=
          map StandupRecord.standup
            (getPreviousUpdates listObjectsFromS3 getObjectFromS3 dateValue name
               (Z.min days 50)) in
        if List.length recentUpdates =? 0 then NoRecentActivity
        else
          let summary := calculateMemberSummary recentUpdates days in
          Report
            {| MemberReport.summary := summary;
               MemberReport.insights := generateMemberInsights recentUpdates summary;
               MemberReport.recentActivity := map toActivity (JS.sliceTo recentUpdates 5);
               MemberReport.trends := analyzeMemberTrends dateValue recentUpdates |}
  end.

End GetTeamMemberSummary.

(** ** Part V-g. [handlers/standupHandler.js]: [processStandup] *)

(** The body of the request once parsed: nothing that can be destructured
    (the text is not JSON, or it is [null]), with the error thrown, or the
    four fields, each a text or absent.  A request with a field that holds
    a value of another type is not among these. *)
Inductive RequestBody : Type :=
| Unparsable (error : string)
| Submitted (teamMemberName yesterday today blockers : option string).

Module StandupSummary.
Record t : Type := {
  yesterday : string;
  today : string;
  blockers : string;
  jiraTasksCount : nat;
  openPRsCount : nat;
  followUpQuestionsCount : nat
}.
End StandupSummary.

Module Processed.
Record t : Type := {
  standupId : string;
  teamMember : string;
  timestamp : string;
  summary : StandupSummary.t;
  followUpQuestions : list JSON;
  insights : list StandupInsight.t
}.
End Processed.

(** The answers: status 400, status 200 with its data, status 500. *)
Inductive StandupAnswer : Type :=
| MissingFields
| Success (data : Processed.t)
| InternalError (message : string).

(** [!field] *)
Definition missing (field : option string) : bool :=
  match field with
  | Some text => negb (JS.truthy text)
  | None => true
  end.

Definition textOr (field : option string) : string :=
  match field with
  | Some text => text
  | None => ""
  end.

Section ProcessStandup.

Variable listObjectsFromS3 : string -> list S3Object.t.
Variable getObjectFromS3 : string -> JS.Completion (option Body).
Variable dateValue : string -> option Z.
Variable stringify : Document -> string.
Variable numberToString : string -> string.

(** The two services asked for the tasks and the pull requests of a
    member; a [Throw] is a rejected promise. *)
Variable getTeamMemberTasks : string -> JS.Completion (list Task.t).
Variable getPRStatus : string -> JS.Completion (list PullRequest.t).

Variable invokeModel : string -> JS.Completion ResponseBody.
Variable JSONparse : string -> JS.Completion JSON.
Variable hrefOf : PullRequest.t -> option string.

(** [process.env.STORAGE_TYPE || 'both'] *)
Variable STORAGE_TYPE : string.

(** [saveStandupData(standupRecord)]: the uploads asked for, and whether
    the call throws.  The two savers run side by side on keys of their own;
    the uploads of [saveAsJSON] are listed first. *)
Definition saveStandupData (standupRecord : StandupRecord.t) (today : string)
  : list Upload.t * JS.Completion unit :=
  let asJSON :=
    if String.eqb STORAGE_TYPE "json" || String.eqb STORAGE_TYPE "both"
    then saveAsJSON getObjectFromS3 standupRecord today
    else JS.Normal [] in
  let asCSV :=
    if String.eqb STORAGE_TYPE "csv" || String.eqb STORAGE_TYPE "both"
    then [ saveAsCSV getObjectFromS3 stringify numberToString standupRecord today ]
    else [] in
  match asJSON with
  | JS.Normal uploads => (uploads ++ asCSV, JS.Normal tt)
  | JS.Throw error => (asCSV, JS.Throw error)
  end.

(** [processStandup(event)] on the parsed body: the uploads it asks for and
    its answer.  [uuid] is the identifier drawn for the standup, [now] the
    current time in ISO form and [today] its date part when the files are
    named. *)
Definition processStandup (body : RequestBody) (uuid now today : string)
  : list Upload.t * StandupAnswer :=
  match body with
  | Unparsable error => ([], InternalError error)
  | Submitted teamMemberName yesterday today' blockers =>
      if missing teamMemberName || missing yesterday || missing today' || missing blockers
      then ([], MissingFields)
      else
        let name := textOr teamMemberName in
        let standupData :=
          {| Standup.id := uuid; Standup.teamMemberName := name;
             Standup.timestamp := now; Standup.yesterday := textOr yesterday;
             Standup.today := textOr today'; Standup.blockers := textOr blockers;
             Standup.jiraTasks := None; Standup.bitbucketPRs := None |} in
        let previousUpdates :=
          getPreviousUpdates listObjectsFromS3 getObjectFromS3 dateValue name 10 in
        let tasks :=
          match getTeamMemberTasks name with JS.Normal value => value | JS.Throw _ => [] end in
        let prs :=
          match getPRStatus name with JS.Normal value => value | JS.Throw _ => [] end in
        match
          generateFollowUpQuestions invokeModel JSONparse standupData
            (map StandupRecord.standup previousUpdates) tasks prs
        with
        | JS.Throw error => ([], InternalError error)
        | JS.Normal followUpQuestions =>
            let completeStandupRecord :=
              {| StandupRecord.standup :=
                   {| Standup.id := uuid; Standup.teamMemberName := name;
                      Standup.timestamp := now; Standup.yesterday := textOr yesterday;
                      Standup.today := textOr today'; Standup.blockers := textOr blockers;
                      Standup.jiraTasks := Some tasks; Standup.bitbucketPRs := Some prs |};
                 StandupRecord.followUpQuestions := Some followUpQuestions;
                 StandupRecord.previousUpdatesCount := Some (List.length previousUpdates) |} in
            match saveStandupData completeStandupRecord today with
            | (uploads, JS.Throw error) => (uploads, InternalError error)
            | (uploads, JS.Normal _) =>
                match generateInsights hrefOf completeStandupRecord previousUpdates with
                | JS.Throw error => (uploads, InternalError error)
                | JS.Normal insights =>
                    (uploads,
                     Success
                       {| Processed.standupId := uuid;
                          Processed.teamMember := name;
                          Processed.timestamp := now;
                          Processed.summary :=
                            {| StandupSummary.yesterday := abbreviated (textOr yesterday);
                               StandupSummary.today := abbreviated (textOr today');
                               StandupSummary.blockers := abbreviated (textOr blockers);
                               StandupSummary.jiraTasksCount := List.length tasks;
                               StandupSummary.openPRsCount := List.length (filter isOpen prs);
                               StandupSummary.followUpQuestionsCount :=
                                 List.length followUpQuestions |};
                          Processed.followUpQuestions := followUpQuestions;
                          Processed.insights := insights |})
                end
            end
        end
  end.

End ProcessStandup.

(** ** Part V-h. The chat handler: two of its queries *)

(** [try { return body } catch (error) { return handler(error) }] *)
Definition orCaught {A : Type} (body : JS.Completion A) (handler : string -> A) : A :=
  match body with
  | JS.Normal a => a
  | JS.Throw error => handler error
  end.

(** [array.map(f)] for an [f] that may throw. *)
Fixpoint mapThrowing {A B : Type} (f : A -> JS.Completion B) (l : list A)
  : JS.Completion (list B) :=
  match l with
  | [] => JS.Normal []
  | a :: r => b <- f a ;; bs <- mapThrowing f r ;; JS.Normal (b :: bs)
  end.

(** [texts.indexOf(text)], [None] standing for -1. *)
Fixpoint indexOf (texts : list string) (text : string) : option nat :=
  match texts with
  | [] => None
  | t :: r => if String.eqb t text then Some 0 else option_map S (indexOf r text)
  end.

(** [update[name]] for a property that holds a text: the six texts of a
    stored record under their names.  [None] stands for [undefined], which
    is what a name that the record does not have gives.  (The other
    properties of a record hold an array, a number or an object and are not
    read through this function.) *)
Definition textProperty (update : StandupRecord.t) (name : string) : option string :=
  let standup := StandupRecord.standup update in
  if String.eqb name "id" then Some (Standup.id standup)
  else if String.eqb name "teamMemberName" then Some (Standup.teamMemberName standup)
  else if String.eqb name "timestamp" then Some (Standup.timestamp standup)
  else if String.eqb name "yesterday" then Some (Standup.yesterday standup)
  else if String.eqb name "today" then Some (Standup.today standup)
  else if String.eqb name "blockers" then Some (Standup.blockers standup)
  else None.

(** [text.toLowerCase()] and [text.substring(0, n)] on a value that may be
    [undefined]. *)
Definition lowerCaseOf (value : option string) : JS.Completion string :=
  match value with
  | Some text => JS.Normal (JS.toLowerCase text)
  | None => JS.Throw "TypeError"
  end.

Definition startOf (value : option string) (n : nat) : JS.Completion string :=
  match value with
  | Some text => JS.Normal (JS.substring text 0 n)
  | None => JS.Throw "TypeError"
  end.

Module ChatType.
Inductive t : Type := info | positive | blocker_analysis | error.
End ChatType.

Module RecentBlocker.
Record t : Type := {
  date : option string;
  blocker : option string;
  followUpQuestions : list JSON
}.
End RecentBlocker.

Module BlockerHelp.
Record t : Type := {
  teamMember : string;
  recentBlockers : list RecentBlocker.t;
  hasRecurringBlockers : bool;
  blockerCount : nat;
  suggestions : list string;
  actionItems : list string
}.
End BlockerHelp.

(** An answer of [handleBlockerHelpQuery]; a property that an answer does
    not have is [None]. *)
Module ChatAnswer.
Record t : Type := {
  message : string;
  type : ChatType.t;
  data : option BlockerHelp.t;
  suggestions : option (list string);
  error : option string
}.
End ChatAnswer.

(** The element that [handleBlockerHelpQuery] makes of an update.  It reads
    the property [blocker]. *)
Definition toRecentBlocker (update : StandupRecord.t) : RecentBlocker.t :=
  {| RecentBlocker.date := textProperty update "timestamp";
     RecentBlocker.blocker := textProperty update "blocker";
     RecentBlocker.followUpQuestions :=
       match StandupRecord.followUpQuestions update with
       | Some questions => questions
       | None => []
       end |}.

Definition memberNeeded : ChatAnswer.t :=
  {| ChatAnswer.message := "Please specify which team member needs help with blockers.";
     ChatAnswer.type := ChatType.info;
     ChatAnswer.data := None;
     ChatAnswer.suggestions := None;
     ChatAnswer.error := None |}.

Section HandleBlockerHelpQuery.

Variable listObjectsFromS3 : string -> list S3Object.t.
Variable getObjectFromS3 : string -> JS.Completion (option Body).
Variable dateValue : string -> option Z.

(** [handleBlockerHelpQuery(teamMember, message)]; the message is not read.
    Nothing throws before the member is tested, so the handler of the
    [catch] is entered with a member only. *)
Definition handleBlockerHelpQuery (teamMember : option string) : ChatAnswer.t :=
  match teamMember with
  | None => memberNeeded
  | Some name =>
      if negb (JS.truthy name) then memberNeeded
      else
        orCaught
          (let recentUpdates :=
             getPreviousUpdates listObjectsFromS3 getObjectFromS3 dateValue name 5 in
           if List.length recentUpdates =? 0 then
             JS.Normal
               {| ChatAnswer.message :=
                    String.concat ""
                      [ "No recent standup data found for "; name; " to analyze blockers." ];
                  ChatAnswer.type := ChatType.info;
                  ChatAnswer.data := None;
                  ChatAnswer.suggestions := None;
                  ChatAnswer.error := None |}
           else
             let recentBlockers :=
               map toRecentBlocker
                 (filter (fun update =>
                            reportsBlocker (Standup.blockers (StandupRecord.standup update)))
                         recentUpdates) in
             if List.length recentBlockers =? 0 then
               JS.Normal
                 {| ChatAnswer.message :=
                      String.concat ""
                        [ "Great news! "; name;
                          " hasn't reported any blockers in their recent standups." ];
                    ChatAnswer.type := ChatType.positive;
                    ChatAnswer.data := None;
                    ChatAnswer.suggestions :=
                      Some [ String.concat "" [ "What is "; name; " working on today?" ];
                             String.concat "" [ "Show me "; name; "'s current tasks" ];
                             String.concat "" [ "How is "; name; "'s progress?" ] ];
                    ChatAnswer.error := None |}
             else
               blockerTexts <-
                 mapThrowing (fun b => lowerCaseOf (RecentBlocker.blocker b)) recentBlockers ;;
               let recurringBlockers :=
                 filter (fun entry : nat * string =>
                           negb (match indexOf blockerTexts (snd entry) with
                                 | Some i => i =? fst entry
                                 | None => false
                                 end))
                        (indexed blockerTexts) in
               let suggestions :=
                 [ "Schedule a 1:1 to discuss blockers in detail";
                   "Identify if additional resources or expertise are needed";
                   "Consider escalating to management if blockers persist";
                   "Pair programming or knowledge sharing session might help" ] in
               first <- JS.elementAt recentBlockers 0 ;;
               firstText <- startOf (RecentBlocker.blocker first) 100 ;;
               JS.Normal
                 {| ChatAnswer.message :=
                      String.concat "" [ "Here's the blocker analysis for "; name; ":" ];
                    ChatAnswer.type := ChatType.blocker_analysis;
                    ChatAnswer.data :=
                      Some {| BlockerHelp.teamMember := name;
                              BlockerHelp.recentBlockers := JS.sliceTo recentBlockers 3;
                              BlockerHelp.hasRecurringBlockers :=
                                0 <? List.length recurringBlockers;
                              BlockerHelp.blockerCount := List.length recentBlockers;
                              BlockerHelp.suggestions := JS.sliceTo suggestions 3;
                              BlockerHelp.actionItems :=
                                [ String.concat "" [ "Follow up on: "; firstText; "..." ];
                                  "Check if blocker is still active";
                                  "Identify who can help resolve this blocker" ] |};
                    ChatAnswer.suggestions :=
                      Some [ String.concat ""
                               [ "How can we help resolve "; name; "'s blockers?" ];
                             "Who else can assist with this issue?";
                             String.concat "" [ "What resources does "; name; " need?" ] ];
                    ChatAnswer.error := None |})
          (fun error =>
             {| ChatAnswer.message :=
                  String.concat ""
                    [ "Sorry, I encountered an error while analyzing blockers for "; name; "." ];
                ChatAnswer.type := ChatType.error;
                ChatAnswer.data := None;
                ChatAnswer.suggestions := None;
                ChatAnswer.error := Some error |})
  end.

End HandleBlockerHelpQuery.

(** The answers of [handleGeneralQuery]. *)
Module GeneralData.
Record t : Type := {
  originalQuery : string;
  teamMember : option string;
  context : option JSON;
  suggestions : list JSON
}.
End GeneralData.

Inductive GeneralAnswer : Type :=
| general_response (message : string) (data : GeneralData.t) (suggestions : list string)
| clarification (message : string) (suggestions : list string).

Section HandleGeneralQuery.

Variable invokeModel : string -> JS.Completion ResponseBody.
Variable JSONparse : string -> JS.Completion JSON.

(** The standup made of the message.  It has no timestamp, for which the
    context prints [undefined], as it does for a member that the request
    does not name; its other properties are not read. *)
Definition standupOfMessage (teamMember : option string) (message : string) : Standup.t :=
  {| Standup.id := "";
     Standup.teamMemberName :=
       match teamMember with Some name => name | None => "undefined" end;
     Standup.timestamp := "undefined";
     Standup.yesterday := "";
     Standup.today := message;
     Standup.blockers := "";
     Standup.jiraTasks := None;
     Standup.bitbucketPRs := None |}.

(** [handleGeneralQuery(teamMember, message, chatContext)] *)
Definition handleGeneralQuery (teamMember : option string) (message : string)
  (chatContext : option JSON) : GeneralAnswer :=
  orCaught
    (followUpQuestions <-
       generateFollowUpQuestions invokeModel JSONparse
         (standupOfMessage teamMember message) [] [] [] ;;
     JS.Normal
       (general_response
          (String.concat ""
             [ "I understand you're asking about: "; JS.quote; message; JS.quote;
               ". Let me help you with that." ])
          {| GeneralData.originalQuery := message;
             GeneralData.teamMember := teamMember;
             GeneralData.context := chatContext;
             GeneralData.suggestions := JS.sliceTo followUpQuestions 3 |}
          [ "Can you be more specific about what you need?";
            "Would you like me to check someone's status?";
            "Do you need help with team metrics?" ]))
    (fun _ =>
       clarification
         "I'm not sure how to help with that specific request. Could you please rephrase or ask about standup status, team metrics, tasks, or PRs?"
         [ "Show me team status";
           "What are the current blockers?";
           "Help me understand the standup process" ]).

End HandleGeneralQuery.

(** ** Part V-i. [services/aiService.js] on values of any type

    [processStandup] tests the four fields of a request for truthiness
    only, and the store returns what was written to it, so the values that
    reach [generateFollowUpQuestions] need not be texts. *)

(** A value read from the body of a request or from a stored record.  The
    code below applies three operations to such a value: the test of its
    truthiness, its printing in a template literal, and the call of a method
    of strings.  A value that is not a text ([undefined], [null], a boolean,
    a number, an array or an object) is given by the outcome of the first
    two: whether it is truthy, and the text that is printed for it or the
    exception that printing it throws (as for an object whose own property
    [toString] is not a function).  The third throws on it: none of these
    values has a method [toLowerCase]. *)
Inductive Value : Type :=
| AText (text : string)
| NotText (truthy : bool) (printed : JS.Completion string).

(** [!!value] *)
Definition truthyValue (value : Value) : bool :=
  match value with
  | AText text => JS.truthy text
  | NotText truthy _ => truthy
  end.

(** The text a template literal prints for the value. *)
Definition printed (value : Value) : JS.Completion string :=
  match value with
  | AText text => JS.Normal text
  | NotText _ text => text
  end.

(** [value.method(...)] for a method of strings. *)
Definition asText (value : Value) : JS.Completion string :=
  match value with
  | AText text => JS.Normal text
  | NotText _ _ => JS.Throw "TypeError"
  end.

(** The object [standupData], and a stored standup, as far as
    [generateFollowUpQuestions] reads them. *)
Module StandupData.
Record t : Type := {
  teamMemberName : Value;
  timestamp : Value;
  yesterday : Value;
  today : Value;
  blockers : Value
}.
End StandupData.

(** A standup whose fields are texts. *)
Definition ofStandup (standup : Standup.t) : StandupData.t :=
  {| StandupData.teamMemberName := AText (Standup.teamMemberName standup);
     StandupData.timestamp := AText (Standup.timestamp standup);
     StandupData.yesterday := AText (Standup.yesterday standup);
     StandupData.today := AText (Standup.today standup);
     StandupData.blockers := AText (Standup.blockers standup) |}.

Module OnValues.

(** [generateFallbackQuestions(standupData, tasks, prs)].  The three tests
    on the blockers are made from left to right, each only when the ones
    before it held. *)
Definition generateFallbackQuestions (standupData : StandupData.t)
  (tasks : list Task.t) (prs : list PullRequest.t) : JS.Completion (list string) :=
  let blockers := StandupData.blockers standupData in
  aboutBlockers <-
    (if truthyValue blockers then
       text <- asText blockers ;;
       if negb (String.eqb (JS.toLowerCase text) "none") then
         text <- asText blockers ;;
         if negb (String.eqb (JS.trim text) "") then
           text <- asText blockers ;;
           JS.Normal
             [ String.append "What specific help do you need to resolve the blocker: "
                 (String.append JS.quote
                    (String.append (JS.substring text 0 50)
                       (String.append "..." (String.append JS.quote "?"))));
               "How long do you estimate it will take to resolve your current blockers?" ]
         else JS.Normal []
       else JS.Normal []
     else JS.Normal []) ;;
  let openPRs := filter isOpen prs in
  let aboutPRs :=
    if 2 <? List.length openPRs then
      [ String.append "You have "
          (String.append (JS.natToString (List.length openPRs))
             " open PRs. Which ones are priority for review and merge?") ]
    else [] in
  let aboutTasks :=
    if 5 <? List.length tasks then
      [ String.append "With "
          (String.append (JS.natToString (List.length tasks))
             " assigned tasks, how are you prioritizing your work?") ]
    else [] in
  let questions := aboutBlockers ++ aboutPRs ++ aboutTasks in
  JS.Normal
    (if List.length questions =? 0 then
       [ "Are there any dependencies on other team members that might affect your today's plan?";
         "Do you need any additional resources or support to complete your planned work?";
         "Are there any risks or concerns about meeting your sprint commitments?" ]
     else questions).

(** [buildContextForAI(standupData, previousUpdates, tasks, prs)]; printing
    a value may throw. *)
Definition buildContextForAI (standupData : StandupData.t)
  (previousUpdates : list StandupData.t) (tasks : list Task.t) (prs : list PullRequest.t)
  : JS.Completion string :=
  teamMemberName <- printed (StandupData.teamMemberName standupData) ;;
  timestamp <- printed (StandupData.timestamp standupData) ;;
  yesterday <- printed (StandupData.yesterday standupData) ;;
  today <- printed (StandupData.today standupData) ;;
  blockers <- printed (StandupData.blockers standupData) ;;
  history <-
    match nth_error previousUpdates (List.length previousUpdates - 1) with
    | Some recentUpdate =>
        lastBlockers <-
          (if truthyValue (StandupData.blockers recentUpdate)
           then printed (StandupData.blockers recentUpdate)
           else JS.Normal "None") ;;
        JS.Normal
          (String.concat ""
             [ "RECENT HISTORY:"; nl;
               "Last standup blockers: "; lastBlockers; nl;
               "Previous updates count: "; JS.natToString (List.length previousUpdates);
               nl; nl ])
    | None => JS.Normal ""
    end ;;
  JS.Normal
    (String.concat ""
       [ "Team Member: "; teamMemberName; nl;
         "Date: "; timestamp; nl; nl;
         "CURRENT STANDUP:"; nl;
         "Yesterday: "; yesterday; nl;
         "Today: "; today; nl;
         "Blockers: "; blockers; nl; nl;
         (if 0 <? List.length tasks then
            String.concat ""
              [ "JIRA TASKS ("; JS.natToString (List.length tasks); " total):"; nl;
                String.concat "" (map taskLine (indexed (JS.sliceTo tasks 5))); nl ]
          else "");
         (if 0 <? List.length prs then
            String.concat ""
              [ "PULL REQUESTS ("; JS.natToString (List.length prs); " total):"; nl;
                String.concat "" (map prLine (indexed (JS.sliceTo prs 5))); nl ]
          else "");
         history ]).

Section GenerateFollowUpQuestions.

(** The generative-text service: [bedrockClient.send] followed by the
    decoding of the body.  A [Throw] is whatever the call throws: an
    exception of the service, a timeout, or a body that is not JSON. *)
Variable invokeModel : string -> JS.Completion ResponseBody.

(** [JSON.parse]; a [Throw] is its [SyntaxError]. *)
Variable JSONparse : string -> JS.Completion JSON.

Definition fallbackArray (standupData : StandupData.t) (tasks : list Task.t)
  (prs : list PullRequest.t) : JS.Completion JSON :=
  questions <- generateFallbackQuestions standupData tasks prs ;;
  JS.Normal (JArray (map JString questions)).

(** [generateFollowUpQuestions({ standupData, previousUpdates, tasks, prs })].
    The fallback generator is called at three places, two of them handlers
    of a [catch]; what it throws in the last one leaves the function. *)
Definition generateFollowUpQuestions (standupData : StandupData.t)
  (previousUpdates : list StandupData.t) (tasks : list Task.t) (prs : list PullRequest.t)
  : JS.Completion (list JSON) :=
  JS.tryCatch
    (context <- buildContextForAI standupData previousUpdates tasks prs ;;
     let prompt := promptFor context in
     responseBody <- invokeModel prompt ;;
     questions <-
       JS.tryCatch
         (content <- contentText responseBody ;;
          questions <-
            JS.tryCatch (JSONparse content)
              (fun _ => JS.Normal (JArray (map JString (extractQuestionsFromText content)))) ;;
          if negb (isNonEmptyArray questions)
          then fallbackArray standupData tasks prs
          else JS.Normal questions)
         (fun _ => fallbackArray standupData tasks prs) ;;
     firstFive questions)
    (fun _ =>
       questions <- generateFallbackQuestions standupData tasks prs ;;
       JS.Normal (map JString questions)).

End GenerateFollowUpQuestions.

End OnValues.

(** ** Part VI. Notions used in the statements *)

(** The score and the buckets as the specification words them:
    [tasks * 2 + prs * 1.5 - (blockerCount / standups) * 10]. *)
Definition specifiedProductivityScore (tasks prs blockerCount standups : JS.number)
  : Productivity :=
  if JS.strictEq standups (JS.ofNat 0) then NoData
  else
    let score :=
      JS.sub (JS.add (JS.mul tasks (JS.ofNat 2)) (JS.mul prs (JS.literal 15 1)))
             (JS.mul (JS.div blockerCount standups) (JS.ofNat 10)) in
    if JS.gt score (JS.ofNat 6) then High
    else if JS.gt score (JS.ofNat 3) then Medium
    else Low.

(** The score the code computes. *)
Definition perStandupScore (tasks prs blockers standups : JS.number) : JS.number :=
  JS.sub (JS.add (JS.mul (JS.div tasks standups) (JS.ofNat 2))
                 (JS.mul (JS.div prs standups) (JS.literal 15 1)))
         (JS.mul (JS.div blockers standups) (JS.ofNat 2)).

Definition noDataInsight : Insight.t :=
  {| Insight.type := InsightType.info; Insight.message := "No standup data available yet";
     Insight.priority := low |}.

Definition sampleTask : Task.t :=
  {| Task.key := "ST-1"; Task.summary := Some "Sample"; Task.statusName := Some "Open" |}.

Definition samplePR : PullRequest.t :=
  {| PullRequest.title := "Sample"; PullRequest.state := Some "OPEN";
     PullRequest.comment_count := Some 0 |}.

(** A standup with the given member, timestamp, blocker text and numbers of
    linked tasks and pull requests. *)
Definition sample (member timestamp blockers : string) (tasks prs : nat) : Standup.t :=
  {| Standup.id := timestamp; Standup.teamMemberName := member;
     Standup.timestamp := timestamp; Standup.yesterday := "Reviewed code";
     Standup.today := "Write tests"; Standup.blockers := blockers;
     Standup.jiraTasks := Some (repeat sampleTask tasks);
     Standup.bitbucketPRs := Some (repeat samplePR prs) |}.

Definition emptyMetrics : Metrics.t := getTeamMetrics None None [].

(** The updates are sorted oldest to newest: every timestamp is a valid
    date and no update is older than one before it. *)
Definition notOlder (dateValue : string -> option Z) (a b : Standup.t) : Prop :=
  exists x y, dateValue (Standup.timestamp a) = Some x
              /\ dateValue (Standup.timestamp b) = Some y /\ (x <= y)%Z.

Definition oldestFirst (dateValue : string -> option Z) (updates : list Standup.t) : Prop :=
  StronglySorted (notOlder dateValue) updates.

(** The averages and the direction policy in exact rational arithmetic, as
    the specification words them. *)
Definition exactAverage (counts : list nat) : Q :=
  Z.of_nat (list_sum counts) # Pos.of_nat (List.length counts).

Definition specifiedDirection (recentAvg earlierAvg : Q) : Direction :=
  if Qlt_le_dec ((12 # 10) * earlierAvg) recentAvg then increasing
  else if Qlt_le_dec recentAvg ((8 # 10) * earlierAvg) then decreasing
  else stable.

Definition allStable : Trends.t :=
  {| Trends.taskTrend := stable; Trends.prTrend := stable; Trends.blockerTrend := stable |}.

(** Six daily updates whose task counts are 2, 2, 1 and then 2, 1, 1. *)
Definition sixUpdates : list Standup.t :=
  [ sample "dana" "2024-03-04T09:00:00.000Z" "None" 2 0;
    sample "dana" "2024-03-05T09:00:00.000Z" "None" 2 0;
    sample "dana" "2024-03-06T09:00:00.000Z" "None" 1 0;
    sample "dana" "2024-03-07T09:00:00.000Z" "None" 2 0;
    sample "dana" "2024-03-08T09:00:00.000Z" "None" 1 0;
    sample "dana" "2024-03-11T09:00:00.000Z" "None" 1 0 ].

Definition threeUpdates : list Standup.t := JS.sliceTo sixUpdates 3.

(** The number of items linked to a record, none when the list is absent. *)
Definition linked {A : Type} (items : option (list A)) : nat :=
  match items with
  | Some l => List.length l
  | None => 0
  end.

(** The average of three counts in binary64: their sum, taken from zero in
    the order of the records, divided by three. *)
Definition meanOfThree (a b c : nat) : JS.number :=
  JS.div (JS.add (JS.add (JS.add (JS.ofNat 0) (JS.ofNat a)) (JS.ofNat b)) (JS.ofNat c))
         (JS.ofNat 3).

(** The direction policy on two averages in binary64: [d] is increasing
    exactly when [recentAvg > earlierAvg * 1.2], decreasing exactly when
    that fails and [recentAvg < earlierAvg * 0.8], and stable exactly when
    both fail. *)
Definition decides (recentAvg earlierAvg : JS.number) (d : Direction) : Prop :=
  (d = increasing <-> JS.gt recentAvg (JS.mul earlierAvg (JS.literal 12 1)) = true)
  /\ (d = decreasing
      <-> JS.gt recentAvg (JS.mul earlierAvg (JS.literal 12 1)) = false
          /\ JS.lt recentAvg (JS.mul earlierAvg (JS.literal 8 1)) = true)
  /\ (d = stable
      <-> JS.gt recentAvg (JS.mul earlierAvg (JS.literal 12 1)) = false
          /\ JS.lt recentAvg (JS.mul earlierAvg (JS.literal 8 1)) = false).

(** Six daily updates whose task counts are 3, 3, 3 and then 1, 1, 1, and
    whose pull-request counts are 1, 1, 1 and then 2, 2, 2. *)
Definition mixedUpdates : list Standup.t :=
  [ sample "dana" "2024-03-04T09:00:00.000Z" "None" 3 1;
    sample "dana" "2024-03-05T09:00:00.000Z" "None" 3 1;
    sample "dana" "2024-03-06T09:00:00.000Z" "None" 3 1;
    sample "dana" "2024-03-07T09:00:00.000Z" "None" 1 2;
    sample "dana" "2024-03-08T09:00:00.000Z" "None" 1 2;
    sample "dana" "2024-03-11T09:00:00.000Z" "None" 1 2 ].

(** What the question generator reads from the model's text: the value of
    [JSON.parse], or, when that throws, the lines found by scanning. *)
Definition questionsFrom (JSONparse : string -> JS.Completion JSON) (content : string)
  : JSON :=
  match JSONparse content with
  | JS.Normal v => v
  | JS.Throw _ => JArray (map JString (extractQuestionsFromText content))
  end.

Definition isNonEmptyString (v : JSON) : bool :=
  match v with
  | JString s => JS.truthy s
  | _ => false
  end.



(** A model that answers every prompt with the same text, and one that
    rejects every call. *)
Definition answering (text : string) : string -> JS.Completion ResponseBody :=
  fun _ => JS.Normal (TextBlock text).

Definition unavailable : string -> JS.Completion ResponseBody :=
  fun _ => JS.Throw "ServiceUnavailableException".

Definition todaysStandup : Standup.t :=
  {| Standup.id := "7f9c"; Standup.teamMemberName := "dana";
     Standup.timestamp := "2024-03-12T09:00:00.000Z";
     Standup.yesterday := "Reviewed code"; Standup.today := "Write tests";
     Standup.blockers := "None"; Standup.jiraTasks := None;
     Standup.bitbucketPRs := None |}.

(** The text [[QQ]], an array holding one empty string (Q the quote). *)
Definition oneEmptyString : string :=
  String.concat "" [ "["; JS.quote; JS.quote; "]" ].

(** The standup of [todaysStandup] with the array [["VPN down"]] as its
    blockers: an array is truthy, and a template literal prints the single
    element of this one. *)
Definition blockersInAnArray : StandupData.t :=
  {| StandupData.teamMemberName := AText "dana";
     StandupData.timestamp := AText "2024-03-12T09:00:00.000Z";
     StandupData.yesterday := AText "Reviewed code";
     StandupData.today := AText "Write tests";
     StandupData.blockers := NotText true (JS.Normal "VPN down") |}.

(** Recurrence as the code decides it, told by positions: the number of
    other texts that contain the first twenty characters of the text at
    position [i], and the entries reported for the positions where that
    number is positive, in the order of the input. *)
Definition containing (texts : list string) (i : nat) : nat :=
  List.length
    (filter (fun j => negb (j =? i)
                      && JS.includes (nth j texts "") (JS.substring (nth i texts "") 0 20))
            (seq 0 (List.length texts))).

Definition reported (texts : list string) : list Recurring.t :=
  flat_map
    (fun i =>
       if 0 <? containing texts i then
         [ {| Recurring.blocker := JS.substring (nth i texts "") 0 100;
              Recurring.occurrences := containing texts i + 1 |} ]
       else [])
    (seq 0 (List.length texts)).

(** The entry reported for the text at position [i]: the text cut to a
    hundred characters, and one more than the number of other texts that
    contain its first twenty characters. *)
Definition entryAt (texts : list string) (i : nat) : Recurring.t :=
  {| Recurring.blocker := JS.substring (nth i texts "") 0 100;
     Recurring.occurrences := containing texts i + 1 |}.

(** The positions of the recurring texts. *)
Definition recurringPositions (texts : list string) : list nat :=
  filter (fun i => 1 <=? containing texts i) (seq 0 (List.length texts)).

(** Recurrence as the specification words it: the other entries are those
    with the same leading twenty characters, the entries returned are the
    three with the highest occurrence counts, and each message is cut to a
    hundred characters and followed by an ellipsis. *)
Definition sharing (texts : list string) (i : nat) : nat :=
  List.length
    (filter (fun j => negb (j =? i)
                      && String.eqb (JS.substring (nth j texts "") 0 20)
                                    (JS.substring (nth i texts "") 0 20))
            (seq 0 (List.length texts))).

Definition byOccurrencesDescending (x y : Recurring.t) : option Z :=
  Some (Z.of_nat (Recurring.occurrences y) - Z.of_nat (Recurring.occurrences x))%Z.

Definition specifiedRecurringBlockers (blockers : list BlockerEntry.t) : list Recurring.t :=
  let texts := map (fun b => JS.toLowerCase (BlockerEntry.blocker b)) blockers in
  let recurring :=
    flat_map
      (fun i =>
         if 1 <=? sharing texts i then
           [ {| Recurring.blocker := String.append (JS.substring (nth i texts "") 0 100) "...";
                Recurring.occurrences := sharing texts i + 1 |} ]
         else [])
      (seq 0 (List.length texts)) in
  JS.sliceTo (JS.sort byOccurrencesDescending recurring) 3.

Definition blockerEntries (texts : list string) : list BlockerEntry.t :=
  map (fun text => {| BlockerEntry.date := "2024-03-12T09:00:00.000Z";
                      BlockerEntry.blocker := text |}) texts.

Definition fiveBlockers : list BlockerEntry.t :=
  blockerEntries [ "VPN down"; "vpn down"; "Waiting for review";
                   "waiting for review"; "waiting for review" ].

(** The sum of the per-member standup counts of a [Metrics] value. *)
Definition standupCountSum (metrics : Metrics.t) : nat :=
  match Metrics.memberStats metrics with
  | Some stats => sumOf MemberStats.standupCount (JS.values stats)
  | None => 0
  end.

(** The standups of all listed objects. *)
Definition standupsOf (objects : list StoredObject) : list Standup.t :=
  flat_map (fun obj => match obj with Unreadable => [] | Records l => l end) objects.

(** One stored standup of a member whose name is [constructor]. *)
Definition namedConstructor : list StoredObject :=
  [ Records [ sample "constructor" "2024-03-12T09:00:00.000Z" "None" 2 1 ] ].

(** [x] stands somewhere before [y] in [l]. *)
Definition before {A : Type} (x y : A) (l : list A) : Prop :=
  exists l1 l2 l3, l = l1 ++ x :: l2 ++ y :: l3.

(** The normalized blocker texts in the order in which the loop of
    [getTeamMetrics] registers them in the frequency table: those of the
    standups in the date range that report a blocker.  Under a member whose
    name is inherited nothing is registered, and a blocker reported there
    ends the reading of the object. *)
Fixpoint keysOfStandups (startDate endDate : option string) (standups : list Standup.t)
  : list string :=
  match standups with
  | [] => []
  | standup :: rest =>
      if beforeStart startDate standup || afterEnd endDate standup
      then keysOfStandups startDate endDate rest
      else if JS.inherited (Standup.teamMemberName standup) then
        if reportsBlocker (Standup.blockers standup) then []
        else keysOfStandups startDate endDate rest
      else if reportsBlocker (Standup.blockers standup)
      then blockerKey (Standup.blockers standup) :: keysOfStandups startDate endDate rest
      else keysOfStandups startDate endDate rest
  end.

Definition registeredKeys (startDate endDate : option string) (objects : list StoredObject)
  : list string :=
  flat_map
    (fun obj =>
       match obj with
       | Unreadable => []
       | Records standups => keysOfStandups startDate endDate standups
       end)
    objects.

Definition occurrences (k : string) (ks : list string) : nat :=
  List.length (filter (String.eqb k) ks).

(** The distinct elements of a list in the order of their first
    occurrences. *)
Fixpoint firstOccurrences (ks : list string) : list string :=
  match ks with
  | [] => []
  | k :: rest => k :: filter (fun k' => negb (String.eqb k' k)) (firstOccurrences rest)
  end.

(** The position of the first occurrence of [k] in [ks]. *)
Fixpoint position (k : string) (ks : list string) : nat :=
  match ks with
  | [] => 0
  | k' :: rest => if String.eqb k' k then 0 else S (position k rest)
  end.

(** The tie-breaking rule as the specification words it. *)
Definition tiesInFirstSeenOrder (seen : list string) (top : list TopBlocker.t) : Prop :=
  forall x y,
    before x y top -> TopBlocker.count x = TopBlocker.count y ->
    position (TopBlocker.blocker x) seen < position (TopBlocker.blocker y) seen.

(** The order of two keys of equal count as the code yields it: array
    indices come first, by ascending index, and two keys that are not array
    indices come in the order of their first occurrences. *)
Definition enumeratedBefore (seen : list string) (k1 k2 : string) : Prop :=
  (JS.isArrayIndex k1 = true /\ JS.isArrayIndex k2 = true
   /\ (JS.indexOf k1 <= JS.indexOf k2)%N)
  \/ (JS.isArrayIndex k1 = true /\ JS.isArrayIndex k2 = false)
  \/ (JS.isArrayIndex k1 = false /\ JS.isArrayIndex k2 = false
      /\ position k1 seen < position k2 seen).

(** The order in which the keys of a table are enumerated when they were
    created in the order of their first occurrences in [seen]: first the
    keys that are array indices, by ascending index, then the other keys in
    creation order.  The key [__proto__] is never created. *)
Fixpoint insertKey (k : string) (ks : list string) : list string :=
  match ks with
  | [] => [k]
  | q :: rest =>
      if (JS.indexOf k <=? JS.indexOf q)%N then k :: q :: rest
      else q :: insertKey k rest
  end.

Definition ascending (ks : list string) : list string := fold_right insertKey [] ks.

Definition created (seen : list string) : list string :=
  firstOccurrences (filter (fun k => negb (String.eqb k "__proto__")) seen).

Definition enumerationOrder (seen : list string) : list string :=
  ascending (filter JS.isArrayIndex (created seen))
  ++ filter (fun k => negb (JS.isArrayIndex k)) (created seen).

(** Two standups, the first blocked by a VPN outage, the second by
    ticket 42. *)
Definition twoBlockers : list StoredObject :=
  [ Records [ sample "dana" "2024-03-11T09:00:00.000Z" "VPN down" 2 1;
              sample "eli" "2024-03-12T09:00:00.000Z" "42" 1 0 ] ].

(** *** Binary64 values

    [normalized s m e] is the value [binary_round_aux] ends with once the
    mantissa has been shifted and rounded to [m] at exponent [e]: one more
    shift if the rounding carried into a new digit, then the test for
    overflow. *)
Definition normalized (s : bool) (m2 e1 : Z) : spec_float :=
  let n2 := Z.max 0 (fexp JS.prec JS.emax (Zdigits2 m2 + e1) - e1)%Z in
  match (m2 / 2 ^ n2)%Z with
  | Z0 => S754_zero s
  | Zpos m => if (e1 + n2 <=? 971)%Z then S754_finite s m (e1 + n2)%Z else S754_infinity s
  | Zneg _ => S754_nan
  end.

(** A mantissa and exponent in canonical form, or a zero mantissa at the
    least exponent. *)
Definition canonicalOrZero (m e : Z) : Prop :=
  (0 <= m)%Z /\ (m = 0%Z -> e = (-1074)%Z)
  /\ ((0 < m)%Z -> fexp JS.prec JS.emax (Zdigits2 m + e)%Z = e).

(** The numbers that sums and averages of counters can be: [+0],
    [+Infinity], or a positive finite value in canonical form. *)
Definition nonNegative (x : JS.number) : Prop :=
  x = S754_zero false \/ x = S754_infinity false
  \/ exists m e, x = S754_finite false m e /\ bounded JS.prec JS.emax m e = true.

(** *** Auxiliary notions of the proofs *)

(** The sum of a field over the own properties, in creation order. *)
Definition tally {V : Type} (f : V -> nat) (o : JS.Obj V) : nat :=
  list_sum (map (fun p => f (snd p)) o).

Definition counted (t : Tables.t) : Prop :=
  tally MemberStats.standupCount (Tables.memberStats t) = List.length (Tables.allStandups t).

(** No inherited name is an own property of the member table. *)
Definition noInheritedMember (t : Tables.t) : Prop :=
  forall k, JS.inherited k = true -> JS.getOwn (Tables.memberStats t) k = None.

(** Lower-cased keys. *)
Fixpoint noUpperCase (s : string) : bool :=
  match s with
  | EmptyString => true
  | String c r => negb (JS.isUpperCase c) && noUpperCase r
  end.

(** The cell the table holds for [k] after the keys [ks] were registered. *)
Definition cell (k : string) (ks : list string) : option Freq :=
  if String.eqb k "__proto__" || (occurrences k ks =? 0) then None
  else Some (Count (occurrences k ks)).

Ltac solve_notOlder :=
  eexists; eexists;
  split; [vm_compute; reflexivity | split; [vm_compute; reflexivity | lia]].

Ltac solve_oldestFirst :=
  unfold oldestFirst;
  repeat first [ apply SSorted_nil | apply SSorted_cons | apply Forall_nil
               | apply Forall_cons | solve_notOlder ].

(** *** Notions of the further properties *)

(** A text that is not empty and holds white space only. *)
Definition isBlank (text : string) : bool :=
  JS.truthy text && String.eqb (JS.trim text) "".

(** The blocker text of a stored record. *)
Definition blockerTextOf (update : StandupRecord.t) : string :=
  Standup.blockers (StandupRecord.standup update).

(** One update whose blocker text is a single space. *)
Definition blankUpdate : list StandupRecord.t :=
  [ {| StandupRecord.standup := sample "dana" "2024-03-11T09:00:00.000Z" " " 0 0;
       StandupRecord.followUpQuestions := None;
       StandupRecord.previousUpdatesCount := None |} ].

(** The consistency decided on the counts: the rate [standups / expected]
    against 80, 60 and 40 per cent, in exact arithmetic. *)
Definition consistencyByCount (standups expected : nat) : Consistency :=
  if 4 * expected <? 5 * standups then Excellent
  else if 3 * expected <? 5 * standups then Good
  else if 2 * expected <? 5 * standups then Fair
  else Poor.

(** Equality of two consistencies, as a test. *)
Definition sameConsistency (a b : Consistency) : bool :=
  match a, b with
  | NoRecord, NoRecord | Excellent, Excellent | Good, Good | Fair, Fair | Poor, Poor => true
  | _, _ => false
  end.

(** The code's classification and the one on the counts agree; and the
    code's two tests on the rounded percentage agree with the counts. *)
Definition consistencyAgrees (expected standups : nat) : bool :=
  sameConsistency (consistencyOf standups (Z.of_nat expected))
                  (consistencyByCount standups expected).

Definition frequencyAgrees (standups blocked : nat) : bool :=
  Bool.eqb (JS.gt (percentOf blocked standups) (JS.ofNat 50))
           (101 * standups <=? 200 * blocked)
  && Bool.eqb (JS.strictEq (percentOf blocked standups) (JS.ofNat 0)) (blocked =? 0).

(** Forty updates without a blocker. *)
Definition fortyUpdates : list Standup.t :=
  repeat (sample "dana" "2024-03-11T09:00:00.000Z" "None" 1 0) 40.

Ltac other_text :=
  repeat match goal with
         | H : In _ [] |- _ => destruct H
         | H : In _ (_ :: _) |- _ => destruct H as [H|H]; [discriminate H|]
         end.

(** Three updates without tasks or pull requests. *)
Definition threeUpdatesWithoutWork : list Standup.t :=
  [ sample "dana" "2024-03-04T09:00:00.000Z" "None" 0 0;
    sample "dana" "2024-03-05T09:00:00.000Z" "Waiting for access" 0 0;
    sample "dana" "2024-03-06T09:00:00.000Z" "Waiting for access" 0 0 ].

(** The time value of the timestamp of an update. *)
Definition timeOf (dateValue : string -> option Z) (update : Standup.t) : Z :=
  match dateValue (Standup.timestamp update) with
  | Some value => value
  | None => 0%Z
  end.

(** The timestamp of the update is read as a date. *)
Definition validDate (dateValue : string -> option Z) (update : Standup.t) : Prop :=
  dateValue (Standup.timestamp update) <> None.

(** The six updates, the newest first. *)
Definition newestFirstUpdates : list Standup.t := rev sixUpdates.

(** The last code unit of a string. *)
Fixpoint lastUnit (s : string) : option ascii :=
  match s with
  | EmptyString => None
  | String c r => match lastUnit r with None => Some c | Some d => Some d end
  end.

(** [y] is what remains of [s] after a number of leading code units. *)
Definition isSuffix (y s : string) : Prop := exists p, s = String.append p y.



(** A standup with one follow-up question, as it is stored. *)
Definition storedAs (record : Standup.t) : StandupRecord.t :=
  {| StandupRecord.standup := record;
     StandupRecord.followUpQuestions := Some [ JString "Are there any risks?" ];
     StandupRecord.previousUpdatesCount := Some 0 |}.

(** The folder of the JSON files of a member. *)
Definition jsonFolder (teamMemberName : string) : string :=
  String.concat "" [ "standups/json/"; teamMemberName; "/" ].

(** The time value of the timestamp of a stored record. *)
Definition recordTime (dateValue : string -> option Z) (record : StandupRecord.t) : Z :=
  timeOf dateValue (StandupRecord.standup record).

(** The timestamp belongs to the day [date]: it is the date followed by a
    time of day. *)
Definition stampedOn (date : string) (standup : Standup.t) : Prop :=
  exists time, time <> "" /\ Standup.timestamp standup = String.append date time.

(** The insight pushed for a blocker that is similar to the last one. *)
Definition recurringBlockerNotice : StandupInsight.t :=
  {| StandupInsight.type := recurring_blocker;
     StandupInsight.message :=
       "Similar blockers detected from previous standup. Consider escalating or seeking additional help.";
     StandupInsight.priority := high;
     StandupInsight.details := None |}.

(** Pull requests without links. *)
Definition noLinks : PullRequest.t -> option string := fun _ => None.

(** Two stored standups of consecutive days, each with one task and one
    open pull request, whose blocker texts are [none] and [None]. *)
Definition noneBefore : StandupRecord.t :=
  storedAs (sample "dana" "2024-03-11T09:00:00.000Z" "none" 1 1).

Definition noneAgain : StandupRecord.t :=
  storedAs (sample "dana" "2024-03-12T09:00:00.000Z" "None" 1 1).

(** What the report of a member is bound to, given the days asked for. *)
Definition boundedReport (days : Z) (data : MemberReport.t) : Prop :=
  let standups := Summary.totalStandups (MemberReport.summary data) in
  1 <= standups <= 50
  /\ (Z.of_nat standups <= days)%Z
  /\ List.length (MemberReport.recentActivity data) = Nat.min 5 standups
  /\ Summary.consistency (MemberReport.summary data)
     = consistencyByCount standups (Z.to_nat (Z.min days 30)).

(** A bucket with one standup saved on the day it is stamped with. *)
Definition oneSavedStandup : Bucket :=
  match savedAsJSON [] (storedAs todaysStandup) "2024-03-12" 1710234000000 with
  | JS.Normal saved => saved
  | JS.Throw _ => []
  end.

(** The warning of [generateTeamInsights] about the task load. *)
Definition highLoadWarning : Insight.t :=
  {| Insight.type := InsightType.warning;
     Insight.message := "High average task load - consider workload distribution";
     Insight.priority := high |}.

(** Two members with nine tasks each on average. *)
Definition busyTeam : Metrics.t :=
  {| Metrics.totalStandups := 12; Metrics.activeMembers := 2;
     Metrics.averageTasksPerMember := JS.ofNat 9;
     Metrics.averagePRsPerMember := JS.ofNat 1;
     Metrics.topBlockers := []; Metrics.memberStats := None |}.

(** The request carries the four fields, each of them a text that is not
    empty. *)
Definition complete (body : RequestBody) : Prop :=
  exists teamMemberName yesterday today blockers,
    body = Submitted (Some teamMemberName) (Some yesterday) (Some today) (Some blockers)
    /\ teamMemberName <> "" /\ yesterday <> "" /\ today <> "" /\ blockers <> "".

(** Services that answer with nothing, and an empty store. *)
Definition noTasks : string -> JS.Completion (list Task.t) := fun _ => JS.Normal [].
Definition noPullRequests : string -> JS.Completion (list PullRequest.t) :=
  fun _ => JS.Normal [].
Definition emptyListing : string -> list S3Object.t := fun _ => [].
Definition nothingStored : string -> JS.Completion (option Body) := fun _ => JS.Normal None.
Definition plainText : Document -> string := fun _ => "".
Definition sameText : string -> string := fun literal => literal.

(** A complete request. *)
Definition danasRequest : RequestBody :=
  Submitted (Some "dana") (Some "Reviewed code") (Some "Write tests") (Some "None").

(** What a successful answer is bound to. *)
Definition wellFormed (data : Processed.t) : Prop :=
  1 <= List.length (Processed.followUpQuestions data) <= 5
  /\ StandupSummary.followUpQuestionsCount (Processed.summary data)
     = List.length (Processed.followUpQuestions data)
  /\ List.length (Processed.insights data) <= 3
  /\ String.length (StandupSummary.yesterday (Processed.summary data)) <= 103
  /\ String.length (StandupSummary.today (Processed.summary data)) <= 103
  /\ String.length (StandupSummary.blockers (Processed.summary data)) <= 103.


(** A store whose listing shows one file, which holds two records. *)
Definition marchTwelfth : S3Object.t :=
  {| S3Object.Key := "standups/json/dana/2024-03-12.json"; S3Object.LastModified := 0 |}.

Definition twoDays : string -> JS.Completion (option Body) :=
  fun _ =>
    JS.Normal
      (Some (Json (Array
         [ storedAs (sample "dana" "2024-03-04T09:00:00.000Z" "None" 2 0);
           storedAs (sample "dana" "2024-03-05T09:00:00.000Z" "None" 1 0) ]))).

Definition oneListedFile : string -> list S3Object.t := fun _ => [ marchTwelfth ].

(** The three questions asked when nothing else is known. *)
Definition defaultQuestions : list JSON :=
  map JString
    [ "Are there any dependencies on other team members that might affect your today's plan?";
      "Do you need any additional resources or support to complete your planned work?";
      "Are there any risks or concerns about meeting your sprint commitments?" ].

(** ** Part VII. Properties *)

(** *** Lists *)

Lemma in_firstn {A : Type} (x : A) (n : nat) (l : list A) :
  In x (firstn n l) -> In x l.
Proof.
  revert l. induction n as [|n IH]; intros l H; [contradiction|].
  destruct l as [|a l]; [contradiction|].
  destruct H as [H|H]; [left; exact H|right; apply IH; exact H].
Qed.

(** *** The insight engine *)

Lemma blockerInsight_returns (metrics : Metrics.t) :
  exists insights, blockerInsight metrics = JS.Normal insights.
Proof.
  unfold blockerInsight, JS.elementAt.
  destruct (Metrics.topBlockers metrics) as [|topBlocker rest]; simpl.
  - eexists; reflexivity.
  - destruct (freqGt (TopBlocker.count topBlocker) 3); eexists; reflexivity.
Qed.

Lemma generateTeamRecommendations_nonempty (metrics : Metrics.t) :
  generateTeamRecommendations metrics <> [].
Proof.
  unfold generateTeamRecommendations.
  destruct (Metrics.totalStandups metrics =? 0); [discriminate|].
  match goal with |- (if List.length ?l =? 0 then _ else _) <> _ => destruct l eqn:E end.
  - discriminate.
  - simpl. discriminate.
Qed.

(** C8. Neither [generateTeamInsights] nor [generateTeamRecommendations]
    throws, whatever the metrics; the recommendations are never empty; and
    for metrics without standups the insights are exactly the informational
    "no data" insight and the recommendations exactly the generic one. *)
Theorem insight_engine_total (metrics : Metrics.t) :
  (exists insights, generateTeamInsights metrics = JS.Normal insights)
  /\ generateTeamRecommendations metrics <> []
  /\ (Metrics.totalStandups metrics = 0 ->
      generateTeamInsights metrics = JS.Normal [noDataInsight]
      /\ generateTeamRecommendations metrics = ["Start conducting regular standup meetings"]).
Proof.
  split; [|split].
  - unfold generateTeamInsights.
    destruct (Metrics.totalStandups metrics =? 0); [eexists; reflexivity|].
    destruct (blockerInsight_returns metrics) as [blocked ->].
    eexists; reflexivity.
  - apply generateTeamRecommendations_nonempty.
  - intros H. unfold generateTeamInsights, generateTeamRecommendations.
    rewrite H. split; reflexivity.
Qed.

Lemma insight_engine_total_witness :
  Metrics.totalStandups emptyMetrics = 0
  /\ generateTeamInsights emptyMetrics = JS.Normal [noDataInsight]
  /\ generateTeamRecommendations emptyMetrics = ["Start conducting regular standup meetings"].
Proof.
  split; [reflexivity|].
  exact (proj2 (proj2 (insight_engine_total emptyMetrics)) eq_refl).
Defined.

(** *** The productivity score *)

(** C6, as stated, fails: four tasks over two standups give the specified
    score 8, hence [High], while the code divides the tasks by the standups
    first, scores 4 and answers [Medium]. *)
Lemma productivity_formula_counterexample :
  calculateProductivityScore (JS.ofNat 4) (JS.ofNat 0) (JS.ofNat 0) (JS.ofNat 2) = Medium
  /\ specifiedProductivityScore (JS.ofNat 4) (JS.ofNat 0) (JS.ofNat 0) (JS.ofNat 2) = High.
Proof. split; vm_compute; reflexivity. Qed.

(** C6, amended.  The score is
    [(tasks / standups) * 2 + (prs / standups) * 1.5 - (blockers / standups) * 2]
    in binary64 arithmetic; it is [High] above 6, [Medium] above 3 and [Low]
    otherwise, and the answer is [NoData] exactly when [standups === 0]. *)
Theorem productivity_score_buckets (tasks prs blockers standups : JS.number) :
  (JS.strictEq standups (JS.ofNat 0) = true ->
   calculateProductivityScore tasks prs blockers standups = NoData)
  /\ (JS.strictEq standups (JS.ofNat 0) = false ->
      let score := perStandupScore tasks prs blockers standups in
      calculateProductivityScore tasks prs blockers standups <> NoData
      /\ (calculateProductivityScore tasks prs blockers standups = High
          <-> JS.gt score (JS.ofNat 6) = true)
      /\ (calculateProductivityScore tasks prs blockers standups = Medium
          <-> JS.gt score (JS.ofNat 6) = false /\ JS.gt score (JS.ofNat 3) = true)
      /\ (calculateProductivityScore tasks prs blockers standups = Low
          <-> JS.gt score (JS.ofNat 6) = false /\ JS.gt score (JS.ofNat 3) = false)).
Proof.
  unfold calculateProductivityScore, perStandupScore.
  split; intros H; rewrite H; [reflexivity|].
  cbv zeta.
  destruct (JS.gt _ (JS.ofNat 6)); [|destruct (JS.gt _ (JS.ofNat 3))];
    repeat split; intros; try discriminate; try reflexivity;
    match goal with
    | H : _ /\ _ |- _ => destruct H; discriminate
    end.
Qed.

Lemma productivity_score_buckets_witness :
  calculateProductivityScore (JS.ofNat 4) (JS.ofNat 1) (JS.ofNat 1) (JS.ofNat 0) = NoData
  /\ calculateProductivityScore (JS.ofNat 9) (JS.ofNat 2) (JS.ofNat 1) (JS.ofNat 2) = High.
Proof.
  split.
  - apply (proj1 (productivity_score_buckets (JS.ofNat 4) (JS.ofNat 1) (JS.ofNat 1) (JS.ofNat 0))).
    vm_compute; reflexivity.
  - apply (proj2 (productivity_score_buckets (JS.ofNat 9) (JS.ofNat 2) (JS.ofNat 1) (JS.ofNat 2))).
    + vm_compute; reflexivity.
    + vm_compute; reflexivity.
Defined.

(** *** Trends *)

Lemma sort_of_sorted {A : Type} (cmp : A -> A -> option Z) (l : list A) :
  StronglySorted (fun x y => JS.comesAfter cmp x y = false) l -> JS.sort cmp l = l.
Proof.
  induction 1 as [|x l Hl IH Hx]; [reflexivity|].
  unfold JS.sort in *. simpl. rewrite IH.
  destruct l as [|y r]; [reflexivity|].
  simpl. inversion Hx as [|? ? Hxy _]; subst. rewrite Hxy. reflexivity.
Qed.

Lemma notOlder_not_after (dateValue : string -> option Z) (a b : Standup.t) :
  notOlder dateValue a b -> JS.comesAfter (byTimestamp dateValue) a b = false.
Proof.
  intros (x & y & Hx & Hy & Hxy).
  unfold JS.comesAfter, byTimestamp. rewrite Hx, Hy.
  apply Z.ltb_ge. lia.
Qed.

Lemma sort_oldestFirst (dateValue : string -> option Z) (updates : list Standup.t) :
  oldestFirst dateValue updates -> JS.sort (byTimestamp dateValue) updates = updates.
Proof.
  intros H. apply sort_of_sorted.
  induction H as [|a l Hl IH Ha]; constructor; [exact IH|].
  eapply Forall_impl; [|exact Ha].
  intros b. apply notOlder_not_after.
Qed.

Lemma direction_cases (recentAvg earlierAvg : JS.number) :
  (direction recentAvg earlierAvg = increasing
   <-> JS.gt recentAvg (JS.mul earlierAvg (JS.literal 12 1)) = true)
  /\ (direction recentAvg earlierAvg = decreasing
      <-> JS.gt recentAvg (JS.mul earlierAvg (JS.literal 12 1)) = false
          /\ JS.lt recentAvg (JS.mul earlierAvg (JS.literal 8 1)) = true)
  /\ (direction recentAvg earlierAvg = stable
      <-> JS.gt recentAvg (JS.mul earlierAvg (JS.literal 12 1)) = false
          /\ JS.lt recentAvg (JS.mul earlierAvg (JS.literal 8 1)) = false).
Proof.
  unfold direction.
  destruct (JS.gt recentAvg _); [|destruct (JS.lt recentAvg _)];
    repeat split; intros; try discriminate; try reflexivity;
    match goal with
    | H : _ /\ _ |- _ => destruct H; discriminate
    end.
Qed.

Lemma sliceLast_length {A : Type} (l : list A) (n : nat) :
  n <= List.length l -> List.length (JS.sliceLast l n) = n.
Proof. intros H. unfold JS.sliceLast. rewrite length_skipn. lia. Qed.

Lemma sliceTo_length {A : Type} (l : list A) (n : nat) :
  n <= List.length l -> List.length (JS.sliceTo l n) = n.
Proof. intros H. unfold JS.sliceTo. rewrite length_firstn. lia. Qed.

Lemma slices_apart {A : Type} (l : list A) (n : nat) :
  2 * n <= List.length l ->
  exists middle, l = JS.sliceTo l n ++ middle ++ JS.sliceLast l n.
Proof.
  intros H. unfold JS.sliceTo, JS.sliceLast.
  exists (firstn (List.length l - 2 * n) (skipn n l)).
  rewrite <- (firstn_skipn n l) at 1. f_equal.
  rewrite <- (firstn_skipn (List.length l - 2 * n) (skipn n l)) at 1. f_equal.
  rewrite skipn_skipn. f_equal. lia.
Qed.

(** C3, as stated, fails at an exact boundary.  In [sixUpdates] the earliest
    three task counts sum to 5 and the most recent three to 4, so the recent
    average is exactly 0.8 times the earlier one and the specified direction
    is [stable]; the code rounds [5/3 * 0.8] above [4/3] and reports
    [decreasing]. *)
Lemma trend_boundary_counterexample :
  6 <= List.length sixUpdates
  /\ oldestFirst isoDateValue sixUpdates
  /\ (exactAverage (map taskCount (JS.sliceLast sixUpdates 3))
      == (8 # 10) * exactAverage (map taskCount (JS.sliceTo sixUpdates 3)))%Q
  /\ specifiedDirection (exactAverage (map taskCount (JS.sliceLast sixUpdates 3)))
                        (exactAverage (map taskCount (JS.sliceTo sixUpdates 3))) = stable
  /\ exists trends, analyzeMemberTrends isoDateValue sixUpdates = Analysed trends
                    /\ Trends.taskTrend trends = decreasing.
Proof.
  split; [simpl; lia|].
  split.
  { unfold sixUpdates. solve_oldestFirst. }
  split; [vm_compute; reflexivity|].
  split; [vm_compute; reflexivity|].
  eexists; split; vm_compute; reflexivity.
Qed.

Lemma six_or_more {A : Type} (l : list A) :
  6 <= List.length l ->
  exists e1 e2 e3 middle r1 r2 r3, l = [e1; e2; e3] ++ middle ++ [r1; r2; r3].
Proof.
  intros H.
  destruct (slices_apart l 3 ltac:(lia)) as (middle & E).
  pose proof (sliceTo_length l 3 ltac:(lia)) as Hto.
  pose proof (sliceLast_length l 3 ltac:(lia)) as Hlast.
  destruct (JS.sliceTo l 3) as [|e1 [|e2 [|e3 [|? ?]]]]; try discriminate Hto.
  destruct (JS.sliceLast l 3) as [|r1 [|r2 [|r3 [|? ?]]]]; try discriminate Hlast.
  exists e1, e2, e3, middle, r1, r2, r3. exact E.
Qed.

Lemma sliceTo_front {A : Type} (front rest : list A) :
  JS.sliceTo (front ++ rest) (List.length front) = front.
Proof.
  unfold JS.sliceTo. rewrite firstn_app, Nat.sub_diag, firstn_all. cbn [firstn].
  apply app_nil_r.
Qed.

Lemma sliceLast_back {A : Type} (rest back : list A) :
  JS.sliceLast (rest ++ back) (List.length back) = back.
Proof.
  unfold JS.sliceLast. rewrite length_app.
  replace (List.length rest + List.length back - List.length back)
    with (List.length rest) by lia.
  rewrite skipn_app, Nat.sub_diag, skipn_all. reflexivity.
Qed.

Lemma direction_decides (recentAvg earlierAvg : JS.number) :
  decides recentAvg earlierAvg (direction recentAvg earlierAvg).
Proof. apply direction_cases. Qed.

(** C3, amended.  For at least six updates sorted oldest to newest the
    analysis averages the task counts, and the pull-request counts, of the
    earliest three and of the most recent three updates, two groups that do
    not overlap, and reports for each of the two metrics the direction that
    the comparisons [recentAvg > earlierAvg * 1.2] and
    [recentAvg < earlierAvg * 0.8] give in binary64 arithmetic: increasing
    exactly when the first holds, decreasing exactly when the first fails
    and the second holds, stable exactly when both fail. *)
Theorem trend_directions (dateValue : string -> option Z) (updates : list Standup.t) :
  6 <= List.length updates ->
  oldestFirst dateValue updates ->
  exists e1 e2 e3 middle r1 r2 r3 trends,
    updates = [e1; e2; e3] ++ middle ++ [r1; r2; r3]
    /\ analyzeMemberTrends dateValue updates = Analysed trends
    /\ decides
         (meanOfThree (linked (Standup.jiraTasks r1)) (linked (Standup.jiraTasks r2))
                      (linked (Standup.jiraTasks r3)))
         (meanOfThree (linked (Standup.jiraTasks e1)) (linked (Standup.jiraTasks e2))
                      (linked (Standup.jiraTasks e3)))
         (Trends.taskTrend trends)
    /\ decides
         (meanOfThree (linked (Standup.bitbucketPRs r1)) (linked (Standup.bitbucketPRs r2))
                      (linked (Standup.bitbucketPRs r3)))
         (meanOfThree (linked (Standup.bitbucketPRs e1)) (linked (Standup.bitbucketPRs e2))
                      (linked (Standup.bitbucketPRs e3)))
         (Trends.prTrend trends).
Proof.
  intros Hlen Hsorted.
  destruct (six_or_more updates Hlen) as (e1 & e2 & e3 & middle & r1 & r2 & r3 & E).
  exists e1, e2, e3, middle, r1, r2, r3.
  eexists. split; [exact E|].
  unfold analyzeMemberTrends.
  destruct (Nat.ltb_spec (List.length updates) 3) as [H|_]; [lia|].
  rewrite (sort_oldestFirst _ _ Hsorted).
  assert (Hto : JS.sliceTo updates 3 = [e1; e2; e3])
    by (rewrite E; apply (sliceTo_front [e1; e2; e3])).
  assert (Hlast : JS.sliceLast updates 3 = [r1; r2; r3]).
  { rewrite E, app_assoc. apply (sliceLast_back _ [r1; r2; r3]). }
  rewrite Hto, Hlast.
  split; [reflexivity|].
  cbn [Trends.taskTrend Trends.prTrend].
  split; apply direction_decides.
Qed.

Lemma trend_directions_witness :
  exists trends,
    analyzeMemberTrends isoDateValue mixedUpdates = Analysed trends
    /\ Trends.taskTrend trends = decreasing
    /\ Trends.prTrend trends = increasing.
Proof.
  assert (Hlen : 6 <= List.length mixedUpdates) by (simpl; lia).
  assert (Hsorted : oldestFirst isoDateValue mixedUpdates)
    by (unfold mixedUpdates; solve_oldestFirst).
  destruct (trend_directions _ _ Hlen Hsorted)
    as (e1 & e2 & e3 & middle & r1 & r2 & r3 & trends & E & Hrun & Htasks & Hprs).
  exists trends. split; [exact Hrun|].
  unfold mixedUpdates in E. cbn [app] in E.
  injection E as <- <- <- E.
  destruct middle as [|m1 [|m2 [|m3 [|m4 middle]]]]; cbn [app] in E;
    try discriminate E;
    try (injection E as _ _ _ E; destruct middle; discriminate E).
  injection E as <- <- <-.
  split.
  - apply (proj2 (proj1 (proj2 Htasks))). split; vm_compute; reflexivity.
  - apply (proj2 (proj1 Hprs)). vm_compute. reflexivity.
Defined.

(** C4, as stated, fails: three updates are fewer than six, and the code
    answers with computed directions, not with the sentinel. *)
Lemma three_updates_counterexample :
  List.length threeUpdates < 6
  /\ analyzeMemberTrends isoDateValue threeUpdates = Analysed allStable.
Proof. split; [simpl; lia|]. vm_compute. reflexivity. Qed.

(** C4, amended.  The sentinel is returned exactly for fewer than three
    updates; from three updates on the analysis returns directions.  In
    both cases a value is returned. *)
Theorem trend_needs_three_updates (dateValue : string -> option Z)
  (updates : list Standup.t) :
  (List.length updates < 3 ->
   analyzeMemberTrends dateValue updates
   = NotEnoughData "Not enough data for trend analysis")
  /\ (3 <= List.length updates ->
      exists trends, analyzeMemberTrends dateValue updates = Analysed trends).
Proof.
  unfold analyzeMemberTrends.
  destruct (Nat.ltb_spec (List.length updates) 3) as [H|H]; split; intros H';
    try lia; [reflexivity|eexists; reflexivity].
Qed.

Lemma trend_needs_three_updates_witness :
  analyzeMemberTrends isoDateValue (JS.sliceTo sixUpdates 2)
  = NotEnoughData "Not enough data for trend analysis"
  /\ exists trends, analyzeMemberTrends isoDateValue threeUpdates = Analysed trends.
Proof.
  split.
  - apply (proj1 (trend_needs_three_updates isoDateValue (JS.sliceTo sixUpdates 2))).
    simpl; lia.
  - apply (proj2 (trend_needs_three_updates isoDateValue threeUpdates)).
    simpl; lia.
Defined.

(** *** Follow-up questions *)

Lemma append_nonempty (a b : string) : a <> "" -> String.append a b <> "".
Proof. destruct a; [congruence|]. discriminate. Qed.

Lemma generateFallbackQuestions_shape (standupData : Standup.t)
  (tasks : list Task.t) (prs : list PullRequest.t) :
  1 <= List.length (generateFallbackQuestions standupData tasks prs) <= 4
  /\ Forall (fun q => q <> "") (generateFallbackQuestions standupData tasks prs).
Proof.
  unfold generateFallbackQuestions.
  destruct (JS.truthy _ && _ && _);
    destruct (2 <? List.length (filter isOpen prs));
    destruct (5 <? List.length tasks);
    (split; [simpl; lia|]);
    repeat first [ apply Forall_nil | apply Forall_cons
                 | apply append_nonempty | discriminate ].
Qed.

Lemma fallback_all_strings (questions : list string) :
  Forall (fun q => q <> "") questions ->
  Forall (fun v => isNonEmptyString v = true) (map JString questions).
Proof.
  induction 1 as [|q l Hq _ IH]; simpl; constructor; [|exact IH].
  simpl. unfold JS.truthy. destruct (String.eqb_spec q ""); [contradiction|reflexivity].
Qed.

Lemma firstFive_of_fallback (standupData : Standup.t)
  (tasks : list Task.t) (prs : list PullRequest.t) :
  firstFive (fallbackArray standupData tasks prs)
  = JS.Normal (map JString (generateFallbackQuestions standupData tasks prs)).
Proof.
  unfold firstFive, fallbackArray, JS.sliceTo. f_equal.
  apply firstn_all2. rewrite length_map.
  pose proof (generateFallbackQuestions_shape standupData tasks prs). lia.
Qed.

(** The value of the inner [try] block, given the text of the answer. *)
Lemma generateFollowUpQuestions_on_text
  (invokeModel : string -> JS.Completion ResponseBody)
  (JSONparse : string -> JS.Completion JSON)
  (standupData : Standup.t) (previousUpdates : list Standup.t)
  (tasks : list Task.t) (prs : list PullRequest.t) (text : string) :
  invokeModel (promptFor (buildContextForAI standupData previousUpdates tasks prs))
  = JS.Normal (TextBlock text) ->
  generateFollowUpQuestions invokeModel JSONparse standupData previousUpdates tasks prs
  = if isNonEmptyArray (questionsFrom JSONparse text)
    then firstFive (questionsFrom JSONparse text)
    else JS.Normal (map JString (generateFallbackQuestions standupData tasks prs)).
Proof.
  intros H. unfold generateFollowUpQuestions, questionsFrom. rewrite H.
  cbn [JS.bind JS.tryCatch contentText].
  destruct (JSONparse text) as [v|e]; cbn [JS.bind JS.tryCatch].
  - destruct (isNonEmptyArray v) eqn:E; cbn [negb JS.bind JS.tryCatch].
    + destruct (firstFive v) eqn:F; [reflexivity|].
      destruct v; discriminate.
    + rewrite firstFive_of_fallback. reflexivity.
  - destruct (isNonEmptyArray _) eqn:E; cbn [negb JS.bind JS.tryCatch].
    + reflexivity.
    + rewrite firstFive_of_fallback. reflexivity.
Qed.




Lemma extractQuestionsFromText_long (text : string) :
  Forall (fun q => 5 < String.length q) (extractQuestionsFromText text).
Proof.
  unfold extractQuestionsFromText. apply Forall_flat_map. apply Forall_forall.
  intros line _.
  destruct (JS.endsWith (JS.trim line) "?" && (10 <? String.length (JS.trim line)));
    [|constructor].
  destruct (Nat.ltb_spec 5 (String.length (JS.trim (stripBullet (stripNumbering (JS.trim line))))));
    constructor; [assumption|constructor].
Qed.

Lemma scanned_all_strings (text : string) (n : nat) :
  Forall (fun v => isNonEmptyString v = true)
         (JS.sliceTo (map JString (extractQuestionsFromText text)) n).
Proof.
  apply Forall_forall. intros v Hv. apply in_firstn in Hv.
  apply in_map_iff in Hv. destruct Hv as (q & <- & Hq).
  pose proof (extractQuestionsFromText_long text) as H. rewrite Forall_forall in H.
  specialize (H q Hq). destruct q; [simpl in H; lia|reflexivity].
Qed.

Lemma fallback_on_text (standupData : StandupData.t) (tasks : list Task.t)
  (prs : list PullRequest.t) (text : string) :
  StandupData.blockers standupData = AText text ->
  exists questions,
    OnValues.generateFallbackQuestions standupData tasks prs = JS.Normal questions
    /\ 1 <= List.length questions <= 4
    /\ Forall (fun q => q <> "") questions.
Proof.
  intros H. unfold OnValues.generateFallbackQuestions. rewrite H.
  cbn [truthyValue asText JS.bind].
  destruct (JS.truthy text); cbn [JS.bind];
    [destruct (negb (String.eqb (JS.toLowerCase text) "none")); cbn [JS.bind];
     [destruct (negb (String.eqb (JS.trim text) "")); cbn [JS.bind]|]|];
    destruct (2 <? List.length (filter isOpen prs));
    destruct (5 <? List.length tasks);
    eexists; (split; [reflexivity|]); (split; [simpl; lia|]);
    repeat first [ apply Forall_nil | apply Forall_cons
                 | apply append_nonempty | discriminate ].
Qed.

(** On texts the functions on values are the functions on texts. *)
Lemma fallback_of_texts (standup : Standup.t) (tasks : list Task.t)
  (prs : list PullRequest.t) :
  OnValues.generateFallbackQuestions (ofStandup standup) tasks prs
  = JS.Normal (generateFallbackQuestions standup tasks prs).
Proof.
  unfold OnValues.generateFallbackQuestions, generateFallbackQuestions, ofStandup.
  cbn [StandupData.blockers truthyValue asText JS.bind].
  destruct (JS.truthy (Standup.blockers standup)); cbn [JS.bind andb];
    [destruct (negb (String.eqb (JS.toLowerCase (Standup.blockers standup)) "none"));
     cbn [JS.bind andb];
     [destruct (negb (String.eqb (JS.trim (Standup.blockers standup)) ""));
      cbn [JS.bind andb]|]|];
    reflexivity.
Qed.

Lemma context_of_texts (standup : Standup.t) (previousUpdates : list Standup.t)
  (tasks : list Task.t) (prs : list PullRequest.t) :
  OnValues.buildContextForAI (ofStandup standup) (map ofStandup previousUpdates) tasks prs
  = JS.Normal (buildContextForAI standup previousUpdates tasks prs).
Proof.
  unfold OnValues.buildContextForAI, buildContextForAI, ofStandup at 1 2 3 4 5.
  cbn [StandupData.teamMemberName StandupData.timestamp StandupData.yesterday
       StandupData.today StandupData.blockers printed JS.bind].
  rewrite length_map, nth_error_map.
  destruct (nth_error previousUpdates (List.length previousUpdates - 1)) as [recentUpdate|];
    cbn [option_map]; [|reflexivity].
  unfold ofStandup. cbn [StandupData.blockers truthyValue printed orElse].
  destruct (JS.truthy (Standup.blockers recentUpdate)); reflexivity.
Qed.

Lemma follow_up_questions_of_texts
  (invokeModel : string -> JS.Completion ResponseBody)
  (JSONparse : string -> JS.Completion JSON)
  (standup : Standup.t) (previousUpdates : list Standup.t)
  (tasks : list Task.t) (prs : list PullRequest.t) :
  OnValues.generateFollowUpQuestions invokeModel JSONparse (ofStandup standup)
    (map ofStandup previousUpdates) tasks prs
  = generateFollowUpQuestions invokeModel JSONparse standup previousUpdates tasks prs.
Proof.
  unfold OnValues.generateFollowUpQuestions, generateFollowUpQuestions,
    OnValues.fallbackArray, fallbackArray.
  rewrite context_of_texts, fallback_of_texts. cbn [JS.bind].
  reflexivity.
Qed.

(** The value of the function once the fallback generator is known to
    return. *)
Lemma follow_up_questions_cases
  (invokeModel : string -> JS.Completion ResponseBody)
  (JSONparse : string -> JS.Completion JSON)
  (standupData : StandupData.t) (previousUpdates : list StandupData.t)
  (tasks : list Task.t) (prs : list PullRequest.t) (fallback : list string) :
  OnValues.generateFallbackQuestions standupData tasks prs = JS.Normal fallback ->
  List.length fallback <= 5 ->
  OnValues.generateFollowUpQuestions invokeModel JSONparse standupData previousUpdates
    tasks prs
  = JS.Normal
      match OnValues.buildContextForAI standupData previousUpdates tasks prs with
      | JS.Throw _ => map JString fallback
      | JS.Normal context =>
          match invokeModel (promptFor context) with
          | JS.Throw _ | JS.Normal NoTextBlock => map JString fallback
          | JS.Normal (TextBlock text) =>
              match questionsFrom JSONparse text with
              | JArray (first :: rest) => JS.sliceTo (first :: rest) 5
              | _ => map JString fallback
              end
          end
      end.
Proof.
  intros Hfb Hlen.
  assert (Hfive : JS.sliceTo (map JString fallback) 5 = map JString fallback).
  { unfold JS.sliceTo. apply firstn_all2. rewrite length_map. exact Hlen. }
  unfold OnValues.generateFollowUpQuestions, OnValues.fallbackArray, questionsFrom.
  rewrite Hfb. cbn [JS.bind].
  destruct (OnValues.buildContextForAI _ _ _ _) as [context|e]; cbn [JS.bind JS.tryCatch];
    [|reflexivity].
  destruct (invokeModel _) as [[|text]|e]; cbn [JS.bind JS.tryCatch contentText firstFive];
    [rewrite Hfive; reflexivity| |reflexivity].
  destruct (JSONparse text) as [v|e]; cbn [JS.bind JS.tryCatch].
  - destruct v as [| | | |[|first rest]|];
      cbn [isNonEmptyArray negb List.length Nat.eqb JS.bind JS.tryCatch firstFive];
      try (rewrite Hfive); reflexivity.
  - destruct (extractQuestionsFromText text) as [|q qs];
      cbn [map isNonEmptyArray negb List.length Nat.eqb JS.bind JS.tryCatch firstFive];
      try (rewrite Hfive); reflexivity.
Qed.

(** C1, as stated, fails twice.  When the model answers with an array
    holding an empty string, that array is the result, and its element is
    not a non-empty string.  And when the blockers are a truthy value that
    is not a text, as the array of [blockersInAnArray], and the call to the
    model throws, the fallback generator called in the handler of the
    [catch] throws a [TypeError], which leaves the function. *)
Lemma follow_up_questions_counterexample :
  (OnValues.generateFollowUpQuestions (answering oneEmptyString) readJSON
     (ofStandup todaysStandup) [] [] []
   = JS.Normal [JString ""]
   /\ forallb isNonEmptyString [JString ""] = false)
  /\ OnValues.generateFollowUpQuestions unavailable readJSON blockersInAnArray [] [] []
     = JS.Throw "TypeError".
Proof. repeat split; vm_compute; reflexivity. Qed.

(** C1, amended.  For a submission whose blockers are a text, whatever its
    other fields and the history hold, whatever the model does and whatever
    [JSON.parse] does, [generateFollowUpQuestions] returns, without
    throwing, a list of between one and five elements.  The fallback
    generator returns between one and four non-empty strings.  When the
    call to the model throws (an exception or a timeout), or the context
    cannot be printed, the exception is caught and the list is the output
    of the fallback generator; when the answer is not JSON, the list
    consists of non-empty strings as well.  The elements of a non-empty
    array parsed from the model's answer are returned as they are, the
    first five of them. *)
Theorem follow_up_questions_on_text_blockers
  (invokeModel : string -> JS.Completion ResponseBody)
  (JSONparse : string -> JS.Completion JSON)
  (standupData : StandupData.t) (previousUpdates : list StandupData.t)
  (tasks : list Task.t) (prs : list PullRequest.t) (blockers : string) :
  StandupData.blockers standupData = AText blockers ->
  exists questions fallback,
    OnValues.generateFollowUpQuestions invokeModel JSONparse standupData previousUpdates
      tasks prs
    = JS.Normal questions
    /\ 1 <= List.length questions <= 5
    /\ OnValues.generateFallbackQuestions standupData tasks prs = JS.Normal fallback
    /\ 1 <= List.length fallback <= 4
    /\ Forall (fun q => q <> "") fallback
    /\ (forall context error,
          OnValues.buildContextForAI standupData previousUpdates tasks prs
          = JS.Normal context ->
          invokeModel (promptFor context) = JS.Throw error ->
          questions = map JString fallback)
    /\ (forall error,
          OnValues.buildContextForAI standupData previousUpdates tasks prs
          = JS.Throw error ->
          questions = map JString fallback)
    /\ (forall context text error,
          OnValues.buildContextForAI standupData previousUpdates tasks prs
          = JS.Normal context ->
          invokeModel (promptFor context) = JS.Normal (TextBlock text) ->
          JSONparse text = JS.Throw error ->
          Forall (fun q => isNonEmptyString q = true) questions)
    /\ (forall context text elements,
          OnValues.buildContextForAI standupData previousUpdates tasks prs
          = JS.Normal context ->
          invokeModel (promptFor context) = JS.Normal (TextBlock text) ->
          JSONparse text = JS.Normal (JArray elements) -> elements <> [] ->
          questions = JS.sliceTo elements 5).
Proof.
  intros Hblockers.
  destruct (fallback_on_text standupData tasks prs blockers Hblockers)
    as (fallback & Hfb & Hlen & Hne).
  pose proof (fallback_all_strings _ Hne) as Hstrings.
  rewrite (follow_up_questions_cases invokeModel JSONparse standupData previousUpdates
             tasks prs fallback Hfb ltac:(lia)).
  eexists _, fallback. split; [reflexivity|].
  assert (Hfallback : 1 <= List.length (map JString fallback) <= 5)
    by (rewrite length_map; lia).
  destruct (OnValues.buildContextForAI standupData previousUpdates tasks prs)
    as [context|e].
  2:{ refine (conj Hfallback (conj Hfb (conj Hlen (conj Hne (conj _ (conj _ (conj _ _)))))));
      try discriminate. reflexivity. }
  assert (Hcontext : forall context', JS.Normal context = JS.Normal context' ->
                                      context' = context)
    by (intros c E; injection E as <-; reflexivity).
  destruct (invokeModel (promptFor context)) as [[|text]|e] eqn:Hcall.
  - refine (conj Hfallback (conj Hfb (conj Hlen (conj Hne (conj _ (conj _ (conj _ _)))))));
      try discriminate; try reflexivity.
    + intros c t e E H. rewrite (Hcontext c E), Hcall in H. discriminate H.
    + intros c t l E H. rewrite (Hcontext c E), Hcall in H. discriminate H.
  - assert (Hfalls :
              1 <= List.length (map JString fallback) <= 5
              /\ OnValues.generateFallbackQuestions standupData tasks prs = JS.Normal fallback
              /\ 1 <= List.length fallback <= 4
              /\ Forall (fun q => q <> "") fallback
              /\ (forall (context0 error : string),
                     JS.Normal context = JS.Normal context0 ->
                     invokeModel (promptFor context0) = JS.Throw error ->
                     map JString fallback = map JString fallback)
              /\ (forall error : string,
                     JS.Normal context = JS.Throw error ->
                     map JString fallback = map JString fallback)
              /\ (forall (context0 text0 error : string),
                     JS.Normal context = JS.Normal context0 ->
                     invokeModel (promptFor context0) = JS.Normal (TextBlock text0) ->
                     JSONparse text0 = JS.Throw error ->
                     Forall (fun q => isNonEmptyString q = true) (map JString fallback))).
    { refine (conj Hfallback (conj Hfb (conj Hlen (conj Hne (conj _ (conj _ _))))));
        intros; first [reflexivity|exact Hstrings]. }
    destruct Hfalls as (F1 & F2 & F3 & F4 & F5 & F6 & F7).
    assert (Hparsed : forall c t l, JS.Normal context = JS.Normal c ->
                        invokeModel (promptFor c) = JS.Normal (TextBlock t) ->
                        JSONparse t = JS.Normal (JArray l) ->
                        questionsFrom JSONparse text = JArray l).
    { intros c t l E H Hparse. rewrite (Hcontext c E), Hcall in H. injection H as <-.
      unfold questionsFrom. rewrite Hparse. reflexivity. }
    destruct (questionsFrom JSONparse text) as [| | | |[|first rest]|] eqn:Q;
      try (refine (conj F1 (conj F2 (conj F3 (conj F4 (conj F5 (conj F6 (conj F7 _)))))));
           intros c t l E H Hparse Hl; pose proof (Hparsed c t l E H Hparse) as P;
           first [ discriminate P | injection P as <-; contradiction Hl; reflexivity ]).
    refine (conj _ (conj Hfb (conj Hlen (conj Hne (conj _ (conj _ (conj _ _))))))).
    + unfold JS.sliceTo. rewrite length_firstn. cbn [List.length]. lia.
    + intros c e E H. rewrite (Hcontext c E), Hcall in H. discriminate H.
    + discriminate.
    + intros c t e E H Hparse. rewrite (Hcontext c E), Hcall in H. injection H as <-.
      unfold questionsFrom in Q. rewrite Hparse in Q. injection Q as Q. rewrite <- Q.
      apply scanned_all_strings.
    + intros c t l E H Hparse Hl. pose proof (Hparsed c t l E H Hparse) as P.
      injection P as <-. reflexivity.
  - refine (conj Hfallback (conj Hfb (conj Hlen (conj Hne (conj _ (conj _ (conj _ _)))))));
      try discriminate; try reflexivity.
    + intros c t e' E H. rewrite (Hcontext c E), Hcall in H. discriminate H.
    + intros c t l E H. rewrite (Hcontext c E), Hcall in H. discriminate H.
Qed.

Lemma follow_up_questions_on_text_blockers_witness :
  exists questions,
    OnValues.generateFollowUpQuestions unavailable readJSON (ofStandup todaysStandup)
      [] [] []
    = JS.Normal questions
    /\ List.length questions = 3
    /\ Forall (fun q => isNonEmptyString q = true) questions.
Proof.
  destruct (follow_up_questions_on_text_blockers unavailable readJSON
              (ofStandup todaysStandup) [] [] [] "None" eq_refl)
    as (questions & fallback & Hrun & _ & Hfb & _ & Hne & Hthrow & _).
  exists questions. split; [exact Hrun|].
  rewrite (Hthrow _ "ServiceUnavailableException" eq_refl eq_refl).
  injection Hfb as <-. split; [reflexivity|].
  repeat constructor.
Defined.

(** *** Recurring blockers *)

Lemma indexed_from {A : Type} (d : A) (l : list A) (k : nat) :
  combine (seq k (List.length l)) l
  = map (fun i => (i, nth (i - k) l d)) (seq k (List.length l)).
Proof.
  revert k. induction l as [|a l IH]; intros k; [reflexivity|].
  cbn [List.length seq combine map]. rewrite Nat.sub_diag. cbn [nth]. f_equal.
  rewrite IH. apply map_ext_in. intros i Hi. apply in_seq in Hi.
  replace (i - k) with (S (i - S k)) by lia. reflexivity.
Qed.

Lemma indexed_nth {A : Type} (d : A) (l : list A) :
  indexed l = map (fun i => (i, nth i l d)) (seq 0 (List.length l)).
Proof.
  unfold indexed. rewrite (indexed_from d). apply map_ext.
  intros i. rewrite Nat.sub_0_r. reflexivity.
Qed.

Lemma filter_map_length {A B : Type} (f : B -> bool) (g : A -> B) (l : list A) :
  List.length (filter f (map g l)) = List.length (filter (fun a => f (g a)) l).
Proof.
  induction l as [|a l IH]; [reflexivity|].
  simpl. destruct (f (g a)); simpl; rewrite IH; reflexivity.
Qed.

Lemma flat_map_map {A B C : Type} (f : B -> list C) (g : A -> B) (l : list A) :
  flat_map f (map g l) = flat_map (fun a => f (g a)) l.
Proof.
  induction l as [|a l IH]; [reflexivity|]. simpl. rewrite IH. reflexivity.
Qed.

Lemma substring_length (s : string) (n : nat) :
  String.length (JS.substring s 0 n) <= n.
Proof.
  unfold JS.substring. rewrite Nat.sub_0_r. revert s.
  induction n as [|n IH]; intros s; destruct s; simpl; try lia.
  specialize (IH s). lia.
Qed.

Lemma reported_shape (texts : list string) :
  Forall (fun r => 2 <= Recurring.occurrences r
                   /\ String.length (Recurring.blocker r) <= 100)
         (reported texts).
Proof.
  unfold reported. apply Forall_flat_map. apply Forall_forall. intros i _.
  destruct (Nat.ltb_spec 0 (containing texts i)); [|apply Forall_nil].
  apply Forall_cons; [|apply Forall_nil].
  split; simpl; [lia|apply substring_length].
Qed.

(** C5, as stated, fails.  Of [fiveBlockers] the code reports entries with
    the occurrence counts 2, 2 and 3, their messages without an ellipsis;
    the specified result has the three entries of count 3, each message
    ending in an ellipsis. *)
Lemma recurring_blockers_counterexample :
  findRecurringBlockers fiveBlockers
  = [ {| Recurring.blocker := "vpn down"; Recurring.occurrences := 2 |};
      {| Recurring.blocker := "vpn down"; Recurring.occurrences := 2 |};
      {| Recurring.blocker := "waiting for review"; Recurring.occurrences := 3 |} ]
  /\ specifiedRecurringBlockers fiveBlockers
     = [ {| Recurring.blocker := "waiting for review..."; Recurring.occurrences := 3 |};
         {| Recurring.blocker := "waiting for review..."; Recurring.occurrences := 3 |};
         {| Recurring.blocker := "waiting for review..."; Recurring.occurrences := 3 |} ]
  /\ findRecurringBlockers fiveBlockers <> specifiedRecurringBlockers fiveBlockers.
Proof.
  split; [vm_compute; reflexivity|].
  split; [vm_compute; reflexivity|].
  vm_compute. discriminate.
Qed.

Lemma reported_by_position (texts : list string) :
  reported texts = map (entryAt texts) (recurringPositions texts).
Proof.
  unfold reported, recurringPositions.
  induction (seq 0 (List.length texts)) as [|i l IH]; [reflexivity|].
  cbn [flat_map filter]. rewrite IH.
  change (1 <=? containing texts i) with (0 <? containing texts i).
  destruct (0 <? containing texts i); reflexivity.
Qed.

Lemma findRecurringBlockers_reported (blockers : list BlockerEntry.t) :
  findRecurringBlockers blockers
  = JS.sliceTo (reported (map (fun b => JS.toLowerCase (BlockerEntry.blocker b)) blockers)) 3.
Proof.
  set (texts := map (fun b => JS.toLowerCase (BlockerEntry.blocker b)) blockers).
  unfold findRecurringBlockers, reported. fold texts. f_equal.
  rewrite (indexed_nth "" texts). rewrite flat_map_map.
  apply flat_map_ext. intros i.
  rewrite filter_map_length. reflexivity.
Qed.

Lemma NoDup_firstn {A : Type} (l : list A) (n : nat) : NoDup l -> NoDup (firstn n l).
Proof.
  intros H. revert n. induction H as [|x l Hx Hl IH]; intros [|n]; cbn [firstn];
    try constructor; [|apply IH].
  intros Hin. apply Hx. eapply in_firstn. exact Hin.
Qed.

(** C5, amended.  [findRecurringBlockers] lower-cases each text, counts for
    each entry the other entries whose text contains the entry's first
    twenty characters anywhere, and takes an entry as recurring when that
    count is at least one.  It returns three entries, or as many as there
    are recurring ones if these are fewer: each stands for a different
    recurring entry of the input, with its text cut to a hundred characters
    (no ellipsis is added) and with the count plus one as its
    occurrences. *)
Theorem recurring_blockers_reported (blockers : list BlockerEntry.t) :
  let texts := map (fun b => JS.toLowerCase (BlockerEntry.blocker b)) blockers in
  exists positions,
    findRecurringBlockers blockers = map (entryAt texts) positions
    /\ NoDup positions
    /\ Forall (fun i => i < List.length texts /\ 1 <= containing texts i) positions
    /\ List.length positions = Nat.min 3 (List.length (recurringPositions texts))
    /\ Forall (fun r => 2 <= Recurring.occurrences r
                        /\ String.length (Recurring.blocker r) <= 100)
              (findRecurringBlockers blockers).
Proof.
  intros texts.
  exists (firstn 3 (recurringPositions texts)).
  pose proof (findRecurringBlockers_reported blockers) as E. fold texts in E.
  split; [|split; [|split; [|split]]].
  - rewrite E, reported_by_position. unfold JS.sliceTo. apply firstn_map.
  - apply NoDup_firstn. apply NoDup_filter. apply seq_NoDup.
  - apply Forall_forall. intros i Hi. apply in_firstn in Hi.
    apply filter_In in Hi. destruct Hi as [Hseq Hc].
    apply in_seq in Hseq. apply Nat.leb_le in Hc. lia.
  - apply length_firstn.
  - rewrite E. apply Forall_forall. intros r Hr.
    pose proof (reported_shape texts) as H. rewrite Forall_forall in H.
    apply H. eapply in_firstn. exact Hr.
Qed.

(** *** Tables *)

Lemma getOwn_setOwn_same {V : Type} (o : JS.Obj V) (k : string) (v : V) :
  JS.getOwn (JS.setOwn o k v) k = Some v.
Proof.
  induction o as [|[k' v'] o IH]; simpl.
  - rewrite String.eqb_refl. reflexivity.
  - destruct (String.eqb_spec k' k) as [->|Hne]; simpl.
    + rewrite String.eqb_refl. reflexivity.
    + destruct (String.eqb_spec k' k); [contradiction|]. exact IH.
Qed.

Lemma getOwn_setOwn_other {V : Type} (o : JS.Obj V) (k k' : string) (v : V) :
  k' <> k -> JS.getOwn (JS.setOwn o k v) k' = JS.getOwn o k'.
Proof.
  intros Hne. induction o as [|[k0 v0] o IH]; simpl.
  - destruct (String.eqb_spec k k'); [congruence|reflexivity].
  - destruct (String.eqb_spec k0 k) as [->|Hk]; simpl.
    + destruct (String.eqb_spec k k'); [congruence|reflexivity].
    + destruct (String.eqb_spec k0 k'); [reflexivity|exact IH].
Qed.

Lemma keys_setOwn {V : Type} (o : JS.Obj V) (k : string) (v : V) :
  map fst (JS.setOwn o k v)
  = match JS.getOwn o k with
    | Some _ => map fst o
    | None => map fst o ++ [k]
    end.
Proof.
  induction o as [|[k' v'] o IH]; simpl; [reflexivity|].
  destruct (String.eqb_spec k' k) as [->|Hne]; simpl; [reflexivity|].
  rewrite IH. destruct (JS.getOwn o k); reflexivity.
Qed.

Lemma getOwn_None_keys {V : Type} (o : JS.Obj V) (k : string) :
  JS.getOwn o k = None <-> ~ In k (map fst o).
Proof.
  induction o as [|[k' v'] o IH]; simpl; [tauto|].
  destruct (String.eqb_spec k' k) as [->|Hne].
  - split; [discriminate|]. intros H. exfalso. apply H. left. reflexivity.
  - rewrite IH. tauto.
Qed.

Lemma tally_setOwn_new {V : Type} (f : V -> nat) (o : JS.Obj V) (k : string) (v : V) :
  JS.getOwn o k = None -> tally f (JS.setOwn o k v) = tally f o + f v.
Proof.
  unfold tally. induction o as [|[k' v'] o IH]; simpl; intros H; [lia|].
  destruct (String.eqb_spec k' k); [discriminate|]. simpl. rewrite (IH H). lia.
Qed.

Lemma tally_setOwn_old {V : Type} (f : V -> nat) (o : JS.Obj V) (k : string) (v v' : V) :
  JS.getOwn o k = Some v -> tally f (JS.setOwn o k v') + f v = tally f o + f v'.
Proof.
  unfold tally. induction o as [|[k0 v0] o IH]; simpl; intros H; [discriminate|].
  destruct (String.eqb_spec k0 k).
  - injection H as ->. simpl. lia.
  - simpl. specialize (IH H). lia.
Qed.

Lemma insertByIndex_perm {V : Type} (p : string * V) (l : list (string * V)) :
  Permutation (JS.insertByIndex p l) (p :: l).
Proof.
  induction l as [|q l IH]; simpl; [reflexivity|].
  destruct (JS.indexOf (fst p) <=? JS.indexOf (fst q))%N; [reflexivity|].
  rewrite IH. apply perm_swap.
Qed.

Lemma sortByIndex_perm {V : Type} (l : list (string * V)) :
  Permutation (JS.sortByIndex l) l.
Proof.
  induction l as [|p l IH]; simpl; [reflexivity|].
  unfold JS.sortByIndex in *. simpl. rewrite insertByIndex_perm, IH. reflexivity.
Qed.

Lemma filter_split_perm {A : Type} (f : A -> bool) (l : list A) :
  Permutation (filter f l ++ filter (fun a => negb (f a)) l) l.
Proof.
  induction l as [|a l IH]; simpl; [reflexivity|].
  destruct (f a); simpl.
  - constructor. exact IH.
  - rewrite <- Permutation_middle. constructor. exact IH.
Qed.

Lemma entries_perm {V : Type} (o : JS.Obj V) : Permutation (JS.entries o) o.
Proof.
  unfold JS.entries. rewrite sortByIndex_perm.
  apply (filter_split_perm (fun p => JS.isArrayIndex (fst p))).
Qed.

Lemma list_sum_perm (l l' : list nat) : Permutation l l' -> list_sum l = list_sum l'.
Proof. induction 1; simpl; lia. Qed.

Lemma sumOf_list_sum (f : MemberStats.t -> nat) (l : list MemberStats.t) :
  sumOf f l = list_sum (map f l).
Proof.
  unfold sumOf.
  assert (G : forall acc, fold_left (fun sum stats => sum + f stats) l acc
                          = acc + list_sum (map f l)).
  { induction l as [|a l IH]; intros acc; simpl; [lia|]. rewrite IH. lia. }
  apply G.
Qed.

Lemma sumOf_values (f : MemberStats.t -> nat) (o : JS.Obj MemberStats.t) :
  sumOf f (JS.values o) = tally f o.
Proof.
  rewrite sumOf_list_sum. unfold JS.values, tally. rewrite map_map.
  apply list_sum_perm. apply Permutation_map. apply entries_perm.
Qed.

(** *** The per-member counts and the total *)

Lemma visit_counted (startDate endDate : option string) (t : Tables.t) (standup : Standup.t) :
  JS.inherited (Standup.teamMemberName standup) = false ->
  counted t ->
  counted (fst (visit startDate endDate t standup))
  /\ snd (visit startDate endDate t standup) = JS.Normal tt.
Proof.
  intros Hname Ht. unfold visit.
  destruct (beforeStart startDate standup); [split; [exact Ht|reflexivity]|].
  destruct (afterEnd endDate standup); [split; [exact Ht|reflexivity]|].
  unfold counted in *.
  destruct (JS.getOwn (Tables.memberStats t) (Standup.teamMemberName standup))
    as [stats|] eqn:Hget.
  - split; [|reflexivity]. cbn [fst Tables.memberStats Tables.allStandups].
    pose proof (tally_setOwn_old MemberStats.standupCount _ _ _ (record standup stats) Hget) as H.
    rewrite length_app. cbn [List.length]. cbn [record MemberStats.standupCount] in H. lia.
  - rewrite Hname. split; [|reflexivity].
    cbn [fst Tables.memberStats Tables.allStandups].
    rewrite (tally_setOwn_new MemberStats.standupCount _ _ (record standup newStats) Hget).
    rewrite length_app. cbn [List.length record newStats MemberStats.standupCount]. lia.
Qed.

Lemma visitAll_counted (startDate endDate : option string) (standups : list Standup.t) :
  forall t,
    Forall (fun s => JS.inherited (Standup.teamMemberName s) = false) standups ->
    counted t -> counted (fst (visitAll startDate endDate t standups)).
Proof.
  induction standups as [|standup rest IH]; intros t Hall Ht; [exact Ht|].
  inversion Hall as [|? ? Hname Hrest]; subst.
  destruct (visit_counted startDate endDate t standup Hname Ht) as [Hc Hn].
  cbn [visitAll]. destruct (visit startDate endDate t standup) as [t' c].
  cbn [fst snd] in *. subst c. apply IH; assumption.
Qed.

Lemma aggregate_counted (startDate endDate : option string) (objects : list StoredObject) :
  Forall (fun s => JS.inherited (Standup.teamMemberName s) = false) (standupsOf objects) ->
  counted (aggregate startDate endDate objects).
Proof.
  unfold aggregate.
  assert (G : forall t,
             Forall (fun s => JS.inherited (Standup.teamMemberName s) = false)
                    (standupsOf objects) ->
             counted t -> counted (fold_left (readObject startDate endDate) objects t)).
  { induction objects as [|obj objects IH]; intros t Hall Ht; [exact Ht|].
    cbn [fold_left]. unfold standupsOf in Hall. cbn [flat_map] in Hall.
    apply Forall_app in Hall. destruct Hall as [Hobj Hrest].
    apply IH; [exact Hrest|].
    destruct obj as [|standups]; [exact Ht|].
    cbn [readObject]. apply visitAll_counted; assumption. }
  intros Hall. apply G; [exact Hall|reflexivity].
Qed.

(** When no member carries a name that plain objects inherit, the
    per-member standup counts add up to the total. *)
Lemma standup_counts_add_up (startDate endDate : option string)
  (objects : list StoredObject) :
  Forall (fun s => JS.inherited (Standup.teamMemberName s) = false) (standupsOf objects) ->
  standupCountSum (getTeamMetrics startDate endDate objects)
  = Metrics.totalStandups (getTeamMetrics startDate endDate objects).
Proof.
  intros Hall. unfold getTeamMetrics, standupCountSum.
  destruct objects as [|obj objects]; [reflexivity|].
  cbn [Metrics.memberStats Metrics.totalStandups].
  rewrite sumOf_values. apply (aggregate_counted _ _ _ Hall).
Qed.

(** C7 fails in the code for a member whose name is an inherited property
    name.  For the single standup of [namedConstructor] the total is 1
    while the member table stays empty, so the per-member counts sum to 0
    and no member is active. *)
Theorem inherited_member_name_not_counted :
  Metrics.totalStandups (getTeamMetrics None None namedConstructor) = 1
  /\ standupCountSum (getTeamMetrics None None namedConstructor) = 0
  /\ Metrics.activeMembers (getTeamMetrics None None namedConstructor) = 0
  /\ Metrics.memberStats (getTeamMetrics None None namedConstructor) = Some [].
Proof. repeat split; vm_compute; reflexivity. Qed.

(** *** The stable sort *)

Section StableSort.

Variable A : Type.
Variable key : A -> nat.
Variable cmp : A -> A -> option Z.

(** The elements on which the comparator orders by descending [key]. *)
Variable P : A -> Prop.
Hypothesis cmp_key :
  forall x y, P x -> P y -> JS.comesAfter cmp x y = (key x <? key y).

Lemma insertSorted_perm (x : A) (l : list A) :
  Permutation (JS.insertSorted cmp x l) (x :: l).
Proof.
  induction l as [|y l IH]; simpl; [reflexivity|].
  destruct (JS.comesAfter cmp x y); [|reflexivity].
  rewrite IH. apply perm_swap.
Qed.

Lemma sort_perm (l : list A) : Permutation (JS.sort cmp l) l.
Proof.
  unfold JS.sort. induction l as [|x l IH]; simpl; [reflexivity|].
  rewrite insertSorted_perm. constructor. exact IH.
Qed.

Lemma sort_Forall (l : list A) : Forall P l -> Forall P (JS.sort cmp l).
Proof.
  intros H. rewrite Forall_forall in *. intros x Hx. apply H.
  eapply Permutation_in; [apply sort_perm|exact Hx].
Qed.

Lemma insertSorted_sorted (x : A) (l : list A) :
  P x -> Forall P l ->
  StronglySorted (fun a b => key b <= key a) l ->
  StronglySorted (fun a b => key b <= key a) (JS.insertSorted cmp x l).
Proof.
  intros Hx Hl Hs. induction Hs as [|y l Hs IH Hy]; simpl.
  - constructor; constructor.
  - inversion Hl as [|? ? Py Pl]; subst.
    rewrite (cmp_key x y Hx Py).
    destruct (Nat.ltb_spec (key x) (key y)) as [Hlt|Hge].
    + constructor; [apply IH; exact Pl|].
      rewrite Forall_forall. intros z Hz.
      apply (Permutation_in _ (insertSorted_perm x l)) in Hz.
      destruct Hz as [<-|Hz]; [lia|].
      rewrite Forall_forall in Hy. apply Hy. exact Hz.
    + constructor; [constructor; assumption|].
      constructor; [exact Hge|].
      eapply Forall_impl; [|exact Hy]. simpl. intros z Hz. lia.
Qed.

Lemma sort_sorted (l : list A) :
  Forall P l -> StronglySorted (fun a b => key b <= key a) (JS.sort cmp l).
Proof.
  unfold JS.sort. induction 1 as [|x l Hx Hl IH]; simpl; [constructor|].
  apply insertSorted_sorted; [exact Hx|apply sort_Forall; exact Hl|exact IH].
Qed.

Lemma insertSorted_stable (c : nat) (x : A) (l : list A) :
  P x -> Forall P l ->
  filter (fun a => key a =? c) (JS.insertSorted cmp x l)
  = filter (fun a => key a =? c) (x :: l).
Proof.
  intros Hx Hl. induction Hl as [|y l Py Pl IH]; [reflexivity|].
  cbn [JS.insertSorted]. rewrite (cmp_key x y Hx Py).
  destruct (Nat.ltb_spec (key x) (key y)) as [Hlt|Hge]; [|reflexivity].
  cbn [filter] in *. rewrite IH.
  destruct (Nat.eqb_spec (key x) c), (Nat.eqb_spec (key y) c); try reflexivity. lia.
Qed.

Lemma sort_stable (c : nat) (l : list A) :
  Forall P l ->
  filter (fun a => key a =? c) (JS.sort cmp l) = filter (fun a => key a =? c) l.
Proof.
  unfold JS.sort. induction 1 as [|x l Hx Hl IH]; [reflexivity|].
  cbn [fold_right]. rewrite insertSorted_stable; [|exact Hx|apply sort_Forall; exact Hl].
  cbn [filter]. fold (JS.sort cmp l). unfold JS.sort. rewrite IH. reflexivity.
Qed.

End StableSort.

(** *** Order of occurrence *)

Lemma before_firstn {A : Type} (x y : A) (n : nat) (l : list A) :
  before x y (firstn n l) -> before x y l.
Proof.
  intros (l1 & l2 & l3 & E). exists l1, l2, (l3 ++ skipn n l).
  rewrite <- (firstn_skipn n l) at 1. rewrite E.
  repeat (rewrite <- app_assoc; cbn [app]). reflexivity.
Qed.

Lemma before_filter {A : Type} (p : A -> bool) (x y : A) (l : list A) :
  before x y l -> p x = true -> p y = true -> before x y (filter p l).
Proof.
  intros (l1 & l2 & l3 & ->) Hx Hy.
  exists (filter p l1), (filter p l2), (filter p l3).
  rewrite filter_app. cbn [filter]. rewrite Hx. rewrite filter_app. cbn [filter].
  rewrite Hy. reflexivity.
Qed.

Lemma filter_eq_cons {A : Type} (p : A -> bool) (l : list A) :
  forall x r, filter p l = x :: r ->
  exists l1 l2, l = l1 ++ x :: l2 /\ filter p l2 = r.
Proof.
  induction l as [|a l IH]; intros x r E; [discriminate|].
  cbn [filter] in E. destruct (p a) eqn:Ha.
  - injection E as -> <-. exists [], l. split; reflexivity.
  - destruct (IH x r E) as (l1 & l2 & -> & Hr).
    exists (a :: l1), l2. split; [reflexivity|exact Hr].
Qed.

Lemma filter_eq_app_cons {A : Type} (p : A -> bool) (m : list A) :
  forall l x r, filter p l = m ++ x :: r ->
  exists l1 l2, l = l1 ++ x :: l2 /\ filter p l2 = r.
Proof.
  induction m as [|b m IH]; intros l x r E.
  - apply filter_eq_cons. exact E.
  - cbn [app] in E. destruct (filter_eq_cons p l b (m ++ x :: r) E) as (l1 & l2 & -> & E2).
    destruct (IH l2 x r E2) as (l3 & l4 & -> & E4).
    exists (l1 ++ b :: l3), l4. split; [|exact E4].
    rewrite <- app_assoc. reflexivity.
Qed.

Lemma before_of_filter {A : Type} (p : A -> bool) (x y : A) (l : list A) :
  before x y (filter p l) -> before x y l.
Proof.
  intros (m1 & m2 & m3 & E).
  destruct (filter_eq_app_cons p m1 l x (m2 ++ y :: m3) E) as (l1 & l2 & -> & E2).
  destruct (filter_eq_app_cons p m2 l2 y m3 E2) as (l3 & l4 & -> & _).
  exists l1, l3, l4. reflexivity.
Qed.

Lemma before_map {A B : Type} (f : A -> B) (x y : A) (l : list A) :
  before x y l -> before (f x) (f y) (map f l).
Proof.
  intros (l1 & l2 & l3 & ->). exists (map f l1), (map f l2), (map f l3).
  rewrite map_app. cbn [map]. rewrite map_app. reflexivity.
Qed.

Lemma before_of_map {A B : Type} (f : A -> B) (a b : B) (l : list A) :
  before a b (map f l) ->
  exists x y, a = f x /\ b = f y /\ before x y l.
Proof.
  intros (m1 & m2 & m3 & E).
  apply map_eq_app in E. destruct E as (l1 & r1 & -> & <- & E).
  apply map_eq_cons in E. destruct E as (x & r2 & -> & <- & E).
  apply map_eq_app in E. destruct E as (l2 & r3 & -> & <- & E).
  apply map_eq_cons in E. destruct E as (y & l3 & -> & <- & <-).
  exists x, y. repeat split. exists l1, l2, l3. reflexivity.
Qed.

Lemma before_sorted {A : Type} (R : A -> A -> Prop) (x y : A) (l : list A) :
  StronglySorted R l -> before x y l -> R x y.
Proof.
  intros Hs (l1 & l2 & l3 & ->).
  induction l1 as [|a l1 IH]; cbn [app] in Hs.
  - inversion Hs as [|? ? _ Hall]; subst.
    rewrite Forall_forall in Hall. apply Hall.
    apply in_or_app. right. left. reflexivity.
  - inversion Hs; subst. apply IH. assumption.
Qed.

Lemma before_in {A : Type} (x y : A) (l : list A) : before x y l -> In x l /\ In y l.
Proof.
  intros (l1 & l2 & l3 & ->). split.
  - apply in_or_app. right. left. reflexivity.
  - apply in_or_app. right. right. apply in_or_app. right. left. reflexivity.
Qed.

(** *** The frequency table *)

Lemma visitAll_table (startDate endDate : option string) (standups : list Standup.t) :
  forall t,
    noInheritedMember t ->
    Tables.blockerFrequency (fst (visitAll startDate endDate t standups))
    = fold_left countBlocker (keysOfStandups startDate endDate standups)
                (Tables.blockerFrequency t)
    /\ noInheritedMember (fst (visitAll startDate endDate t standups)).
Proof.
  induction standups as [|standup rest IH]; intros t Ht; [split; [reflexivity|exact Ht]|].
  cbn [visitAll keysOfStandups]. unfold visit.
  destruct (beforeStart startDate standup); cbn [orb]; [apply IH; exact Ht|].
  destruct (afterEnd endDate standup); [apply IH; exact Ht|].
  destruct (JS.getOwn (Tables.memberStats t) (Standup.teamMemberName standup))
    as [stats|] eqn:Hget.
  - assert (Hname : JS.inherited (Standup.teamMemberName standup) = false).
    { destruct (JS.inherited (Standup.teamMemberName standup)) eqn:E; [|reflexivity].
      rewrite (Ht _ E) in Hget. discriminate. }
    rewrite Hname.
    match goal with |- context [visitAll _ _ ?t' rest] =>
      destruct (IH t') as [IH1 IH2] end.
    { intros k Hk. cbn [Tables.memberStats].
      rewrite getOwn_setOwn_other; [apply Ht; exact Hk|]. congruence. }
    split; [|exact IH2]. rewrite IH1. cbn [Tables.blockerFrequency].
    destruct (reportsBlocker (Standup.blockers standup)); reflexivity.
  - destruct (JS.inherited (Standup.teamMemberName standup)) eqn:Hname.
    + destruct (reportsBlocker (Standup.blockers standup)).
      * split; [reflexivity|exact Ht].
      * match goal with |- context [visitAll _ _ ?t' rest] =>
          destruct (IH t') as [IH1 IH2] end; [exact Ht|].
        split; [exact IH1|exact IH2].
    + match goal with |- context [visitAll _ _ ?t' rest] =>
        destruct (IH t') as [IH1 IH2] end.
      { intros k Hk. cbn [Tables.memberStats].
        rewrite getOwn_setOwn_other; [apply Ht; exact Hk|]. congruence. }
      split; [|exact IH2]. rewrite IH1. cbn [Tables.blockerFrequency].
      destruct (reportsBlocker (Standup.blockers standup)); reflexivity.
Qed.

Lemma aggregate_table (startDate endDate : option string) (objects : list StoredObject) :
  Tables.blockerFrequency (aggregate startDate endDate objects)
  = fold_left countBlocker (registeredKeys startDate endDate objects) [].
Proof.
  unfold aggregate.
  assert (G : forall t,
             noInheritedMember t ->
             Tables.blockerFrequency (fold_left (readObject startDate endDate) objects t)
             = fold_left countBlocker (registeredKeys startDate endDate objects)
                         (Tables.blockerFrequency t)).
  { induction objects as [|obj objects IH]; intros t Ht; [reflexivity|].
    cbn [fold_left]. unfold registeredKeys. cbn [flat_map]. rewrite fold_left_app.
    destruct obj as [|standups]; cbn [readObject fold_left].
    - apply IH. exact Ht.
    - destruct (visitAll_table startDate endDate standups t Ht) as [H1 H2].
      rewrite <- H1. apply IH. exact H2. }
  apply G. intros k _. reflexivity.
Qed.

Lemma toLowerCaseUnit_lower (c : ascii) : JS.isUpperCase (JS.toLowerCaseUnit c) = false.
Proof. destruct c as [[] [] [] [] [] [] [] []]; reflexivity. Qed.

Lemma toLowerCase_noUpperCase (s : string) : noUpperCase (JS.toLowerCase s) = true.
Proof.
  induction s as [|c s IH]; [reflexivity|].
  simpl. rewrite toLowerCaseUnit_lower, IH. reflexivity.
Qed.

Lemma substring_noUpperCase (n m : nat) (s : string) :
  noUpperCase s = true -> noUpperCase (String.substring n m s) = true.
Proof.
  revert n m. induction s as [|c s IH]; intros n m H.
  - destruct n, m; reflexivity.
  - simpl in H. apply andb_prop in H. destruct H as [Hc Hs].
    destruct n as [|n]; [destruct m as [|m]|]; simpl.
    + reflexivity.
    + rewrite Hc. apply IH. exact Hs.
    + apply IH. exact Hs.
Qed.

Lemma blockerKey_lower (text : string) : noUpperCase (blockerKey text) = true.
Proof. apply substring_noUpperCase. apply toLowerCase_noUpperCase. Qed.

Lemma inherited_lower (k : string) :
  noUpperCase k = true -> JS.inherited k = true -> k = "constructor" \/ k = "__proto__".
Proof.
  intros Hlow Hin. unfold JS.inherited in Hin. apply existsb_exists in Hin.
  destruct Hin as (name & Hname & Heq). apply String.eqb_eq in Heq. subst name.
  simpl in Hname.
  repeat (destruct Hname as [<-|Hname];
          [first [left; reflexivity | right; reflexivity | discriminate Hlow]|]).
  contradiction.
Qed.

Lemma keysOfStandups_lower (startDate endDate : option string) (standups : list Standup.t) :
  Forall (fun k => noUpperCase k = true) (keysOfStandups startDate endDate standups).
Proof.
  induction standups as [|standup rest IH]; [constructor|].
  cbn [keysOfStandups].
  destruct (beforeStart startDate standup || afterEnd endDate standup); [exact IH|].
  destruct (JS.inherited _); destruct (reportsBlocker _);
    try exact IH; constructor; [apply blockerKey_lower|exact IH].
Qed.

Lemma registeredKeys_lower (startDate endDate : option string) (objects : list StoredObject) :
  Forall (fun k => noUpperCase k = true) (registeredKeys startDate endDate objects).
Proof.
  unfold registeredKeys. apply Forall_flat_map. apply Forall_forall.
  intros [|standups] _; [constructor|apply keysOfStandups_lower].
Qed.

Lemma occurrences_snoc (k' k : string) (ks : list string) :
  occurrences k' (ks ++ [k])
  = occurrences k' ks + (if String.eqb k' k then 1 else 0).
Proof.
  unfold occurrences. rewrite filter_app, length_app. cbn [filter].
  destruct (String.eqb k' k); reflexivity.
Qed.

Lemma occurrences_zero (k : string) (ks : list string) :
  occurrences k ks = 0 <-> ~ In k ks.
Proof.
  unfold occurrences. induction ks as [|a ks IH]; simpl; [tauto|].
  destruct (String.eqb_spec k a) as [->|Hne]; simpl.
  - split; [discriminate|]. intros H. exfalso. apply H. left. reflexivity.
  - rewrite IH. split; [intros H [E|E]; [congruence|tauto]|tauto].
Qed.

Lemma firstOccurrences_in (k : string) (ks : list string) :
  In k (firstOccurrences ks) <-> In k ks.
Proof.
  induction ks as [|a ks IH]; simpl; [tauto|].
  rewrite filter_In, IH.
  destruct (String.eqb_spec k a) as [->|Hne]; simpl; [tauto|].
  split; [tauto|]. intros [E|H]; [congruence|]. right. split; [exact H|reflexivity].
Qed.

Lemma firstOccurrences_snoc (k : string) (ks : list string) :
  firstOccurrences (ks ++ [k])
  = if occurrences k ks =? 0 then firstOccurrences ks ++ [k] else firstOccurrences ks.
Proof.
  induction ks as [|a ks IH]; [reflexivity|].
  cbn [app firstOccurrences]. rewrite IH.
  unfold occurrences at 2. cbn [filter].
  destruct (String.eqb_spec k a) as [->|Hne].
  - cbn [List.length Nat.eqb].
    destruct (occurrences a ks =? 0); [|reflexivity].
    rewrite filter_app. cbn [filter]. rewrite String.eqb_refl. cbn [negb].
    rewrite app_nil_r. reflexivity.
  - fold (occurrences k ks).
    destruct (occurrences k ks =? 0); [|reflexivity].
    rewrite filter_app. cbn [filter].
    destruct (String.eqb_spec k a); [contradiction|]. reflexivity.
Qed.

Lemma occurrences_storable (k : string) (ks : list string) :
  k <> "__proto__" ->
  occurrences k (filter (fun k' => negb (String.eqb k' "__proto__")) ks) = occurrences k ks.
Proof.
  intros Hk. unfold occurrences. induction ks as [|a ks IH]; [reflexivity|].
  cbn [filter]. destruct (String.eqb_spec a "__proto__") as [->|Ha]; cbn [negb filter].
  - destruct (String.eqb_spec k "__proto__"); [contradiction|]. exact IH.
  - destruct (String.eqb k a); cbn [List.length]; rewrite IH; reflexivity.
Qed.

Lemma created_snoc (k : string) (ks : list string) :
  created (ks ++ [k])
  = if String.eqb k "__proto__" then created ks
    else if occurrences k ks =? 0 then created ks ++ [k] else created ks.
Proof.
  unfold created. rewrite filter_app. cbn [filter].
  destruct (String.eqb_spec k "__proto__") as [->|Hk]; cbn [negb].
  - rewrite app_nil_r. reflexivity.
  - rewrite firstOccurrences_snoc, (occurrences_storable _ _ Hk). reflexivity.
Qed.

Lemma registered_table (ks : list string) :
  Forall (fun k => JS.inherited k = true -> k = "__proto__") ks ->
  map fst (fold_left countBlocker ks []) = created ks
  /\ forall k, JS.getOwn (fold_left countBlocker ks []) k = cell k ks.
Proof.
  induction ks as [|k ks IH] using rev_ind; intros Hks.
  - split; [reflexivity|]. intros k. unfold cell. cbn.
    rewrite orb_true_r. reflexivity.
  - apply Forall_app in Hks. destruct Hks as [Hks Hk].
    inversion Hk as [|? ? Hk' _]; subst.
    destruct (IH Hks) as [Hkeys Hcells]. clear IH.
    rewrite fold_left_app. cbn [fold_left].
    set (T := fold_left countBlocker ks []) in *.
    rewrite created_snoc. unfold countBlocker. rewrite (Hcells k). unfold cell.
    destruct (String.eqb_spec k "__proto__") as [->|Hproto]; cbn [orb].
    + split; [exact Hkeys|]. intros k'. rewrite Hcells. unfold cell.
      rewrite occurrences_snoc.
      destruct (String.eqb_spec k' "__proto__"); [reflexivity|].
      rewrite Nat.add_0_r. reflexivity.
    + assert (Hin : JS.inherited k = false).
      { destruct (JS.inherited k) eqn:E; [|reflexivity]. specialize (Hk' eq_refl). contradiction. }
      destruct (Nat.eqb_spec (occurrences k ks) 0) as [Hz|Hnz].
      * rewrite Hin. split.
        { rewrite keys_setOwn, (Hcells k). unfold cell.
          destruct (String.eqb_spec k "__proto__"); [contradiction|].
          rewrite Hz. cbn. rewrite Hkeys. reflexivity. }
        intros k'. unfold cell. rewrite occurrences_snoc.
        destruct (String.eqb_spec k' k) as [->|Hne].
        { rewrite getOwn_setOwn_same, Hz.
          destruct (String.eqb_spec k "__proto__"); [contradiction|]. reflexivity. }
        rewrite getOwn_setOwn_other by exact Hne. rewrite Hcells. unfold cell.
        rewrite Nat.add_0_r. reflexivity.
      * split.
        { rewrite keys_setOwn, (Hcells k). unfold cell.
          destruct (String.eqb_spec k "__proto__"); [contradiction|].
          destruct (Nat.eqb_spec (occurrences k ks) 0); [contradiction|]. exact Hkeys. }
        intros k'. unfold cell. rewrite occurrences_snoc.
        destruct (String.eqb_spec k' k) as [->|Hne].
        { rewrite getOwn_setOwn_same.
          destruct (String.eqb_spec k "__proto__"); [contradiction|]. cbn [orb].
          destruct (Nat.eqb_spec (occurrences k ks + 1) 0); [lia|]. reflexivity. }
        rewrite getOwn_setOwn_other by exact Hne. rewrite Hcells. unfold cell.
        rewrite Nat.add_0_r. reflexivity.
Qed.

Lemma firstOccurrences_NoDup (ks : list string) : NoDup (firstOccurrences ks).
Proof.
  induction ks as [|k ks IH]; cbn [firstOccurrences]; constructor.
  - rewrite filter_In. intros [_ H]. rewrite String.eqb_refl in H. discriminate.
  - apply NoDup_filter. exact IH.
Qed.

Lemma getOwn_in {V : Type} (o : JS.Obj V) (k : string) (v : V) :
  NoDup (map fst o) -> In (k, v) o -> JS.getOwn o k = Some v.
Proof.
  induction o as [|[k' v'] o IH]; intros Hnd Hin; [contradiction|].
  cbn [map fst] in Hnd. inversion Hnd as [|? ? Hnotin Hnd']; subst.
  cbn [JS.getOwn]. destruct Hin as [E|Hin].
  - injection E as -> ->. rewrite String.eqb_refl. reflexivity.
  - destruct (String.eqb_spec k' k) as [->|Hne]; [|apply IH; assumption].
    exfalso. apply Hnotin. apply (in_map fst) in Hin. exact Hin.
Qed.

Lemma insertByIndex_keys {V : Type} (p : string * V) (l : list (string * V)) :
  map fst (JS.insertByIndex p l) = insertKey (fst p) (map fst l).
Proof.
  induction l as [|q l IH]; [reflexivity|].
  cbn [JS.insertByIndex map insertKey].
  destruct (JS.indexOf (fst p) <=? JS.indexOf (fst q))%N; [reflexivity|].
  cbn [map]. rewrite IH. reflexivity.
Qed.

Lemma sortByIndex_keys {V : Type} (l : list (string * V)) :
  map fst (JS.sortByIndex l) = ascending (map fst l).
Proof.
  unfold JS.sortByIndex, ascending. induction l as [|p l IH]; [reflexivity|].
  cbn [fold_right map]. rewrite insertByIndex_keys, IH. reflexivity.
Qed.

Lemma filter_keys {V : Type} (f : string -> bool) (l : list (string * V)) :
  map fst (filter (fun p => f (fst p)) l) = filter f (map fst l).
Proof.
  induction l as [|p l IH]; [reflexivity|].
  cbn [filter map]. destruct (f (fst p)); cbn [map]; rewrite IH; reflexivity.
Qed.

(** [Object.keys] of a table, from the creation order of its keys. *)
Lemma keys_enumeration {V : Type} (o : JS.Obj V) :
  JS.keys o
  = ascending (filter JS.isArrayIndex (map fst o))
    ++ filter (fun k => negb (JS.isArrayIndex k)) (map fst o).
Proof.
  unfold JS.keys, JS.entries. rewrite map_app, sortByIndex_keys.
  rewrite (filter_keys JS.isArrayIndex).
  rewrite (filter_keys (fun k => negb (JS.isArrayIndex k))). reflexivity.
Qed.

Lemma byCountDescending_key (seen : list string) (x y : string * Freq) :
  snd x = Count (occurrences (fst x) seen) ->
  snd y = Count (occurrences (fst y) seen) ->
  JS.comesAfter byCountDescending x y
  = (occurrences (fst x) seen <? occurrences (fst y) seen).
Proof.
  intros Hx Hy. unfold JS.comesAfter, byCountDescending. rewrite Hx, Hy.
  destruct (Nat.ltb_spec (occurrences (fst x) seen) (occurrences (fst y) seen));
    [apply Z.ltb_lt|apply Z.ltb_ge]; lia.
Qed.

(** Without the key [constructor], every entry of the table holds the
    number of times its key was registered, and the keys are enumerated in
    [enumerationOrder]. *)
Lemma frequency_table (startDate endDate : option string) (objects : list StoredObject) :
  let seen := registeredKeys startDate endDate objects in
  let table := Tables.blockerFrequency (aggregate startDate endDate objects) in
  ~ In "constructor" seen ->
  JS.keys table = enumerationOrder seen
  /\ Forall (fun p => snd p = Count (occurrences (fst p) seen)) (JS.entries table).
Proof.
  intros seen table Hno.
  assert (Hks : Forall (fun k => JS.inherited k = true -> k = "__proto__") seen).
  { pose proof (registeredKeys_lower startDate endDate objects) as Hlow.
    fold seen in Hlow. rewrite Forall_forall in *. intros k Hk Hin.
    destruct (inherited_lower k (Hlow k Hk) Hin) as [->| ->]; [contradiction|reflexivity]. }
  unfold table. rewrite aggregate_table. fold seen.
  destruct (registered_table seen Hks) as [Hkeys Hcells].
  split.
  - rewrite keys_enumeration, Hkeys. reflexivity.
  - rewrite Forall_forall. intros [k v] Hin.
    apply (Permutation_in _ (entries_perm _)) in Hin.
    assert (Hget : JS.getOwn (fold_left countBlocker seen []) k = Some v).
    { apply getOwn_in; [|exact Hin]. rewrite Hkeys. apply firstOccurrences_NoDup. }
    rewrite Hcells in Hget. unfold cell in Hget. cbn [fst snd].
    destruct (String.eqb k "__proto__" || (occurrences k seen =? 0)); [discriminate|].
    injection Hget as <-. reflexivity.
Qed.

Lemma insertKey_perm (k : string) (ks : list string) :
  Permutation (insertKey k ks) (k :: ks).
Proof.
  induction ks as [|q ks IH]; cbn [insertKey]; [reflexivity|].
  destruct (JS.indexOf k <=? JS.indexOf q)%N; [reflexivity|].
  rewrite IH. apply perm_swap.
Qed.

Lemma ascending_perm (ks : list string) : Permutation (ascending ks) ks.
Proof.
  unfold ascending. induction ks as [|k ks IH]; cbn [fold_right]; [reflexivity|].
  rewrite insertKey_perm. constructor. exact IH.
Qed.

Lemma insertKey_sorted (k : string) (ks : list string) :
  StronglySorted (fun a b => (JS.indexOf a <= JS.indexOf b)%N) ks ->
  StronglySorted (fun a b => (JS.indexOf a <= JS.indexOf b)%N) (insertKey k ks).
Proof.
  induction 1 as [|q ks Hs IH Hq]; cbn [insertKey].
  - constructor; constructor.
  - destruct (N.leb_spec (JS.indexOf k) (JS.indexOf q)) as [Hle|Hgt].
    + constructor; [constructor; assumption|].
      constructor; [exact Hle|].
      eapply Forall_impl; [|exact Hq]. cbn beta. intros z Hz. lia.
    + constructor; [exact IH|].
      rewrite Forall_forall. intros z Hz.
      apply (Permutation_in _ (insertKey_perm k ks)) in Hz.
      destruct Hz as [<-|Hz]; [lia|].
      rewrite Forall_forall in Hq. apply Hq. exact Hz.
Qed.

Lemma ascending_sorted (ks : list string) :
  StronglySorted (fun a b => (JS.indexOf a <= JS.indexOf b)%N) (ascending ks).
Proof.
  unfold ascending. induction ks as [|k ks IH]; cbn [fold_right]; [constructor|].
  apply insertKey_sorted. exact IH.
Qed.

Lemma before_app_cases {A : Type} (x y : A) (l r : list A) :
  before x y (l ++ r) ->
  before x y l \/ (In x l /\ In y r) \/ before x y r.
Proof.
  revert r. induction l as [|a l IH]; intros r H; [right; right; exact H|].
  destruct H as (l1 & l2 & l3 & E). destruct l1 as [|b l1]; cbn [app] in E.
  - injection E as <- E.
    assert (Hy : In y (l ++ r)) by (rewrite E; apply in_or_app; right; left; reflexivity).
    apply in_app_or in Hy. destruct Hy as [Hy|Hy].
    + left. apply in_split in Hy. destruct Hy as (m1 & m2 & ->).
      exists [], m1, m2. reflexivity.
    + right. left. split; [left; reflexivity|exact Hy].
  - injection E as <- E.
    destruct (IH r) as [H|[[Hx Hy]|H]].
    + exists l1, l2, l3. exact E.
    + left. destruct H as (m1 & m2 & m3 & ->). exists (a :: m1), m2, m3. reflexivity.
    + right. left. split; [right; exact Hx|exact Hy].
    + right. right. exact H.
Qed.

Lemma before_firstOccurrences (k1 k2 : string) (ks : list string) :
  before k1 k2 (firstOccurrences ks) -> position k1 ks < position k2 ks.
Proof.
  induction ks as [|a ks IH]; intros H.
  - destruct H as (l1 & l2 & l3 & E). destruct l1; discriminate.
  - cbn [firstOccurrences] in H. cbn [position].
    destruct H as (l1 & l2 & l3 & E). destruct l1 as [|b l1]; cbn [app] in E.
    + injection E as <- E. rewrite String.eqb_refl.
      assert (Hk2 : In k2 (filter (fun k' => negb (String.eqb k' a)) (firstOccurrences ks)))
        by (rewrite E; apply in_or_app; right; left; reflexivity).
      apply filter_In in Hk2. destruct Hk2 as [_ Hne].
      rewrite String.eqb_sym. destruct (String.eqb k2 a); [discriminate|lia].
    + injection E as <- E.
      assert (Hb : before k1 k2 (filter (fun k' => negb (String.eqb k' a)) (firstOccurrences ks)))
        by (exists l1, l2, l3; exact E).
      destruct (before_in _ _ _ Hb) as [H1 H2].
      apply filter_In in H1. apply filter_In in H2.
      destruct H1 as [_ H1], H2 as [_ H2].
      rewrite (String.eqb_sym a k1), (String.eqb_sym a k2).
      destruct (String.eqb k1 a); [discriminate|]. destruct (String.eqb k2 a); [discriminate|].
      apply before_of_filter in Hb. specialize (IH Hb). lia.
Qed.

Lemma position_filter (p : string -> bool) (k1 k2 : string) (ks : list string) :
  p k1 = true -> p k2 = true ->
  position k1 (filter p ks) < position k2 (filter p ks) ->
  position k1 ks < position k2 ks.
Proof.
  intros H1 H2. induction ks as [|a ks IH]; cbn [filter position]; [lia|].
  destruct (p a) eqn:Ha; cbn [position].
  - destruct (String.eqb a k1), (String.eqb a k2); lia.
  - destruct (String.eqb_spec a k1) as [->|_]; [congruence|].
    destruct (String.eqb_spec a k2) as [->|_]; [congruence|].
    intros H. specialize (IH H). lia.
Qed.

(** What standing before another key in [enumerationOrder] means. *)
Lemma enumerationOrder_before (seen : list string) (k1 k2 : string) :
  before k1 k2 (enumerationOrder seen) -> enumeratedBefore seen k1 k2.
Proof.
  intros H. unfold enumerationOrder in H. apply before_app_cases in H.
  assert (Hidx : forall k, In k (ascending (filter JS.isArrayIndex (created seen))) ->
                           JS.isArrayIndex k = true).
  { intros k Hk. apply (Permutation_in _ (ascending_perm _)) in Hk.
    apply filter_In in Hk. apply Hk. }
  assert (Hnot : forall k, In k (filter (fun k => negb (JS.isArrayIndex k)) (created seen)) ->
                           JS.isArrayIndex k = false).
  { intros k Hk. apply filter_In in Hk. destruct Hk as [_ Hk].
    destruct (JS.isArrayIndex k); [discriminate|reflexivity]. }
  destruct H as [H|[[H1 H2]|H]].
  - left. destruct (before_in _ _ _ H) as [H1 H2].
    split; [apply Hidx; exact H1|]. split; [apply Hidx; exact H2|].
    exact (before_sorted _ k1 k2 _ (ascending_sorted _) H).
  - right. left. split; [apply Hidx; exact H1|apply Hnot; exact H2].
  - right. right. destruct (before_in _ _ _ H) as [H1 H2].
    split; [apply Hnot; exact H1|]. split; [apply Hnot; exact H2|].
    apply before_of_filter in H. unfold created in H.
    destruct (before_in _ _ _ H) as [G1 G2].
    apply (proj1 (firstOccurrences_in _ _)) in G1.
    apply (proj1 (firstOccurrences_in _ _)) in G2.
    apply filter_In in G1. apply filter_In in G2.
    apply (position_filter (fun k => negb (String.eqb k "__proto__")));
      [apply G1|apply G2|].
    apply before_firstOccurrences. exact H.
Qed.

(** C2, as stated, fails.  In [twoBlockers] the text [vpn down] is seen
    first and [42] second, each once; the key [42] is an array index, so the
    table enumerates it first, and the two entries of equal count come out
    in the opposite of their first-seen order. *)
Lemma top_blockers_tie_counterexample :
  registeredKeys None None twoBlockers = ["vpn down"; "42"]
  /\ Metrics.topBlockers (getTeamMetrics None None twoBlockers)
     = [ {| TopBlocker.blocker := "42"; TopBlocker.count := Count 1 |};
         {| TopBlocker.blocker := "vpn down"; TopBlocker.count := Count 1 |} ]
  /\ ~ tiesInFirstSeenOrder (registeredKeys None None twoBlockers)
         (Metrics.topBlockers (getTeamMetrics None None twoBlockers)).
Proof.
  split; [vm_compute; reflexivity|].
  split; [vm_compute; reflexivity|].
  intros H.
  specialize (H {| TopBlocker.blocker := "42"; TopBlocker.count := Count 1 |}
                {| TopBlocker.blocker := "vpn down"; TopBlocker.count := Count 1 |}).
  assert (Hlt : 1 < 0); [|lia].
  apply H; [|reflexivity].
  exists [], [], []. vm_compute. reflexivity.
Qed.

(** C2, amended.  [topBlockers] has at most five entries.  When no
    registered blocker text normalizes to [constructor], every entry
    carries the number of times its text was registered, the entries are in
    descending order of that number, and entries of equal count appear in
    the order in which the frequency table enumerates its keys: the keys
    that are array indices first, by ascending index, then the other keys
    in the order in which they were first seen ([enumeratedBefore]). *)
Theorem top_blockers_order (startDate endDate : option string)
  (objects : list StoredObject) :
  let top := Metrics.topBlockers (getTeamMetrics startDate endDate objects) in
  let seen := registeredKeys startDate endDate objects in
  List.length top <= 5
  /\ (~ In "constructor" seen ->
      (forall x, In x top ->
         TopBlocker.count x = Count (occurrences (TopBlocker.blocker x) seen))
      /\ (forall x y, before x y top ->
            occurrences (TopBlocker.blocker y) seen
            <= occurrences (TopBlocker.blocker x) seen)
      /\ (forall x y, before x y top -> TopBlocker.count x = TopBlocker.count y ->
            enumeratedBefore seen (TopBlocker.blocker x) (TopBlocker.blocker y))).
Proof.
  intros top seen. unfold top, getTeamMetrics.
  destruct objects as [|obj objects].
  { cbn [Metrics.topBlockers]. split; [simpl; lia|]. intros _.
    split; [intros x []|].
    split; intros x y (l1 & l2 & l3 & E); destruct l1; discriminate. }
  cbn [Metrics.topBlockers].
  set (table := Tables.blockerFrequency (aggregate startDate endDate (obj :: objects))).
  set (sorted := JS.sort byCountDescending (JS.entries table)).
  split.
  { rewrite length_map. unfold JS.sliceTo. rewrite length_firstn. lia. }
  intros Hno.
  destruct (frequency_table startDate endDate (obj :: objects) Hno) as [Hkeys Hcells].
  fold seen table in Hkeys, Hcells.
  set (P := fun p : string * Freq => snd p = Count (occurrences (fst p) seen)) in *.
  set (key := fun p : string * Freq => occurrences (fst p) seen).
  assert (Hcmp : forall x y, P x -> P y ->
                   JS.comesAfter byCountDescending x y = (key x <? key y))
    by (intros x y; apply byCountDescending_key).
  assert (HP : Forall P sorted) by (apply sort_Forall; exact Hcells).
  assert (Hsorted : StronglySorted (fun a b => key b <= key a) sorted)
    by (apply (sort_sorted _ key byCountDescending P Hcmp); exact Hcells).
  assert (Hstable : forall c, filter (fun a => key a =? c) sorted
                              = filter (fun a => key a =? c) (JS.entries table))
    by (intros c; apply (sort_stable _ key byCountDescending P Hcmp); exact Hcells).
  assert (Hpair : forall x y, before x y (map toTopBlocker (JS.sliceTo sorted 5)) ->
            exists p q, x = toTopBlocker p /\ y = toTopBlocker q /\ before p q sorted).
  { intros x y H. apply before_of_map in H. destruct H as (p & q & -> & -> & H).
    exists p, q. repeat split. eapply before_firstn. exact H. }
  split; [|split].
  - intros x Hx. apply in_map_iff in Hx. destruct Hx as (p & <- & Hp).
    apply in_firstn in Hp. rewrite Forall_forall in HP. exact (HP p Hp).
  - intros x y H. destruct (Hpair x y H) as (p & q & -> & -> & Hpq).
    exact (before_sorted _ p q sorted Hsorted Hpq).
  - intros x y H Heq. destruct (Hpair x y H) as (p & q & -> & -> & Hpq).
    cbn [toTopBlocker TopBlocker.blocker TopBlocker.count] in *.
    destruct (before_in _ _ _ Hpq) as [Hp Hq].
    rewrite Forall_forall in HP.
    rewrite (HP p Hp), (HP q Hq) in Heq. injection Heq as Heq.
    apply enumerationOrder_before.
    rewrite <- Hkeys. unfold JS.keys. apply before_map.
    apply (before_of_filter (fun a => key a =? key p)).
    rewrite <- Hstable. apply before_filter; [exact Hpq| |]; apply Nat.eqb_eq;
      [reflexivity|unfold key; symmetry; exact Heq].
Qed.

Lemma top_blockers_order_witness :
  ~ In "constructor" (registeredKeys None None twoBlockers)
  /\ enumeratedBefore (registeredKeys None None twoBlockers) "42" "vpn down".
Proof.
  assert (Hno : ~ In "constructor" (registeredKeys None None twoBlockers)).
  { vm_compute. intros [H|[H|[]]]; discriminate. }
  split; [exact Hno|].
  apply (proj2 (proj2 (proj2 (top_blockers_order None None twoBlockers) Hno))
           {| TopBlocker.blocker := "42"; TopBlocker.count := Count 1 |}
           {| TopBlocker.blocker := "vpn down"; TopBlocker.count := Count 1 |});
    [|reflexivity].
  exists [], [], []. vm_compute. reflexivity.
Defined.

(** *** Binary64 arithmetic on non-negative numbers *)

Section Binary64.

Local Open Scope Z_scope.

Lemma fexp_eq (x : Z) : fexp JS.prec JS.emax x = Z.max (x - 53) (-1074).
Proof. reflexivity. Qed.

Lemma digits2_pos_bounds (p : positive) :
  2 ^ (Zpos (digits2_pos p) - 1) <= Zpos p < 2 ^ Zpos (digits2_pos p).
Proof.
  induction p as [p IH|p IH|]; cbn [digits2_pos].
  - rewrite Pos2Z.inj_succ. replace (Z.succ (Zpos (digits2_pos p)) - 1) with (Z.succ (Zpos (digits2_pos p) - 1)) by lia.
    rewrite !Z.pow_succ_r by lia. lia.
  - rewrite Pos2Z.inj_succ. replace (Z.succ (Zpos (digits2_pos p)) - 1) with (Z.succ (Zpos (digits2_pos p) - 1)) by lia.
    rewrite !Z.pow_succ_r by lia. lia.
  - simpl. lia.
Qed.

Lemma Zdigits2_bounds (m : Z) :
  0 < m -> 2 ^ (Zdigits2 m - 1) <= m < 2 ^ Zdigits2 m.
Proof.
  destruct m as [|p|p]; try lia. intros _. apply digits2_pos_bounds.
Qed.

Lemma Zdigits2_pos (m : Z) : 0 < m -> 0 < Zdigits2 m.
Proof. destruct m; simpl; lia. Qed.

Lemma Zdigits2_unique (m k : Z) :
  0 < k -> 2 ^ (k - 1) <= m < 2 ^ k -> Zdigits2 m = k.
Proof.
  intros Hk [Hlo Hhi].
  assert (Hm : 0 < m) by (pose proof (Z.pow_pos_nonneg 2 (k - 1)); lia).
  pose proof (Zdigits2_bounds m Hm) as [Hlo' Hhi'].
  pose proof (Zdigits2_pos m Hm) as Hd.
  destruct (Z.lt_trichotomy (Zdigits2 m) k) as [H|[H|H]]; [|exact H|].
  - exfalso. assert (2 ^ Zdigits2 m <= 2 ^ (k - 1)) by (apply Z.pow_le_mono_r; lia). lia.
  - exfalso. assert (2 ^ k <= 2 ^ (Zdigits2 m - 1)) by (apply Z.pow_le_mono_r; lia). lia.
Qed.

Lemma shr_1_m (mrs : shr_record) :
  0 <= shr_m mrs -> shr_m (shr_1 mrs) = shr_m mrs / 2.
Proof.
  destruct mrs as [m r s]. cbn [shr_m]. intros Hm.
  destruct m as [|[p|p|]|p]; cbn [shr_1 shr_m].
  - reflexivity.
  - rewrite Pos2Z.inj_xI. apply Z.div_unique with 1; lia.
  - rewrite Pos2Z.inj_xO. apply Z.div_unique with 0; lia.
  - reflexivity.
  - lia.
Qed.

Lemma iter_shr_m (n : positive) :
  forall mrs, 0 <= shr_m mrs ->
    shr_m (iter_pos shr_1 n mrs) = shr_m mrs / 2 ^ Zpos n.
Proof.
  induction n as [n IH|n IH|]; intros mrs Hm; cbn [iter_pos].
  - assert (Hp : 0 < 2 ^ Zpos n) by (apply Z.pow_pos_nonneg; lia).
    assert (H1 : 0 <= shr_m (shr_1 mrs)) by (rewrite shr_1_m by exact Hm; apply Z.div_pos; lia).
    assert (H2 : 0 <= shr_m (iter_pos shr_1 n (shr_1 mrs)))
      by (rewrite IH by exact H1; apply Z.div_pos; lia).
    rewrite IH by exact H2. rewrite IH by exact H1. rewrite shr_1_m by exact Hm.
    rewrite !Z.div_div by lia.
    f_equal.
    assert (E : Zpos n~1 = 1 + Zpos n + Zpos n) by lia. rewrite E.
    rewrite !Z.pow_add_r by lia. lia.
  - assert (Hp : 0 < 2 ^ Zpos n) by (apply Z.pow_pos_nonneg; lia).
    assert (H2 : 0 <= shr_m (iter_pos shr_1 n mrs))
      by (rewrite IH by exact Hm; apply Z.div_pos; lia).
    rewrite IH by exact H2. rewrite IH by exact Hm.
    rewrite Z.div_div by lia.
    f_equal.
    assert (E : Zpos n~0 = Zpos n + Zpos n) by lia. rewrite E.
    rewrite Z.pow_add_r by lia. reflexivity.
  - rewrite shr_1_m by exact Hm. reflexivity.
Qed.

Lemma shr_record_of_loc_m (m : Z) (l : location) : shr_m (shr_record_of_loc m l) = m.
Proof. destruct l as [|[]]; reflexivity. Qed.

(** The mantissa and the exponent after the shift [shr_fexp] applies. *)
Lemma shr_fexp_spec (m e : Z) (l : location) :
  0 <= m ->
  let n := Z.max 0 (fexp JS.prec JS.emax (Zdigits2 m + e) - e) in
  shr_m (fst (shr_fexp JS.prec JS.emax m e l)) = m / 2 ^ n
  /\ snd (shr_fexp JS.prec JS.emax m e l) = e + n.
Proof.
  intros Hm n. unfold shr_fexp, shr. subst n.
  destruct (fexp JS.prec JS.emax (Zdigits2 m + e) - e) as [|p|p] eqn:E; cbn [fst snd].
  - rewrite shr_record_of_loc_m. cbn. rewrite Z.div_1_r. split; lia.
  - rewrite iter_shr_m by (rewrite shr_record_of_loc_m; exact Hm).
    rewrite shr_record_of_loc_m. replace (Z.max 0 (Zpos p)) with (Zpos p) by lia. split; reflexivity.
  - rewrite shr_record_of_loc_m. replace (Z.max 0 (Zneg p)) with 0 by lia.
    cbn. rewrite Z.div_1_r. split; lia.
Qed.

Lemma round_nearest_even_cases (m : Z) (l : location) :
  round_nearest_even m l = m \/ round_nearest_even m l = m + 1.
Proof.
  destruct l as [|[]]; cbn; auto. destruct (Z.even m); auto.
Qed.

Lemma binary_round_aux_spec (s : bool) (M E : Z) (l : location) :
  0 <= M ->
  let n := Z.max 0 (fexp JS.prec JS.emax (Zdigits2 M + E) - E) in
  exists m2, (m2 = M / 2 ^ n \/ m2 = M / 2 ^ n + 1)
             /\ binary_round_aux JS.prec JS.emax s M E l = normalized s m2 (E + n).
Proof.
  intros HM n. unfold binary_round_aux.
  destruct (shr_fexp_spec M E l HM) as [Hm He]. fold n in Hm, He.
  destruct (shr_fexp JS.prec JS.emax M E l) as [mrs' e']. cbn [fst snd] in Hm, He. subst e'.
  set (m2 := round_nearest_even (shr_m mrs') (loc_of_shr_record mrs')).
  assert (Hm1 : 0 <= M / 2 ^ n) by (apply Z.div_pos; [exact HM|apply Z.pow_pos_nonneg; lia]).
  assert (Hcases : m2 = M / 2 ^ n \/ m2 = M / 2 ^ n + 1)
    by (unfold m2; rewrite <- Hm; apply round_nearest_even_cases).
  assert (Hm2 : 0 <= m2) by lia.
  exists m2. split; [exact Hcases|].
  destruct (shr_fexp_spec m2 (E + n) loc_Exact Hm2) as [Hm' He'].
  destruct (shr_fexp JS.prec JS.emax m2 (E + n) loc_Exact) as [mrs'' e'']. cbn [fst snd] in Hm', He'.
  unfold normalized. rewrite Hm', He'. reflexivity.
Qed.

Lemma Zdigits2_nonneg (m : Z) : 0 <= Zdigits2 m.
Proof. destruct m; simpl; lia. Qed.

Lemma Zdigits2_shift (M n : Z) :
  0 < M -> 0 <= n < Zdigits2 M -> Zdigits2 (M / 2 ^ n) = Zdigits2 M - n.
Proof.
  intros HM Hn. pose proof (Zdigits2_bounds M HM) as [Hlo Hhi].
  assert (Hp : 0 < 2 ^ n) by (apply Z.pow_pos_nonneg; lia).
  apply Zdigits2_unique; [lia|]. split.
  - replace (2 ^ (Zdigits2 M - n - 1)) with (2 ^ (Zdigits2 M - 1) / 2 ^ n).
    + apply Z.div_le_mono; lia.
    + replace (Zdigits2 M - 1) with ((Zdigits2 M - n - 1) + n) by lia.
      rewrite Z.pow_add_r by lia. apply Z.div_mul. lia.
  - apply Z.div_lt_upper_bound; [lia|].
    rewrite <- Z.pow_add_r by lia. replace (n + (Zdigits2 M - n)) with (Zdigits2 M) by lia. exact Hhi.
Qed.

Lemma shift_small (M n : Z) : 0 <= M -> 0 <= n -> Zdigits2 M <= n -> M / 2 ^ n = 0.
Proof.
  intros HM Hn Hd. apply Z.div_small. split; [exact HM|].
  destruct (Z.eq_dec M 0) as [->|Hne]; [apply Z.pow_pos_nonneg; lia|].
  pose proof (Zdigits2_bounds M ltac:(lia)) as [_ Hhi].
  assert (2 ^ Zdigits2 M <= 2 ^ n) by (apply Z.pow_le_mono_r; lia). lia.
Qed.

Lemma Zdigits2_mono (a b : Z) : 0 < a -> a <= b -> Zdigits2 a <= Zdigits2 b.
Proof.
  intros Ha Hab.
  pose proof (Zdigits2_bounds a Ha) as [Hlo _].
  pose proof (Zdigits2_bounds b ltac:(lia)) as [_ Hhi].
  destruct (Z_lt_le_dec (Zdigits2 b) (Zdigits2 a)) as [H|H]; [|exact H].
  exfalso. assert (2 ^ Zdigits2 b <= 2 ^ (Zdigits2 a - 1)) by (apply Z.pow_le_mono_r; lia). lia.
Qed.

Lemma Zdigits2_succ (a : Z) : 0 < a -> Zdigits2 (a + 1) <= Zdigits2 a + 1.
Proof.
  intros Ha.
  pose proof (Zdigits2_bounds a Ha) as [_ Hhi].
  pose proof (Zdigits2_bounds (a + 1) ltac:(lia)) as [Hlo _].
  pose proof (Zdigits2_pos a Ha).
  destruct (Z_lt_le_dec (Zdigits2 a + 1) (Zdigits2 (a + 1))) as [H'|H']; [|exact H'].
  exfalso.
  assert (2 ^ (Zdigits2 a + 1) <= 2 ^ (Zdigits2 (a + 1) - 1)) by (apply Z.pow_le_mono_r; lia).
  rewrite Z.pow_add_r in H0 by lia. lia.
Qed.

Lemma shift_canonicalOrZero (M E : Z) :
  0 <= M -> E <= fexp JS.prec JS.emax (Zdigits2 M + E) ->
  let n := Z.max 0 (fexp JS.prec JS.emax (Zdigits2 M + E) - E) in
  canonicalOrZero (M / 2 ^ n) (E + n).
Proof.
  intros HM Hpre n.
  assert (Hn : n = fexp JS.prec JS.emax (Zdigits2 M + E) - E) by lia.
  assert (Hp : 0 < 2 ^ n) by (apply Z.pow_pos_nonneg; lia).
  pose proof (Zdigits2_nonneg M) as Hd.
  rewrite fexp_eq in Hn.
  split; [apply Z.div_pos; lia|]. split.
  - intros Hz.
    destruct (Z_lt_le_dec n (Zdigits2 M)) as [Hlt|Hge].
    + exfalso. assert (HM' : 0 < M) by (destruct M; simpl in *; lia).
      pose proof (Zdigits2_shift M n HM' ltac:(lia)) as Hs. rewrite Hz in Hs. simpl in Hs. lia.
    + lia.
  - intros Hpos.
    assert (HM' : 0 < M).
    { destruct (Z.eq_dec M 0) as [->|]; [|lia]. rewrite Z.div_0_l in Hpos by lia. lia. }
    destruct (Z_lt_le_dec n (Zdigits2 M)) as [Hlt|Hge].
    + rewrite (Zdigits2_shift M n HM') by lia. rewrite fexp_eq.
      replace (Zdigits2 M - n + (E + n)) with (Zdigits2 M + E) by lia. lia.
    + rewrite (shift_small M n) in Hpos by lia. lia.
Qed.

Lemma bounded_iff (m : positive) (e : Z) :
  bounded JS.prec JS.emax m e = true <-> fexp JS.prec JS.emax (Zdigits2 (Zpos m) + e) = e /\ e <= 971.
Proof.
  unfold bounded, canonical_mantissa. rewrite andb_true_iff, Z.eqb_eq, Z.leb_le.
  cbn [Zdigits2]. unfold JS.emax, JS.prec. tauto.
Qed.

(** What [normalized] returns for a positive mantissa whose exponent is at
    most one below the canonical one. *)
Lemma normalized_cases (m2 e1 : Z) :
  0 < m2 ->
  e1 <= fexp JS.prec JS.emax (Zdigits2 m2 + e1) <= e1 + 1 ->
  -1074 <= e1 ->
  let n2 := fexp JS.prec JS.emax (Zdigits2 m2 + e1) - e1 in
  (n2 = 0 \/ n2 = 1)
  /\ exists m3 : positive,
       Zpos m3 = m2 / 2 ^ n2
       /\ fexp JS.prec JS.emax (Zdigits2 (Zpos m3) + (e1 + n2)) = e1 + n2
       /\ normalized false m2 e1
          = if e1 + n2 <=? 971 then S754_finite false m3 (e1 + n2) else S754_infinity false.
Proof.
  intros Hm2 Hf Hmin n2.
  assert (Hn2 : n2 = 0 \/ n2 = 1) by lia. split; [exact Hn2|].
  pose proof (Zdigits2_pos m2 Hm2) as Hd2.
  unfold normalized. replace (Z.max 0 (fexp JS.prec JS.emax (Zdigits2 m2 + e1) - e1)) with n2 by lia.
  destruct Hn2 as [Hz|Ho].
  - rewrite Hz. rewrite Z.pow_0_r, Z.div_1_r.
    destruct m2 as [|m3|]; try lia. exists m3. split; [reflexivity|]. split; [|reflexivity].
    rewrite Z.add_0_r. unfold n2 in Hz. lia.
  - rewrite Ho. 
    assert (H2 : 2 <= m2).
    { destruct (Z_lt_le_dec m2 2) as [Hlt|]; [|assumption]. exfalso.
      assert (m2 = 1) by lia. subst m2. unfold n2 in Ho.
      cbn [Zdigits2 digits2_pos] in Ho. rewrite fexp_eq in Ho. lia. }
    assert (Hd : Zdigits2 (m2 / 2 ^ 1) = Zdigits2 m2 - 1).
    { apply Zdigits2_shift; [lia|].
      pose proof (Zdigits2_bounds m2 Hm2) as [_ Hhi].
      destruct (Z_lt_le_dec 1 (Zdigits2 m2)); [lia|].
      exfalso. assert (Zdigits2 m2 = 1) by lia. rewrite H in Hhi. simpl in Hhi. lia. }
    assert (Hpos : 0 < m2 / 2 ^ 1) by (apply Z.div_str_pos; simpl; lia).
    destruct (m2 / 2 ^ 1) as [|m3|] eqn:E3; try lia.
    exists m3. split; [reflexivity|]. split; [|reflexivity].
    rewrite Hd. replace (Zdigits2 m2 - 1 + (e1 + 1)) with (Zdigits2 m2 + e1) by lia. lia.
Qed.

Lemma fexp_mono (x y : Z) : x <= y -> fexp JS.prec JS.emax x <= fexp JS.prec JS.emax y.
Proof. rewrite !fexp_eq. lia. Qed.

Lemma fexp_succ (x : Z) : fexp JS.prec JS.emax (x + 1) <= fexp JS.prec JS.emax x + 1.
Proof. rewrite !fexp_eq. lia. Qed.

Lemma fexp_min (x : Z) : -1074 <= fexp JS.prec JS.emax x.
Proof. rewrite fexp_eq. lia. Qed.

Lemma normalized_nonNegative (m1 e1 m2 : Z) :
  canonicalOrZero m1 e1 -> m2 = m1 \/ m2 = m1 + 1 -> nonNegative (normalized false m2 e1).
Proof.
  intros (Hm1 & Hzero & Hcanon) Hm2.
  destruct (Z.eq_dec m2 0) as [->|Hne].
  { left. unfold normalized. rewrite Z.div_0_l; [reflexivity|].
    apply Z.pow_nonzero; lia. }
  assert (Hpos : 0 < m2) by lia.
  assert (Hmin : -1074 <= e1).
  { destruct (Z.eq_dec m1 0) as [Hz|Hnz]; [rewrite (Hzero Hz); lia|].
    rewrite <- (Hcanon ltac:(lia)). apply fexp_min. }
  assert (Hf : e1 <= fexp JS.prec JS.emax (Zdigits2 m2 + e1) <= e1 + 1).
  { destruct (Z.eq_dec m1 0) as [Hz|Hnz].
    - assert (m2 = 1) by lia. subst m2. rewrite (Hzero Hz). rewrite fexp_eq. simpl. lia.
    - assert (H1 : 0 < m1) by lia. specialize (Hcanon H1). split.
      + rewrite <- Hcanon at 1. apply fexp_mono.
        pose proof (Zdigits2_mono m1 m2 H1 ltac:(lia)). lia.
      + rewrite <- Hcanon at 2.
        etransitivity; [|apply fexp_succ]. apply fexp_mono.
        destruct Hm2 as [->| ->]; [lia|]. pose proof (Zdigits2_succ m1 H1). lia. }
  destruct (normalized_cases m2 e1 Hpos Hf Hmin) as (_ & m3 & _ & Hc & ->).
  destruct (Z.leb_spec (e1 + (fexp JS.prec JS.emax (Zdigits2 m2 + e1) - e1)) 971).
  - right. right. eexists _, _. split; [reflexivity|]. apply bounded_iff. split; assumption.
  - right. left. reflexivity.
Qed.

Lemma binary_round_aux_nonNegative (M E : Z) (l : location) :
  0 <= M -> E <= fexp JS.prec JS.emax (Zdigits2 M + E) ->
  nonNegative (binary_round_aux JS.prec JS.emax false M E l).
Proof.
  intros HM Hpre.
  destruct (binary_round_aux_spec false M E l HM) as (m2 & Hm2 & ->).
  eapply normalized_nonNegative; [apply shift_canonicalOrZero; assumption|exact Hm2].
Qed.

Lemma iter_xO (m d : positive) : Zpos (Pos.iter xO m d) = Zpos m * 2 ^ Zpos d.
Proof.
  induction d as [|d IH] using Pos.peano_ind.
  - cbn [Pos.iter]. lia.
  - rewrite Pos.iter_succ. rewrite Pos2Z.inj_succ, Z.pow_succ_r by lia.
    assert (E : Zpos (Pos.iter xO m d)~0 = 2 * Zpos (Pos.iter xO m d)) by lia.
    rewrite E, IH. lia.
Qed.

Lemma Zdigits2_shl (m d : Z) : 0 < m -> 0 <= d -> Zdigits2 (m * 2 ^ d) = Zdigits2 m + d.
Proof.
  intros Hm Hd. pose proof (Zdigits2_bounds m Hm) as [Hlo Hhi].
  pose proof (Zdigits2_pos m Hm) as Hp.
  assert (H2 : 0 < 2 ^ d) by (apply Z.pow_pos_nonneg; lia).
  apply Zdigits2_unique; [lia|]. split.
  - replace (Zdigits2 m + d - 1) with ((Zdigits2 m - 1) + d) by lia.
    rewrite Z.pow_add_r by lia. apply Z.mul_le_mono_nonneg_r; lia.
  - rewrite Z.pow_add_r by lia. apply Z.mul_lt_mono_pos_r; lia.
Qed.

Lemma binary_round_nonNegative (m : positive) (e : Z) : nonNegative (binary_round JS.prec JS.emax false m e).
Proof.
  unfold binary_round, shl_align.
  destruct (fexp JS.prec JS.emax (Zpos (digits2_pos m) + e) - e) as [|p|p] eqn:E.
  - apply binary_round_aux_nonNegative; [lia|]. cbn [Zdigits2]. lia.
  - apply binary_round_aux_nonNegative; [lia|]. cbn [Zdigits2]. lia.
  - apply binary_round_aux_nonNegative; [lia|].
    rewrite iter_xO. rewrite Zdigits2_shl by lia. cbn [Zdigits2].
    replace (Zpos (digits2_pos m) + Zpos p + fexp JS.prec JS.emax (Zpos (digits2_pos m) + e))
      with (Zpos (digits2_pos m) + e) by lia. lia.
Qed.

Lemma binary_normalize_nonNegative (z e : Z) :
  0 <= z -> nonNegative (binary_normalize JS.prec JS.emax z e false).
Proof.
  intros Hz. destruct z as [|p|p]; [left; reflexivity|apply binary_round_nonNegative|lia].
Qed.

Lemma SFadd_nonNegative (x y : spec_float) : nonNegative x -> nonNegative y -> nonNegative (SFadd JS.prec JS.emax x y).
Proof.
  intros [->|[->|(mx & ex & -> & Hx)]] [->|[->|(my & ey & -> & Hy)]]; cbn [SFadd];
    try (left; reflexivity); try (right; left; reflexivity);
    try (right; right; eexists _, _; split; [reflexivity|assumption]).
  cbn [cond_Zopp]. apply binary_normalize_nonNegative. lia.
Qed.

Lemma SFdiv_nonNegative (x : spec_float) (my : positive) (ey : Z) :
  nonNegative x -> nonNegative (SFdiv JS.prec JS.emax x (S754_finite false my ey)).
Proof.
  intros [->|[->|(mx & ex & -> & Hx)]]; cbn [SFdiv xorb];
    [left; reflexivity|right; left; reflexivity|].
  unfold SFdiv_core_binary.
  set (d1 := Zdigits2 (Zpos mx)). set (d2 := Zdigits2 (Zpos my)).
  set (e' := Z.min (fexp JS.prec JS.emax (d1 + ex - (d2 + ey))) (ex - ey)).
  set (s := ex - ey - e').
  assert (Hs : 0 <= s) by (unfold s, e'; lia).
  set (m' := match s with Zpos _ => Z.shiftl (Zpos mx) s | Z0 => Zpos mx | Zneg _ => 0 end).
  assert (Hm' : m' = Zpos mx * 2 ^ s).
  { unfold m'. destruct s as [|p|p] eqn:Es; [simpl; lia| |lia].
    rewrite Z.shiftl_mul_pow2 by lia. reflexivity. }
  pose proof (Z_div_mod m' (Zpos my) ltac:(lia)) as Hdm.
  destruct (Z.div_eucl m' (Zpos my)) as [q r] eqn:Edm.
  destruct Hdm as [Hq Hr].
  assert (H2s : 0 < 2 ^ s) by (apply Z.pow_pos_nonneg; lia).
  assert (Hq0 : 0 <= q) by nia.
  apply binary_round_aux_nonNegative; [exact Hq0|].
  destruct (Z_le_gt_dec e' (-1074)) as [Hlow|Hhigh].
  { pose proof (fexp_min (Zdigits2 q + e')). lia. }
  assert (Ht : e' <= d1 + ex - (d2 + ey) - 53).
  { unfold e' in *. rewrite fexp_eq in *. lia. }
  assert (Hs' : 53 - d1 + d2 <= s) by (unfold s; lia).
  pose proof (Zdigits2_bounds (Zpos mx) ltac:(lia)) as [Hlo1 _]. fold d1 in Hlo1.
  pose proof (Zdigits2_bounds (Zpos my) ltac:(lia)) as [_ Hhi2]. fold d2 in Hhi2.
  pose proof (Zdigits2_pos (Zpos mx) ltac:(lia)) as Hd1. fold d1 in Hd1.
  pose proof (Zdigits2_pos (Zpos my) ltac:(lia)) as Hd2. fold d2 in Hd2.
  assert (Hbig : 2 ^ 52 * 2 ^ d2 <= m').
  { rewrite Hm'. rewrite <- Z.pow_add_r by lia.
    apply Z.le_trans with (2 ^ (d1 - 1) * 2 ^ s).
    - rewrite <- Z.pow_add_r by lia. apply Z.pow_le_mono_r; lia.
    - apply Z.mul_le_mono_nonneg_r; lia. }
  assert (Hq52 : 2 ^ 52 <= q).
  { destruct (Z_lt_le_dec q (2 ^ 52)) as [Hlt|]; [|assumption]. exfalso.
    assert (q + 1 <= 2 ^ 52) by lia.
    assert (m' < Zpos my * (q + 1)) by lia.
    assert (Zpos my * (q + 1) <= 2 ^ d2 * 2 ^ 52) by (apply Z.mul_le_mono_nonneg; lia).
    lia. }
  assert (Hdq : 53 <= Zdigits2 q).
  { change 53 with (Zdigits2 (2 ^ 52)). apply Zdigits2_mono; [reflexivity|exact Hq52]. }
  rewrite fexp_eq. lia.
Qed.

Lemma normalized_near (m1 e1 m2 : Z) :
  canonicalOrZero m1 e1 -> m2 = m1 \/ m2 = m1 + 1 -> 0 < m2 ->
  let n2 := fexp JS.prec JS.emax (Zdigits2 m2 + e1) - e1 in
  (n2 = 0 \/ n2 = 1)
  /\ exists m3 : positive,
       Zpos m3 = m2 / 2 ^ n2
       /\ normalized false m2 e1
          = if e1 + n2 <=? 971 then S754_finite false m3 (e1 + n2) else S754_infinity false.
Proof.
  intros (Hm1 & Hzero & Hcanon) Hm2 Hpos.
  assert (Hmin : -1074 <= e1).
  { destruct (Z.eq_dec m1 0) as [Hz|Hnz]; [rewrite (Hzero Hz); lia|].
    rewrite <- (Hcanon ltac:(lia)). apply fexp_min. }
  assert (Hf : e1 <= fexp JS.prec JS.emax (Zdigits2 m2 + e1) <= e1 + 1).
  { destruct (Z.eq_dec m1 0) as [Hz|Hnz].
    - assert (m2 = 1) by lia. subst m2. rewrite (Hzero Hz). rewrite fexp_eq. simpl. lia.
    - assert (H1 : 0 < m1) by lia. specialize (Hcanon H1). split.
      + rewrite <- Hcanon at 1. apply fexp_mono.
        pose proof (Zdigits2_mono m1 m2 H1 ltac:(lia)). lia.
      + rewrite <- Hcanon at 2.
        etransitivity; [|apply fexp_succ]. apply fexp_mono.
        destruct Hm2 as [->| ->]; [lia|]. pose proof (Zdigits2_succ m1 H1). lia. }
  destruct (normalized_cases m2 e1 Hpos Hf Hmin) as (Hn & m3 & H3 & _ & Hfin).
  split; [exact Hn|]. exists m3. split; assumption.
Qed.

Lemma mul_digits (m c : Z) :
  0 < m -> 2 ^ 52 <= c < 2 ^ 53 ->
  (Zdigits2 (m * c) = Zdigits2 m + 52 /\ m * c < 2 ^ (Zdigits2 m + 52))
  \/ (Zdigits2 (m * c) = Zdigits2 m + 53 /\ 2 ^ (Zdigits2 m + 52) <= m * c).
Proof.
  intros Hm Hc. pose proof (Zdigits2_bounds m Hm) as [Hlo Hhi].
  pose proof (Zdigits2_pos m Hm) as Hd.
  assert (Hlow : 2 ^ (Zdigits2 m + 51) <= m * c).
  { replace (Zdigits2 m + 51) with ((Zdigits2 m - 1) + 52) by lia.
    rewrite Z.pow_add_r by lia. apply Z.mul_le_mono_nonneg; lia. }
  assert (Hhigh : m * c < 2 ^ (Zdigits2 m + 53)).
  { rewrite Z.pow_add_r by lia. apply Z.mul_lt_mono_nonneg; lia. }
  destruct (Z_lt_le_dec (m * c) (2 ^ (Zdigits2 m + 52))) as [H|H].
  - left. split; [|exact H]. apply Zdigits2_unique; [lia|].
    replace (Zdigits2 m + 52 - 1) with (Zdigits2 m + 51) by lia. lia.
  - right. split; [|exact H]. apply Zdigits2_unique; [lia|].
    replace (Zdigits2 m + 53 - 1) with (Zdigits2 m + 52) by lia. lia.
Qed.

Lemma ltb_finite (m1 m2 : positive) (e1 e2 : Z) :
  e2 < e1 \/ (e1 = e2 /\ Zpos m2 <= Zpos m1) ->
  SFltb (S754_finite false m1 e1) (S754_finite false m2 e2) = false.
Proof.
  intros H. unfold SFltb, SFcompare.
  destruct (Z.compare_spec e1 e2) as [E|E|E]; try lia; try reflexivity.
  change (Pos.compare_cont Eq m1 m2) with (Pos.compare m1 m2).
  destruct (Pos.compare_spec m1 m2); try reflexivity. lia.
Qed.

Lemma bounded_canonical (m : positive) (e : Z) :
  bounded JS.prec JS.emax m e = true ->
  fexp JS.prec JS.emax (Zdigits2 (Zpos m) + e) = e /\ e <= 971 /\ -1074 <= e
  /\ 0 < Zdigits2 (Zpos m) <= 53.
Proof.
  intros H. apply bounded_iff in H. destruct H as [Hc He].
  pose proof (Zdigits2_pos (Zpos m) ltac:(lia)) as Hd.
  rewrite fexp_eq in Hc. repeat split; try lia. rewrite fexp_eq. lia.
Qed.

(** Multiplying by a constant in [1, 2) never gives less. *)
Lemma mul_up (a : spec_float) (mc : positive) :
  nonNegative a -> 2 ^ 52 <= Zpos mc < 2 ^ 53 ->
  SFltb (SFmul JS.prec JS.emax a (S754_finite false mc (-52))) a = false.
Proof.
  intros [->|[->|(m & e & -> & Ha)]] Hc; [reflexivity|reflexivity|].
  cbn [SFmul xorb].
  destruct (bounded_canonical m e Ha) as (Hcanon & Hmax & Hmin & Hd).
  set (M := Zpos (m * mc)). set (E := e + -52).
  assert (HM : M = Zpos m * Zpos mc) by (unfold M; lia).
  destruct (binary_round_aux_spec false M E loc_Exact ltac:(lia)) as (m2 & Hm2 & ->).
  set (n := Z.max 0 (fexp JS.prec JS.emax (Zdigits2 M + E) - E)) in *.
  pose proof (mul_digits (Zpos m) (Zpos mc) ltac:(lia) Hc) as Hdig. rewrite <- HM in Hdig.
  assert (Hpre : E <= fexp JS.prec JS.emax (Zdigits2 M + E)).
  { unfold E. rewrite fexp_eq in *. lia. }
  pose proof (shift_canonicalOrZero M E ltac:(lia) Hpre) as Hcz. fold n in Hcz.
  assert (Hn : n = 52 \/ n = 53) by (unfold n, E; rewrite fexp_eq in *; lia).
  assert (H2n : 0 < 2 ^ n) by (apply Z.pow_pos_nonneg; lia).
  assert (Hm1 : (n = 52 /\ Zpos m <= M / 2 ^ n) \/ (n = 53 /\ 0 < M / 2 ^ n)).
  { destruct Hn as [Hn|Hn]; [left|right]; split; try exact Hn.
    - apply Z.div_le_lower_bound; [lia|]. rewrite Hn, HM. nia.
    - apply Z.div_str_pos. split; [lia|].
      assert (Hd53 : Zdigits2 M = Zdigits2 (Zpos m) + 53)
        by (unfold n, E in Hn; rewrite fexp_eq in *; lia).
      destruct Hdig as [[Hx _]|[_ Hge]]; [lia|].
      rewrite Hn. eapply Z.le_trans; [|exact Hge]. apply Z.pow_le_mono_r; lia. }
  assert (Hpos : 0 < m2) by lia.
  destruct (normalized_near _ _ m2 Hcz Hm2 Hpos) as (Hn2 & m3 & H3 & ->).
  set (n2 := fexp JS.prec JS.emax (Zdigits2 m2 + (E + n)) - (E + n)) in *.
  destruct (Z.leb_spec (E + n + n2) 971); [|reflexivity].
  apply ltb_finite.
  destruct Hm1 as [[Hn52 Hge]|[Hn53 _]].
  - destruct Hn2 as [Hz|Ho].
    + right. split; [unfold E; lia|]. rewrite H3, Hz, Z.pow_0_r, Z.div_1_r. lia.
    + left. unfold E. lia.
  - left. unfold E. lia.
Qed.

(** Multiplying by a constant in [1/2, 1) never gives more. *)
Lemma mul_down (a : spec_float) (mc : positive) :
  nonNegative a -> 2 ^ 52 <= Zpos mc < 2 ^ 53 ->
  SFltb a (SFmul JS.prec JS.emax a (S754_finite false mc (-53))) = false.
Proof.
  intros [->|[->|(m & e & -> & Ha)]] Hc; [reflexivity|reflexivity|].
  cbn [SFmul xorb].
  destruct (bounded_canonical m e Ha) as (Hcanon & Hmax & Hmin & Hd).
  set (M := Zpos (m * mc)). set (E := e + -53).
  assert (HM : M = Zpos m * Zpos mc) by (unfold M; lia).
  destruct (binary_round_aux_spec false M E loc_Exact ltac:(lia)) as (m2 & Hm2 & ->).
  set (n := Z.max 0 (fexp JS.prec JS.emax (Zdigits2 M + E) - E)) in *.
  pose proof (mul_digits (Zpos m) (Zpos mc) ltac:(lia) Hc) as Hdig. rewrite <- HM in Hdig.
  assert (Hpre : E <= fexp JS.prec JS.emax (Zdigits2 M + E)).
  { unfold E. rewrite fexp_eq in *. lia. }
  pose proof (shift_canonicalOrZero M E ltac:(lia) Hpre) as Hcz. fold n in Hcz.
  assert (Hn : n = 52 \/ n = 53) by (unfold n, E; rewrite fexp_eq in *; lia).
  assert (H2n : 0 < 2 ^ n) by (apply Z.pow_pos_nonneg; lia).
  pose proof (Zdigits2_bounds (Zpos m) ltac:(lia)) as [Hlo Hhi].
  assert (Hm1 : 0 <= M / 2 ^ n) by (apply Z.div_pos; lia).
  assert (Hcase : (n = 53 /\ M / 2 ^ n < Zpos m)
                  \/ (n = 52 /\ M / 2 ^ n < 2 ^ Zdigits2 (Zpos m))).
  { destruct Hn as [Hn|Hn]; [right|left]; split; try exact Hn.
    - assert (Hd52 : Zdigits2 M = Zdigits2 (Zpos m) + 52)
        by (unfold n, E in Hn; rewrite fexp_eq in *; lia).
      destruct Hdig as [[_ Hlt]|[Hx _]]; [|lia].
      apply Z.div_lt_upper_bound; [lia|]. rewrite Hn.
      rewrite <- Z.pow_add_r by lia. replace (52 + Zdigits2 (Zpos m)) with (Zdigits2 (Zpos m) + 52) by lia.
      exact Hlt.
    - apply Z.div_lt_upper_bound; [lia|]. rewrite Hn, HM. nia. }
  destruct (Z.eq_dec m2 0) as [Hz|Hnz].
  { subst m2. unfold normalized. rewrite Z.div_0_l by (apply Z.pow_nonzero; lia). reflexivity. }
  assert (Hpos : 0 < m2) by lia.
  destruct (normalized_near _ _ m2 Hcz Hm2 Hpos) as (Hn2 & m3 & H3 & ->).
  set (n2 := fexp JS.prec JS.emax (Zdigits2 m2 + (E + n)) - (E + n)) in *.
  assert (Hgoal : E + n + n2 < e \/ (E + n + n2 = e /\ Zpos m3 <= Zpos m)).
  { destruct Hcase as [[Hn53 Hlt]|[Hn52 Hlt]].
    - assert (Hle : m2 <= Zpos m) by lia.
      assert (Hd2 : Zdigits2 m2 <= Zdigits2 (Zpos m)) by (apply Zdigits2_mono; lia).
      assert (Hn2z : n2 = 0).
      { pose proof (fexp_mono (Zdigits2 m2 + (E + n)) (Zdigits2 (Zpos m) + e)
                      ltac:(unfold E; lia)) as Hmono.
        unfold n2 in *. unfold E in *. lia. }
      right. split; [unfold E; lia|]. rewrite H3, Hn2z, Z.pow_0_r, Z.div_1_r. exact Hle.
    - destruct Hn2 as [Hz|Ho]; [left; unfold E; lia|].
      right. split; [unfold E; lia|]. rewrite H3, Ho.
      assert (Hle : m2 <= 2 ^ Zdigits2 (Zpos m)) by lia.
      apply Z.le_trans with (2 ^ (Zdigits2 (Zpos m) - 1)); [|exact Hlo].
      apply Z.div_le_upper_bound; [simpl; lia|].
      replace (2 ^ 1 * 2 ^ (Zdigits2 (Zpos m) - 1)) with (2 ^ Zdigits2 (Zpos m)); [exact Hle|].
      rewrite <- Z.pow_add_r by lia. f_equal. lia. }
  destruct (Z.leb_spec (E + n + n2) 971); [|lia].
  apply ltb_finite. lia.
Qed.

End Binary64.

(** *** Three updates *)

Lemma literal_12 : JS.literal 12 1 = S754_finite false 5404319552844595 (-52).
Proof. vm_compute. reflexivity. Qed.

Lemma literal_8 : JS.literal 8 1 = S754_finite false 7205759403792794 (-53).
Proof. vm_compute. reflexivity. Qed.

Lemma ofNat_nonNegative (n : nat) : nonNegative (JS.ofNat n).
Proof. apply binary_normalize_nonNegative. lia. Qed.

Lemma sum_nonNegative (counts : list nat) :
  forall acc, nonNegative acc ->
    nonNegative (fold_left (fun sum count => JS.add sum (JS.ofNat count)) counts acc).
Proof.
  induction counts as [|count counts IH]; intros acc Hacc; [exact Hacc|].
  cbn [fold_left]. apply IH. apply SFadd_nonNegative; [exact Hacc|apply ofNat_nonNegative].
Qed.

Lemma average_nonNegative (counts : list nat) :
  List.length counts = 3 -> nonNegative (average counts).
Proof.
  intros H. unfold average. rewrite H.
  change (JS.ofNat 3) with (S754_finite false 6755399441055744 (-51)).
  apply SFdiv_nonNegative. apply sum_nonNegative. apply ofNat_nonNegative.
Qed.

(** A non-negative average compared with itself is stable. *)
Lemma direction_same (avg : JS.number) : nonNegative avg -> direction avg avg = stable.
Proof.
  intros H. unfold direction, JS.gt, JS.lt, JS.mul. rewrite literal_12, literal_8.
  rewrite (mul_up avg _ H) by lia. rewrite (mul_down avg _ H) by lia. reflexivity.
Qed.

(** C10.  With exactly three updates the earliest three and the most recent
    three are the same records, all three sorted updates, so the two
    averages of each metric are the same number and every direction
    reported is [stable]. *)
Theorem three_updates_are_stable (dateValue : string -> option Z)
  (updates : list Standup.t) :
  List.length updates = 3 ->
  let sortedUpdates := JS.sort (byTimestamp dateValue) updates in
  JS.sliceTo sortedUpdates 3 = sortedUpdates
  /\ JS.sliceLast sortedUpdates 3 = sortedUpdates
  /\ analyzeMemberTrends dateValue updates = Analysed allStable.
Proof.
  intros Hlen sortedUpdates.
  assert (Hsorted : List.length sortedUpdates = 3).
  { rewrite <- Hlen. apply Permutation_length. apply sort_perm. }
  assert (Hto : JS.sliceTo sortedUpdates 3 = sortedUpdates)
    by (apply firstn_all2; lia).
  assert (Hlast : JS.sliceLast sortedUpdates 3 = sortedUpdates)
    by (unfold JS.sliceLast; rewrite Hsorted; reflexivity).
  split; [exact Hto|]. split; [exact Hlast|].
  unfold analyzeMemberTrends. rewrite Hlen. cbn [Nat.ltb Nat.leb].
  fold sortedUpdates. rewrite Hto, Hlast. unfold allStable.
  rewrite !direction_same; [reflexivity| |];
    apply average_nonNegative; rewrite length_map; exact Hsorted.
Qed.

Lemma three_updates_are_stable_witness :
  analyzeMemberTrends isoDateValue threeUpdates = Analysed allStable.
Proof.
  apply (three_updates_are_stable isoDateValue threeUpdates). reflexivity.
Defined.

(** ** Part VIII. Further properties: the handlers and the store *)

(** *** Blockers and consistency of one member *)

Lemma generateBlockerRecommendations_length (blockers : list ReportedBlocker.t) :
  1 <= List.length (generateBlockerRecommendations blockers) <= 3.
Proof.
  unfold generateBlockerRecommendations.
  destruct blockers as [|b r]; [simpl; lia|].
  cbn [List.length Nat.eqb JS.sliceTo firstn].
  destruct (5 <? S (List.length r)); cbn [List.length app]; lia.
Qed.

Lemma generateBlockerRecommendations_none (blockers : list ReportedBlocker.t) :
  generateBlockerRecommendations blockers = [ "No recent blockers - workflow is smooth" ]
  <-> List.length blockers = 0.
Proof.
  unfold generateBlockerRecommendations.
  destruct blockers as [|b r]; [simpl; tauto|].
  cbn [List.length Nat.eqb JS.sliceTo firstn].
  split; [|discriminate].
  destruct (5 <? S (List.length r)); cbn [app]; intros H; inversion H.
Qed.

(** X1.  [analyzeIndividualBlockers] counts no more blockers than there are
    updates, lists the first five of them, each with a blocker text that is
    not empty and not [none], names at most three recurring blockers and
    gives between one and three recommendations.  The recommendations are
    the single text [No recent blockers - workflow is smooth] exactly when
    no blocker was counted. *)
Theorem individual_blocker_analysis_shape (teamMember : string)
  (recentUpdates : list StandupRecord.t) :
  let analysis := analyzeIndividualBlockers teamMember recentUpdates in
  BlockerAnalysis.totalBlockers analysis <= List.length recentUpdates
  /\ List.length (BlockerAnalysis.recentBlockers analysis)
     = Nat.min 5 (BlockerAnalysis.totalBlockers analysis)
  /\ Forall (fun b => reportsBlocker (ReportedBlocker.blocker b) = true)
            (BlockerAnalysis.recentBlockers analysis)
  /\ List.length (BlockerAnalysis.recurringBlockers analysis) <= 3
  /\ 1 <= List.length (BlockerAnalysis.recommendations analysis) <= 3
  /\ (BlockerAnalysis.recommendations analysis = [ "No recent blockers - workflow is smooth" ]
      <-> BlockerAnalysis.totalBlockers analysis = 0).
Proof.
  cbn [analyzeIndividualBlockers BlockerAnalysis.totalBlockers BlockerAnalysis.recentBlockers
       BlockerAnalysis.recurringBlockers BlockerAnalysis.recommendations].
  repeat split.
  - rewrite length_map. apply filter_length_le.
  - unfold JS.sliceTo. rewrite length_firstn. reflexivity.
  - rewrite Forall_forall. intros b Hb. apply in_firstn in Hb.
    apply in_map_iff in Hb. destruct Hb as (u & <- & Hu).
    apply filter_In in Hu. exact (proj2 Hu).
  - unfold findRecurringBlockers, JS.sliceTo. rewrite length_firstn. lia.
  - apply generateBlockerRecommendations_length.
  - apply generateBlockerRecommendations_length.
  - apply generateBlockerRecommendations_none.
  - apply generateBlockerRecommendations_none.
Qed.

Lemma whitespace_lower (a : ascii) :
  JS.isWhiteSpace a = true -> JS.toLowerCaseUnit a = a.
Proof.
  destruct a as [[] [] [] [] [] [] [] []]; vm_compute; intros H;
    first [reflexivity | discriminate].
Qed.

Lemma lower_not_whitespace (a x : ascii) :
  JS.toLowerCaseUnit a = x -> JS.isWhiteSpace x = false -> JS.isWhiteSpace a = false.
Proof.
  intros H Hx. destruct (JS.isWhiteSpace a) eqn:E; [|reflexivity].
  rewrite (whitespace_lower a E) in H. congruence.
Qed.

Lemma none_not_blank (text : string) :
  JS.toLowerCase text = "none" -> JS.trim text = text.
Proof.
  destruct text as [|a [|b [|c [|d [|e r]]]]]; cbn [JS.toLowerCase]; try discriminate.
  intros H. injection H as Ha Hb Hc Hd.
  apply lower_not_whitespace in Ha; [|reflexivity].
  apply lower_not_whitespace in Hd; [|reflexivity].
  unfold JS.trim, JS.trimEnd. cbn [JS.trimStart JS.reverse]. rewrite Ha.
  cbn [JS.trimStart JS.reverse]. rewrite Hd. reflexivity.
Qed.

Lemma reportsBlocker_split (text : string) :
  reportsBlocker text = reportsVisibleBlocker text || isBlank text
  /\ reportsVisibleBlocker text && isBlank text = false.
Proof.
  unfold reportsBlocker, reportsVisibleBlocker, isBlank.
  destruct (JS.truthy text) eqn:Ht; [|split; reflexivity].
  destruct (String.eqb (JS.toLowerCase text) "none") eqn:En.
  - apply String.eqb_eq in En. rewrite (none_not_blank text En).
    unfold JS.truthy in Ht. destruct (String.eqb text ""); [discriminate|].
    split; reflexivity.
  - destruct (String.eqb (JS.trim text) ""); split; reflexivity.
Qed.

Lemma filter_length_split {A : Type} (f g h : A -> bool) (l : list A) :
  (forall x, f x = g x || h x /\ g x && h x = false) ->
  List.length (filter f l) = List.length (filter g l) + List.length (filter h l).
Proof.
  intros H. induction l as [|x l IH]; [reflexivity|].
  cbn [filter]. destruct (H x) as [Hf Hgh]. rewrite Hf.
  destruct (g x), (h x); cbn [orb andb List.length] in *; try discriminate; lia.
Qed.

Lemma filter_map_swap {A B : Type} (f : A -> B) (p : B -> bool) (l : list A) :
  filter p (map f l) = map f (filter (fun x => p (f x)) l).
Proof.
  induction l as [|x l IH]; [reflexivity|].
  cbn [map filter]. destruct (p (f x)); cbn [map]; rewrite IH; reflexivity.
Qed.

(** X2.  The two counts of blockers differ on blank texts.  For a list of
    updates that is not empty, [analyzeIndividualBlockers] counts every
    update whose blocker text is blank (not empty, white space only) and
    reports the rounded percentage of its count; [calculateMemberSummary]
    on the same updates leaves the blank ones out and reports the rounded
    percentage of the count without them. *)
Theorem blank_blockers_counted_by_analysis_only (teamMember : string)
  (recentUpdates : list StandupRecord.t) (days : Z) :
  recentUpdates <> [] ->
  let count := List.length recentUpdates in
  let total := BlockerAnalysis.totalBlockers (analyzeIndividualBlockers teamMember recentUpdates) in
  let blank := List.length (filter (fun update => isBlank (blockerTextOf update)) recentUpdates) in
  blank <= total
  /\ BlockerAnalysis.blockerFrequency (analyzeIndividualBlockers teamMember recentUpdates)
     = percentOf total count
  /\ Summary.blockerFrequency
       (calculateMemberSummary (map StandupRecord.standup recentUpdates) days)
     = percentOf (total - blank) count.
Proof.
  intros Hne.
  cbn [analyzeIndividualBlockers BlockerAnalysis.totalBlockers BlockerAnalysis.blockerFrequency].
  rewrite length_map.
  pose proof (filter_length_split
                (fun update => reportsBlocker (blockerTextOf update))
                (fun update => reportsVisibleBlocker (blockerTextOf update))
                (fun update => isBlank (blockerTextOf update))
                recentUpdates
                (fun update => reportsBlocker_split (blockerTextOf update))) as Hsplit.
  unfold blockerTextOf in *.
  split; [lia|]. split.
  - destruct recentUpdates as [|u r]; [congruence|]. reflexivity.
  - unfold calculateMemberSummary. rewrite length_map.
    destruct recentUpdates as [|u r]; [congruence|].
    cbn [List.length Nat.eqb Summary.blockerFrequency].
    rewrite filter_map_swap, length_map. f_equal.
    cbn [List.length] in Hsplit. lia.
Qed.

Lemma blank_blockers_counted_by_analysis_only_witness :
  blankUpdate <> []
  /\ BlockerAnalysis.blockerFrequency (analyzeIndividualBlockers "dana" blankUpdate)
     = JS.ofNat 100
  /\ Summary.blockerFrequency
       (calculateMemberSummary (map StandupRecord.standup blankUpdate) 30)
     = JS.ofNat 0.
Proof.
  assert (Hne : blankUpdate <> []) by discriminate.
  split; [exact Hne|].
  destruct (blank_blockers_counted_by_analysis_only "dana" blankUpdate 30 Hne)
    as (_ & H1 & H2).
  split; [rewrite H1|rewrite H2]; vm_compute; reflexivity.
Defined.

Lemma sameConsistency_eq (a b : Consistency) : sameConsistency a b = true -> a = b.
Proof. destruct a, b; simpl; intros H; first [reflexivity | discriminate]. Qed.

Lemma consistency_enumerated :
  forallb (fun expected => forallb (consistencyAgrees expected) (seq 1 50)) (seq 1 30) = true.
Proof. vm_compute. reflexivity. Qed.

Lemma frequency_enumerated :
  forallb (fun standups => forallb (frequencyAgrees standups) (seq 0 (S standups))) (seq 1 50)
  = true.
Proof. vm_compute. reflexivity. Qed.

Lemma consistency_checked (expected standups : nat) :
  1 <= expected <= 30 -> 1 <= standups <= 50 ->
  consistencyOf standups (Z.of_nat expected) = consistencyByCount standups expected.
Proof.
  intros He Hs. apply sameConsistency_eq.
  assert (Hin : In expected (seq 1 30)) by (apply in_seq; lia).
  pose proof (proj1 (forallb_forall _ _) consistency_enumerated expected Hin) as H.
  apply (proj1 (forallb_forall _ _) H standups). apply in_seq. lia.
Qed.

Lemma frequency_checked (standups blocked : nat) :
  1 <= standups <= 50 -> blocked <= standups ->
  JS.gt (percentOf blocked standups) (JS.ofNat 50) = (101 * standups <=? 200 * blocked)
  /\ JS.strictEq (percentOf blocked standups) (JS.ofNat 0) = (blocked =? 0).
Proof.
  intros Hs Hb.
  assert (Hin : In standups (seq 1 50)) by (apply in_seq; lia).
  pose proof (proj1 (forallb_forall _ _) frequency_enumerated standups Hin) as H.
  assert (Hin' : In blocked (seq 0 (S standups))) by (apply in_seq; lia).
  pose proof (proj1 (forallb_forall _ _) H blocked Hin') as H'.
  unfold frequencyAgrees in H'. apply andb_prop in H'. destruct H' as [H1 H2].
  split; apply Bool.eqb_prop; assumption.
Qed.

Lemma consistencyOf_capped (standups : nat) (days : Z) :
  consistencyOf standups days = consistencyOf standups (Z.min days 30).
Proof.
  unfold consistencyOf. replace (Z.min (Z.min days 30) 30) with (Z.min days 30) by lia.
  reflexivity.
Qed.

(** X3.  For a period of at least one day and between 1 and 50 updates the
    consistency of [calculateMemberSummary] is the one the counts give in
    exact arithmetic, with [expected = min(days, 30)]: [Excellent] when
    [5 * standups > 4 * expected], else [Good] when
    [5 * standups > 3 * expected], else [Fair] when
    [5 * standups > 2 * expected], else [Poor].  The rounding of the
    division and of the product never moves a rate across 80, 60 or 40. *)
Theorem consistency_by_counts (recentUpdates : list Standup.t) (days : Z) :
  (1 <= days)%Z -> 1 <= List.length recentUpdates <= 50 ->
  Summary.consistency (calculateMemberSummary recentUpdates days)
  = consistencyByCount (List.length recentUpdates) (Z.to_nat (Z.min days 30)).
Proof.
  intros Hd Hn. unfold calculateMemberSummary.
  destruct (Nat.eqb_spec (List.length recentUpdates) 0) as [E|_]; [lia|].
  cbn [Summary.consistency].
  set (expected := Z.to_nat (Z.min days 30)).
  assert (He : Z.min days 30 = Z.of_nat expected) by (unfold expected; lia).
  rewrite consistencyOf_capped, He.
  apply consistency_checked; [unfold expected; lia|lia].
Qed.

Lemma consistency_by_counts_witness :
  (1 <= 45)%Z /\ 1 <= List.length fortyUpdates <= 50
  /\ Summary.consistency (calculateMemberSummary fortyUpdates 45) = Excellent.
Proof.
  assert (Hd : (1 <= 45)%Z) by lia.
  assert (Hn : 1 <= List.length fortyUpdates <= 50) by (vm_compute; lia).
  split; [exact Hd|]. split; [exact Hn|].
  rewrite (consistency_by_counts fortyUpdates 45 Hd Hn). reflexivity.
Defined.

(** X4.  For between 1 and 50 updates, among the insights of
    [generateMemberInsights] on the summary of [calculateMemberSummary] the
    text [No blockers reported - smooth workflow] occurs exactly when no
    update reports a blocker, and the text
    [High blocker frequency - may need additional support] exactly when the
    updates with a blocker are at least 50.5 per cent of all
    ([101 * count <= 200 * blocked]). *)
Theorem blocker_insights_by_counts (recentUpdates : list Standup.t) (days : Z) :
  1 <= List.length recentUpdates <= 50 ->
  let blocked :=
    List.length (filter (fun update => reportsVisibleBlocker (Standup.blockers update))
                        recentUpdates) in
  let insights :=
    generateMemberInsights recentUpdates (calculateMemberSummary recentUpdates days) in
  (In "No blockers reported - smooth workflow" insights <-> blocked = 0)
  /\ (In "High blocker frequency - may need additional support" insights
      <-> 101 * List.length recentUpdates <= 200 * blocked).
Proof.
  intros Hn blocked insights.
  assert (Hb : blocked <= List.length recentUpdates) by apply filter_length_le.
  destruct (frequency_checked (List.length recentUpdates) blocked Hn Hb) as [Hgt Heq].
  unfold insights, generateMemberInsights, calculateMemberSummary.
  destruct (Nat.eqb_spec (List.length recentUpdates) 0) as [E|_]; [lia|].
  cbn [Summary.productivity Summary.consistency Summary.blockerFrequency].
  fold blocked. rewrite Hgt, Heq.
  split; split.
  - intros Hin. apply in_app_or in Hin. destruct Hin as [Hin|Hin].
    { destruct (summaryProductivity _ _ _); other_text. }
    apply in_app_or in Hin. destruct Hin as [Hin|Hin].
    { destruct (consistencyOf _ _); other_text. }
    destruct (Nat.leb_spec (101 * List.length recentUpdates) (200 * blocked)); [other_text|].
    destruct (Nat.eqb_spec blocked 0); [assumption|other_text].
  - intros ->. apply in_or_app. right. apply in_or_app. right.
    destruct (Nat.leb_spec (101 * List.length recentUpdates) (200 * 0)); [lia|].
    left. reflexivity.
  - intros Hin. apply in_app_or in Hin. destruct Hin as [Hin|Hin].
    { destruct (summaryProductivity _ _ _); other_text. }
    apply in_app_or in Hin. destruct Hin as [Hin|Hin].
    { destruct (consistencyOf _ _); other_text. }
    destruct (Nat.leb_spec (101 * List.length recentUpdates) (200 * blocked)); [assumption|].
    destruct (Nat.eqb_spec blocked 0); other_text.
  - intros Hle. apply in_or_app. right. apply in_or_app. right.
    destruct (Nat.leb_spec (101 * List.length recentUpdates) (200 * blocked)); [|lia].
    left. reflexivity.
Qed.

Lemma blocker_insights_by_counts_witness :
  1 <= List.length fortyUpdates <= 50
  /\ In "No blockers reported - smooth workflow"
        (generateMemberInsights fortyUpdates (calculateMemberSummary fortyUpdates 45)).
Proof.
  assert (Hn : 1 <= List.length fortyUpdates <= 50) by (vm_compute; lia).
  split; [exact Hn|].
  apply (proj1 (blocker_insights_by_counts fortyUpdates 45 Hn)). reflexivity.
Defined.

(** *** Productivity of one member *)

Section Binary64Positive.

Local Open Scope Z_scope.

Lemma binary_round_aux_positive (M E : Z) (l : location) :
  0 < M -> E <= fexp JS.prec JS.emax (Zdigits2 M + E) ->
  2 ^ Z.max 0 (fexp JS.prec JS.emax (Zdigits2 M + E) - E) <= M ->
  binary_round_aux JS.prec JS.emax false M E l <> S754_zero false.
Proof.
  intros HM Hpre Hbig.
  destruct (binary_round_aux_spec false M E l ltac:(lia)) as (m2 & Hm2 & ->).
  set (n := Z.max 0 (fexp JS.prec JS.emax (Zdigits2 M + E) - E)) in *.
  assert (H2 : 0 < 2 ^ n) by (apply Z.pow_pos_nonneg; unfold n; lia).
  assert (Hq : 0 < M / 2 ^ n) by (apply Z.div_str_pos; lia).
  pose proof (shift_canonicalOrZero M E ltac:(lia) Hpre) as Hc. fold n in Hc.
  destruct (normalized_near (M / 2 ^ n) (E + n) m2 Hc Hm2 ltac:(lia)) as (_ & m3 & _ & ->).
  destruct (_ <=? 971); discriminate.
Qed.

Lemma ofZ_positive (z : Z) : 0 < z -> JS.ofZ z <> S754_zero false.
Proof.
  intros Hz. destruct z as [|p|p]; try lia.
  unfold JS.ofZ, binary_normalize, binary_round, shl_align.
  pose proof (digits2_pos_bounds p) as [Hlo Hhi].
  set (d := Zpos (digits2_pos p)) in *.
  assert (Hd : 0 < d) by (unfold d; lia).
  rewrite fexp_eq.
  destruct (Z.max (d + 0 - 53) (-1074) - 0) as [|q|q] eqn:Eq.
  - apply binary_round_aux_positive; [lia| |]; cbn [Zdigits2]; fold d; rewrite fexp_eq.
    + lia.
    + replace (Z.max 0 (Z.max (d + 0 - 53) (-1074) - 0)) with 0 by lia. simpl. lia.
  - apply binary_round_aux_positive; [lia| |]; cbn [Zdigits2]; fold d; rewrite fexp_eq.
    + lia.
    + replace (Z.max 0 (Z.max (d + 0 - 53) (-1074) - 0)) with (d - 53) by lia.
      apply Z.le_trans with (2 ^ (d - 1)); [apply Z.pow_le_mono_r; lia|exact Hlo].
  - assert (Hq : Zpos q = 53 - d) by lia.
    apply binary_round_aux_positive; [lia| |]; rewrite iter_xO;
      rewrite Zdigits2_shl by lia; cbn [Zdigits2]; fold d; rewrite !fexp_eq.
    + clearbody d. lia.
    + clearbody d. replace (Z.max 0 _) with 0 by lia. rewrite Z.pow_0_r.
      assert (0 < 2 ^ Zpos q) by (apply Z.pow_pos_nonneg; lia). nia.
Qed.

Lemma SFmul_nonNegative (x : spec_float) (mc : positive) (ec : Z) :
  nonNegative x -> 2 ^ 52 <= Zpos mc < 2 ^ 53 ->
  nonNegative (SFmul JS.prec JS.emax x (S754_finite false mc ec)).
Proof.
  intros [->|[->|(mx & ex & -> & Hx)]] Hc; cbn [SFmul xorb];
    [left; reflexivity|right; left; reflexivity|].
  apply binary_round_aux_nonNegative; [lia|].
  pose proof (Zdigits2_pos (Zpos mx) ltac:(lia)) as Hd.
  rewrite Pos2Z.inj_mul.
  destruct (mul_digits (Zpos mx) (Zpos mc) ltac:(lia) Hc) as [[-> _]|[-> _]];
    rewrite fexp_eq; lia.
Qed.

End Binary64Positive.

Lemma ofNat_cases (n : nat) :
  0 < n ->
  JS.ofNat n = S754_infinity false
  \/ exists m e, JS.ofNat n = S754_finite false m e.
Proof.
  intros Hn. pose proof (ofZ_positive (Z.of_nat n) ltac:(lia)) as Hz.
  destruct (ofNat_nonNegative n) as [H|[H|(m & e & H & _)]].
  - contradiction.
  - left. exact H.
  - right. exists m, e. exact H.
Qed.

Lemma strictEq_zero (n : nat) : 0 < n -> JS.strictEq (JS.ofNat n) (JS.ofNat 0) = false.
Proof.
  intros Hn. destruct (ofNat_cases n Hn) as [->|(m & e & ->)]; reflexivity.
Qed.

Lemma calculateProductivityScore_data (tasks prs blockers : JS.number) (standups : nat) :
  0 < standups ->
  calculateProductivityScore tasks prs blockers (JS.ofNat standups) <> NoData.
Proof.
  intros Hn. unfold calculateProductivityScore. rewrite (strictEq_zero standups Hn).
  destruct (JS.gt _ _); [discriminate|]. destruct (JS.gt _ _); discriminate.
Qed.

Lemma totalOf_zero (count : Standup.t -> nat) (updates : list Standup.t) :
  Forall (fun update => count update = 0) updates -> totalOf count updates = 0.
Proof.
  unfold totalOf. induction 1 as [|u l Hu Hl IH]; [reflexivity|].
  cbn [fold_left]. rewrite Hu. exact IH.
Qed.

(** The share of the blockers in the score is a penalty: twice a ratio of
    two counters is never negative, when it is a number at all. *)
Lemma penalty_cases (blockers standups : nat) :
  0 < standups ->
  let penalty :=
    JS.mul (JS.div (JS.ofNat blockers) (JS.ofNat standups)) (JS.ofNat 2) in
  penalty = S754_nan \/ nonNegative penalty.
Proof.
  intros Hn penalty. unfold penalty.
  change (JS.ofNat 2) with (S754_finite false 4503599627370496 (-51)).
  destruct (ofNat_cases standups Hn) as [->|(m & e & ->)].
  - destruct (ofNat_nonNegative blockers) as [->|[->|(mb & eb & -> & _)]].
    + right. left. reflexivity.
    + left. reflexivity.
    + right. left. reflexivity.
  - right. apply SFmul_nonNegative; [|lia].
    apply SFdiv_nonNegative. apply ofNat_nonNegative.
Qed.

(** X5.  [calculateIndividualProductivity] answers [No data] exactly for an
    empty history; a history that is not empty and shows neither a task nor
    a pull request is rated [Low], whatever its blockers are. *)
Theorem individual_productivity_edges (teamMember : string) (history : list Standup.t) :
  (IndividualProductivity.productivity (calculateIndividualProductivity teamMember history)
   = NoData <-> history = [])
  /\ (history <> [] ->
      Forall (fun entry => taskCount entry = 0 /\ prCount entry = 0) history ->
      IndividualProductivity.productivity (calculateIndividualProductivity teamMember history)
      = Low).
Proof.
  unfold calculateIndividualProductivity. split.
  - destruct history as [|u r]; [split; reflexivity|].
    cbn [List.length Nat.eqb IndividualProductivity.productivity].
    split; [|discriminate]. intros H. exfalso.
    revert H. apply calculateProductivityScore_data. lia.
  - intros Hne Hall. destruct history as [|u r]; [congruence|].
    cbn [Nat.eqb IndividualProductivity.productivity].
    set (history := u :: r) in *.
    assert (Hn : 0 < List.length history) by (unfold history; cbn [List.length]; lia).
    rewrite (totalOf_zero taskCount), (totalOf_zero prCount);
      try (eapply Forall_impl; [|exact Hall]; cbn beta; tauto).
    unfold calculateProductivityScore. rewrite (strictEq_zero _ Hn).
    set (blocked := List.length (filter _ history)).
    pose proof (penalty_cases blocked (List.length history) Hn) as Hp. cbn zeta in Hp.
    set (penalty := JS.mul (JS.div (JS.ofNat blocked) _) _) in *.
    assert (Hzero : JS.mul (JS.div (JS.ofNat 0) (JS.ofNat (List.length history))) (JS.ofNat 2)
                    = S754_zero false
                    /\ JS.mul (JS.div (JS.ofNat 0) (JS.ofNat (List.length history)))
                              (JS.literal 15 1) = S754_zero false).
    { destruct (ofNat_cases _ Hn) as [->|(m & e & ->)]; split; reflexivity. }
    destruct Hzero as [-> ->].
    destruct Hp as [->|[->|[->|(m & e & -> & _)]]]; reflexivity.
Qed.

Lemma individual_productivity_edges_witness :
  threeUpdatesWithoutWork <> []
  /\ IndividualProductivity.productivity
       (calculateIndividualProductivity "dana" threeUpdatesWithoutWork) = Low.
Proof.
  assert (Hne : threeUpdatesWithoutWork <> []) by discriminate.
  split; [exact Hne|].
  apply (proj2 (individual_productivity_edges "dana" threeUpdatesWithoutWork) Hne).
  repeat constructor.
Defined.

(** *** Trends and the order of the updates *)

Section SortByValue.

Variable A : Type.
Variable key : A -> Z.
Variable cmp : A -> A -> option Z.
Variable P : A -> Prop.
Hypothesis cmp_key :
  forall x y, P x -> P y -> JS.comesAfter cmp x y = (key y <? key x)%Z.

Lemma insertSorted_ascending (x : A) (l : list A) :
  P x -> Forall P l ->
  StronglySorted (fun a b => (key a <= key b)%Z) l ->
  StronglySorted (fun a b => (key a <= key b)%Z) (JS.insertSorted cmp x l).
Proof.
  intros Hx Hl Hs. induction Hs as [|y l Hs IH Hy]; simpl.
  - constructor; constructor.
  - inversion Hl as [|? ? Py Pl]; subst.
    rewrite (cmp_key x y Hx Py).
    destruct (Z.ltb_spec (key y) (key x)) as [Hlt|Hge].
    + constructor; [apply IH; exact Pl|].
      rewrite Forall_forall. intros z Hz.
      apply (Permutation_in _ (insertSorted_perm A cmp x l)) in Hz.
      destruct Hz as [<-|Hz]; [lia|].
      rewrite Forall_forall in Hy. apply Hy. exact Hz.
    + constructor; [constructor; assumption|].
      constructor; [exact Hge|].
      eapply Forall_impl; [|exact Hy]. simpl. intros z Hz. lia.
Qed.

Lemma sort_ascending (l : list A) :
  Forall P l -> StronglySorted (fun a b => (key a <= key b)%Z) (JS.sort cmp l).
Proof.
  unfold JS.sort. induction 1 as [|x l Hx Hl IH]; simpl; [constructor|].
  apply insertSorted_ascending; [exact Hx| |exact IH].
  rewrite Forall_forall in *. intros y Hy. apply Hl.
  eapply Permutation_in; [apply (sort_perm A cmp)|exact Hy].
Qed.

Lemma ascending_strict (l : list A) :
  NoDup (map key l) ->
  StronglySorted (fun a b => (key a <= key b)%Z) l ->
  StronglySorted (fun a b => (key a < key b)%Z) l.
Proof.
  intros Hnd Hs. induction Hs as [|x l Hs IH Hx]; [constructor|].
  cbn [map] in Hnd. inversion Hnd as [|? ? Hnotin Hnd']; subst.
  constructor; [apply IH; exact Hnd'|].
  rewrite Forall_forall in *. intros y Hy.
  specialize (Hx y Hy).
  assert (key x <> key y).
  { intros E. apply Hnotin. rewrite E. apply in_map. exact Hy. }
  lia.
Qed.

Lemma strictly_ascending_unique (l1 l2 : list A) :
  StronglySorted (fun a b => (key a < key b)%Z) l1 ->
  StronglySorted (fun a b => (key a < key b)%Z) l2 ->
  Permutation l1 l2 -> l1 = l2.
Proof.
  intros H1. revert l2. induction H1 as [|x l1 Hs1 IH Hx]; intros l2 H2 Hp.
  - apply Permutation_nil in Hp. symmetry. exact Hp.
  - destruct H2 as [|y l2 Hs2 Hy].
    { apply Permutation_sym, Permutation_nil in Hp. discriminate. }
    rewrite Forall_forall in Hx, Hy.
    assert (Hxy : x = y).
    { assert (Hin1 : In x (y :: l2)) by (eapply Permutation_in; [exact Hp|left; reflexivity]).
      assert (Hin2 : In y (x :: l1))
        by (eapply Permutation_in; [apply Permutation_sym; exact Hp|left; reflexivity]).
      destruct Hin1 as [E|Hin1]; [symmetry; exact E|].
      destruct Hin2 as [E|Hin2]; [exact E|].
      specialize (Hx y Hin2). specialize (Hy x Hin1). lia. }
    subst y. f_equal. apply IH; [exact Hs2|].
    eapply Permutation_cons_inv. exact Hp.
Qed.

Lemma sort_of_permutation (l1 l2 : list A) :
  Forall P l1 -> NoDup (map key l1) -> Permutation l1 l2 ->
  JS.sort cmp l1 = JS.sort cmp l2.
Proof.
  intros HP Hnd Hp.
  assert (HP2 : Forall P l2).
  { rewrite Forall_forall in *. intros x Hx. apply HP.
    eapply Permutation_in; [apply Permutation_sym; exact Hp|exact Hx]. }
  apply strictly_ascending_unique.
  - apply ascending_strict; [|apply sort_ascending; exact HP].
    eapply Permutation_NoDup; [|exact Hnd].
    apply Permutation_map, Permutation_sym, sort_perm.
  - apply ascending_strict; [|apply sort_ascending; exact HP2].
    eapply Permutation_NoDup; [|exact Hnd].
    apply Permutation_map. apply Permutation_trans with l2; [exact Hp|].
    apply Permutation_sym, sort_perm.
  - apply Permutation_trans with l1; [apply sort_perm|].
    apply Permutation_trans with l2; [exact Hp|apply Permutation_sym, sort_perm].
Qed.

End SortByValue.

Lemma byTimestamp_timeOf (dateValue : string -> option Z) (a b : Standup.t) :
  validDate dateValue a -> validDate dateValue b ->
  JS.comesAfter (byTimestamp dateValue) a b = (timeOf dateValue b <? timeOf dateValue a)%Z.
Proof.
  unfold validDate, JS.comesAfter, byTimestamp, timeOf. intros Ha Hb.
  destruct (dateValue (Standup.timestamp a)) as [x|]; [|congruence].
  destruct (dateValue (Standup.timestamp b)) as [y|]; [|congruence].
  destruct (Z.ltb_spec 0 (x - y)), (Z.ltb_spec y x); try reflexivity; lia.
Qed.

Lemma NoDup_timeOf (dateValue : string -> option Z) (updates : list Standup.t) :
  Forall (validDate dateValue) updates ->
  NoDup (map (fun update => dateValue (Standup.timestamp update)) updates) ->
  NoDup (map (timeOf dateValue) updates).
Proof.
  intros Hv Hnd. induction Hv as [|u l Hu Hl IH]; [constructor|].
  cbn [map] in *. inversion Hnd as [|? ? Hnotin Hnd']; subst.
  constructor; [|apply IH; exact Hnd'].
  intros Hin. apply Hnotin. apply in_map_iff in Hin. destruct Hin as (v & Ev & Hv).
  apply in_map_iff. exists v. split; [|exact Hv].
  rewrite Forall_forall in Hl. specialize (Hl v Hv).
  unfold timeOf, validDate in *.
  destruct (dateValue (Standup.timestamp u)); [|congruence].
  destruct (dateValue (Standup.timestamp v)); [|congruence].
  congruence.
Qed.

(** X6.  When the timestamps of the updates are valid dates, no two of them
    the same instant, [analyzeMemberTrends] gives the same answer for the
    updates in any order: it sorts a copy by date before it compares the
    earliest three with the most recent three. *)
Theorem trend_analysis_ignores_input_order (dateValue : string -> option Z)
  (updates reordered : list Standup.t) :
  Permutation updates reordered ->
  Forall (validDate dateValue) updates ->
  NoDup (map (fun update => dateValue (Standup.timestamp update)) updates) ->
  analyzeMemberTrends dateValue updates = analyzeMemberTrends dateValue reordered.
Proof.
  intros Hp Hv Hnd. unfold analyzeMemberTrends.
  rewrite (Permutation_length Hp).
  rewrite (sort_of_permutation Standup.t (timeOf dateValue) (byTimestamp dateValue)
             (validDate dateValue) (byTimestamp_timeOf dateValue) updates reordered Hv
             (NoDup_timeOf dateValue updates Hv Hnd) Hp).
  reflexivity.
Qed.

Lemma trend_analysis_ignores_input_order_witness :
  Permutation sixUpdates newestFirstUpdates
  /\ analyzeMemberTrends isoDateValue sixUpdates
     = analyzeMemberTrends isoDateValue newestFirstUpdates.
Proof.
  assert (Hp : Permutation sixUpdates newestFirstUpdates) by apply Permutation_rev.
  split; [exact Hp|].
  apply (trend_analysis_ignores_input_order isoDateValue sixUpdates newestFirstUpdates Hp).
  - repeat constructor; discriminate.
  - vm_compute. repeat constructor; simpl; intuition discriminate.
Defined.

(** *** Questions read from a text *)

Lemma append_empty (s : string) : String.append s "" = s.
Proof. induction s as [|c s IH]; [reflexivity|]. cbn [String.append]. rewrite IH. reflexivity. Qed.

Lemma append_assoc (a b c : string) :
  String.append (String.append a b) c = String.append a (String.append b c).
Proof. induction a as [|x a IH]; [reflexivity|]. cbn [String.append]. rewrite IH. reflexivity. Qed.

Lemma reverse_append (s acc : string) :
  JS.reverse acc s = String.append (JS.reverse "" s) acc.
Proof.
  revert acc. induction s as [|c s IH]; intros acc; [reflexivity|].
  cbn [JS.reverse]. rewrite (IH (String c acc)), (IH (String c "")).
  rewrite append_assoc. reflexivity.
Qed.

Lemma reverse_of_append (a b : string) :
  JS.reverse "" (String.append a b) = String.append (JS.reverse "" b) (JS.reverse "" a).
Proof.
  induction a as [|c a IH]; [cbn [String.append JS.reverse]; rewrite append_empty; reflexivity|].
  cbn [String.append JS.reverse].
  rewrite (reverse_append (String.append a b)), (reverse_append a), IH.
  apply append_assoc.
Qed.

Lemma reverse_involutive (s : string) : JS.reverse "" (JS.reverse "" s) = s.
Proof.
  induction s as [|c s IH]; [reflexivity|].
  cbn [JS.reverse]. rewrite (reverse_append s (String c "")), reverse_of_append, IH.
  reflexivity.
Qed.

Lemma reverse_lastUnit (s : string) (c : ascii) :
  lastUnit s = Some c -> exists t, JS.reverse "" s = String c t.
Proof.
  induction s as [|x s IH]; [discriminate|].
  cbn [lastUnit JS.reverse]. rewrite reverse_append.
  destruct (lastUnit s) as [d|] eqn:E.
  - intros H. injection H as <-. destruct (IH eq_refl) as (t & ->).
    eexists. reflexivity.
  - intros H. injection H as <-. destruct s; [|cbn in E; destruct (lastUnit s); discriminate].
    eexists. reflexivity.
Qed.

Lemma lastUnit_none (s : string) : lastUnit s = None -> s = "".
Proof. destruct s; [reflexivity|]. cbn. destruct (lastUnit s); discriminate. Qed.

Lemma endsWith_lastUnit (s : string) (c : ascii) :
  JS.endsWith s (String c "") = true <-> lastUnit s = Some c.
Proof.
  unfold JS.endsWith. cbn [JS.reverse].
  destruct (lastUnit s) as [d|] eqn:E.
  - destruct (reverse_lastUnit s d E) as (t & ->). simpl.
    destruct (ascii_dec c d) as [->|Hne]; [split; [reflexivity|destruct t; reflexivity]|].
    split; [discriminate|]. intros H. congruence.
  - rewrite (lastUnit_none s E). cbn. split; discriminate.
Qed.

Lemma lastUnit_suffix (y s : string) :
  isSuffix y s -> y <> "" -> lastUnit s = lastUnit y.
Proof.
  intros (p & ->) Hy. induction p as [|c p IH]; [reflexivity|].
  cbn [String.append lastUnit]. rewrite IH.
  destruct (lastUnit y) eqn:E; [reflexivity|].
  apply lastUnit_none in E. contradiction.
Qed.

Lemma isSuffix_refl (s : string) : isSuffix s s.
Proof. exists "". reflexivity. Qed.

Lemma isSuffix_trans (a b c : string) : isSuffix a b -> isSuffix b c -> isSuffix a c.
Proof.
  intros (p & ->) (q & ->). exists (String.append q p). symmetry. apply append_assoc.
Qed.

Lemma isSuffix_tail (c : ascii) (r : string) : isSuffix r (String c r).
Proof. exists (String c ""). reflexivity. Qed.

Lemma trimStart_suffix (s : string) : isSuffix (JS.trimStart s) s.
Proof.
  induction s as [|c s IH]; [apply isSuffix_refl|].
  cbn [JS.trimStart]. destruct (JS.isWhiteSpace c); [|apply isSuffix_refl].
  eapply isSuffix_trans; [exact IH|apply isSuffix_tail].
Qed.

Lemma dropDigits_suffix (s : string) : isSuffix (dropDigits s) s.
Proof.
  induction s as [|c s IH]; [apply isSuffix_refl|].
  cbn [dropDigits]. destruct (JS.isDigit c); [|apply isSuffix_refl].
  eapply isSuffix_trans; [exact IH|apply isSuffix_tail].
Qed.

Lemma stripNumbering_suffix (s : string) : isSuffix (stripNumbering s) s.
Proof.
  unfold stripNumbering. destruct s as [|c s]; [apply isSuffix_refl|].
  destruct (JS.isDigit c); [|apply isSuffix_refl].
  pose proof (dropDigits_suffix (String c s)) as H.
  destruct (dropDigits (String c s)) as [|d r]; [apply isSuffix_refl|].
  destruct (Ascii.eqb d "."); [|apply isSuffix_refl].
  eapply isSuffix_trans; [apply trimStart_suffix|].
  eapply isSuffix_trans; [apply isSuffix_tail|exact H].
Qed.

Lemma stripBullet_suffix (s : string) : isSuffix (stripBullet s) s.
Proof.
  unfold stripBullet. destruct s as [|c s]; [apply isSuffix_refl|].
  destruct (Ascii.eqb c "-" || Ascii.eqb c "*"); [|apply isSuffix_refl].
  eapply isSuffix_trans; [apply trimStart_suffix|apply isSuffix_tail].
Qed.

Lemma trimStart_idempotent (s : string) : JS.trimStart (JS.trimStart s) = JS.trimStart s.
Proof.
  induction s as [|c s IH]; [reflexivity|].
  cbn [JS.trimStart]. destruct (JS.isWhiteSpace c) eqn:E; [exact IH|].
  cbn [JS.trimStart]. rewrite E. reflexivity.
Qed.

Lemma trimEnd_fixed (s : string) (c : ascii) :
  lastUnit s = Some c -> JS.isWhiteSpace c = false -> JS.trimEnd s = s.
Proof.
  intros Hl Hc. unfold JS.trimEnd.
  destruct (reverse_lastUnit s c Hl) as (t & E). rewrite E.
  cbn [JS.trimStart]. rewrite Hc, <- E. apply reverse_involutive.
Qed.

(** What [trim] leaves of the remainder of a line that ends with a
    question mark. *)
Lemma cleaned_question (trimmed rest : string) :
  JS.endsWith trimmed "?" = true -> isSuffix rest trimmed ->
  5 < String.length (JS.trim rest) ->
  JS.trim rest = JS.trimStart rest
  /\ JS.endsWith (JS.trim rest) "?" = true
  /\ isSuffix (JS.trim rest) trimmed.
Proof.
  intros Hq Hs Hlen.
  assert (Hy : JS.trimStart rest <> "").
  { intros E. unfold JS.trim in Hlen. rewrite E in Hlen. cbn in Hlen. lia. }
  assert (Hs' : isSuffix (JS.trimStart rest) trimmed)
    by (eapply isSuffix_trans; [apply trimStart_suffix|exact Hs]).
  apply endsWith_lastUnit in Hq.
  rewrite (lastUnit_suffix _ _ Hs' Hy) in Hq.
  assert (E : JS.trim rest = JS.trimStart rest).
  { unfold JS.trim. apply (trimEnd_fixed _ "?" Hq). reflexivity. }
  rewrite E. split; [reflexivity|]. split; [|exact Hs'].
  apply endsWith_lastUnit. exact Hq.
Qed.

(** X7.  Every question that [extractQuestionsFromText] returns ends with a
    question mark, is longer than five code units, has no white space at
    either end and is the end of a trimmed line of the text; there are no
    more questions than lines. *)
Theorem extracted_questions_shape (text : string) :
  Forall
    (fun question =>
       JS.endsWith question "?" = true
       /\ 5 < String.length question
       /\ JS.trim question = question
       /\ exists line, In line (JS.split text JS.LF) /\ isSuffix question (JS.trim line))
    (extractQuestionsFromText text)
  /\ List.length (extractQuestionsFromText text) <= List.length (JS.split text JS.LF).
Proof.
  unfold extractQuestionsFromText. split.
  - apply Forall_flat_map. apply Forall_forall. intros line Hline.
    destruct (JS.endsWith (JS.trim line) "?") eqn:Hq; [|constructor].
    destruct (10 <? String.length (JS.trim line)); cbn [andb]; [|constructor].
    set (rest := stripBullet (stripNumbering (JS.trim line))).
    destruct (Nat.ltb_spec 5 (String.length (JS.trim rest))) as [Hlen|_]; [|constructor].
    assert (Hs : isSuffix rest (JS.trim line)).
    { eapply isSuffix_trans; [apply stripBullet_suffix|apply stripNumbering_suffix]. }
    destruct (cleaned_question (JS.trim line) rest Hq Hs Hlen) as (E & Hend & Hsuf).
    constructor; [|constructor].
    split; [exact Hend|]. split; [exact Hlen|]. split.
    + rewrite E at 2. rewrite E. unfold JS.trim. rewrite trimStart_idempotent.
      fold (JS.trim rest). exact E.
    + exists line. split; [exact Hline|exact Hsuf].
  - induction (JS.split text JS.LF) as [|line lines IH]; [apply Nat.le_refl|].
    cbn [flat_map]. rewrite length_app. cbn [List.length].
    destruct (JS.endsWith _ _ && _); [|cbn [List.length]; lia].
    destruct (5 <? _); cbn [List.length]; lia.
Qed.

(** *** [analyzeStandupPatterns] *)

(** X8.  [analyzeStandupPatterns] never throws.  When the call of the model
    throws the answer is the canned analysis [Unable to analyze patterns];
    when the model's text is not JSON it is the canned analysis
    [Analysis completed]; when the text is JSON the parsed value is returned
    as it is; and without a text in the answer it is one of the two canned
    analyses. *)
Theorem pattern_analysis_never_throws
  (stringifyRecord : StandupRecord.t -> string)
  (stringifyRecords : list StandupRecord.t -> string)
  (invokeModel : string -> JS.Completion AnswerBody)
  (JSONparse : string -> JS.Completion JSON)
  (teamMemberName : string) (currentStandup : StandupRecord.t)
  (historicalData : list StandupRecord.t) :
  let answer :=
    invokeModel (patternsPromptFor stringifyRecord stringifyRecords teamMemberName
                   currentStandup historicalData) in
  exists analysis,
    analyzeStandupPatterns stringifyRecord stringifyRecords invokeModel JSONparse
      teamMemberName currentStandup historicalData = JS.Normal analysis
    /\ ((forall text, answer <> JS.Normal (AnswerText text)) ->
        analysis = unavailableAnalysis \/ analysis = completedAnalysis)
    /\ (forall error, answer = JS.Throw error -> analysis = unavailableAnalysis)
    /\ (forall text error,
          answer = JS.Normal (AnswerText text) -> JSONparse text = JS.Throw error ->
          analysis = completedAnalysis)
    /\ (forall text value,
          answer = JS.Normal (AnswerText text) -> JSONparse text = JS.Normal value ->
          analysis = value).
Proof.
  intros answer. unfold analyzeStandupPatterns. fold answer.
  destruct answer as [[| |text]|error]; cbn [JS.bind JS.tryCatch].
  - exists unavailableAnalysis. repeat split; try discriminate. intros _. left. reflexivity.
  - exists completedAnalysis. repeat split; try discriminate. intros _. right. reflexivity.
  - destruct (JSONparse text) as [value|error] eqn:E; cbn [JS.tryCatch].
    + exists value. repeat split; try discriminate.
      * intros H. exfalso. apply (H text). reflexivity.
      * intros t e Ht He. injection Ht as <-. congruence.
      * intros t v Ht Hv. injection Ht as <-. congruence.
    + exists completedAnalysis. repeat split; try discriminate.
      * intros _. right. reflexivity.
      * intros t v Ht Hv. injection Ht as <-. congruence.
  - exists unavailableAnalysis. repeat split; try discriminate. intros _. left. reflexivity.
Qed.

(** *** The CSV form *)




(** *** Quoting of CSV fields *)

Lemma append_length (a b : string) :
  String.length (String.append a b) = String.length a + String.length b.
Proof. induction a as [|c a IH]; [reflexivity|]. cbn [String.append String.length]. lia. Qed.

Lemma append_cancel_r (a b s : string) :
  String.append a s = String.append b s -> a = b.
Proof.
  revert b. induction a as [|c a IH]; intros [|d b] H; [reflexivity| | |].
  - exfalso. apply (f_equal String.length) in H.
    cbn [String.append String.length] in H. rewrite append_length in H. lia.
  - exfalso. apply (f_equal String.length) in H.
    cbn [String.append String.length] in H. rewrite append_length in H. lia.
  - cbn [String.append] in H. injection H as -> H. f_equal. apply IH. exact H.
Qed.

Lemma doubleQuotes_injective (a b : string) : doubleQuotes a = doubleQuotes b -> a = b.
Proof.
  revert b. induction a as [|c a IH]; intros [|d b]; cbn [doubleQuotes].
  - reflexivity.
  - destruct (JS.code d =? 34); discriminate.
  - destruct (JS.code c =? 34); discriminate.
  - destruct (JS.code c =? 34) eqn:Ec, (JS.code d =? 34) eqn:Ed; intros H.
    + inversion H; subst. f_equal. apply IH. assumption.
    + inversion H; subst. destruct b as [|x b]; cbn [doubleQuotes] in *; [discriminate|].
      destruct (JS.code x =? 34) eqn:Ex;
        match goal with E : String _ _ = String _ _ |- _ => inversion E; subst end; congruence.
    + inversion H; subst. destruct a as [|x a]; cbn [doubleQuotes] in *; [discriminate|].
      destruct (JS.code x =? 34) eqn:Ex;
        match goal with E : String _ _ = String _ _ |- _ => inversion E; subst end; congruence.
    + inversion H; subst. f_equal. apply IH. assumption.
Qed.

Lemma includes_head (c : ascii) (r : string) :
  JS.includes (String c r) (String c "") = true.
Proof.
  cbn [JS.includes]. apply orb_true_intro. left. simpl.
  destruct (ascii_dec c c); [destruct r; reflexivity|congruence].
Qed.

(** X10.  The quoting of text fields in a CSV row loses nothing: two texts
    with the same written field are the same text. *)
Theorem quoted_fields_are_distinct (a b : string) :
  csvField (FText a) = csvField (FText b) -> a = b.
Proof.
  cbn [csvField].
  assert (Hq : forall x y,
             needsQuotes y = false ->
             String.append JS.quote (String.append (doubleQuotes x) JS.quote) = y -> False).
  { intros x y Hy E. unfold needsQuotes in Hy.
    apply orb_false_elim in Hy. destruct Hy as [Hy _].
    apply orb_false_elim in Hy. destruct Hy as [_ Hy].
    rewrite <- E in Hy. unfold JS.quote in Hy.
    cbn [String.append] in Hy. rewrite includes_head in Hy. discriminate. }
  destruct (needsQuotes a) eqn:Ea, (needsQuotes b) eqn:Eb; intros H.
  - unfold JS.quote in H. cbn [String.append] in H. injection H as H.
    apply append_cancel_r in H. apply doubleQuotes_injective. exact H.
  - exfalso. exact (Hq a b Eb H).
  - exfalso. symmetry in H. exact (Hq b a Ea H).
  - exact H.
Qed.

Lemma quoted_fields_are_distinct_witness :
  String.eqb (csvField (FText "a,b")) (csvField (FText "a;b")) = false.
Proof.
  destruct (String.eqb_spec (csvField (FText "a,b")) (csvField (FText "a;b"))) as [E|_];
    [|reflexivity].
  apply quoted_fields_are_distinct in E. discriminate E.
Defined.

(** *** The day file *)

(** X11.  [saveAsJSON] asks for two uploads, the day file and then the file
    of the record.  The day file holds the records read from the existing
    day file followed by the new one.  When the day file is missing, when
    reading it fails for any other reason, or when its text is not JSON,
    the day file is written with the new record alone.  When the existing
    day file holds a single record instead of an array, [saveAsJSON] throws
    and asks for no upload. *)
Theorem day_file_rewritten_after_failed_read
  (getObjectFromS3 : string -> JS.Completion (option Body))
  (standupRecord : StandupRecord.t) (today : string) :
  (forall records,
      getObjectFromS3 (dayFileName standupRecord today) = JS.Normal (Some (Json (Array records))) ->
      saveAsJSON getObjectFromS3 standupRecord today
      = JS.Normal
          [ putObjectToS3 (dayFileName standupRecord today)
              (Json (Array (records ++ [standupRecord])));
            putObjectToS3 (individualFileName standupRecord) (Json (Single standupRecord)) ])
  /\ ((getObjectFromS3 (dayFileName standupRecord today) = JS.Normal None
       \/ (exists error, getObjectFromS3 (dayFileName standupRecord today) = JS.Throw error)
       \/ (exists text,
              getObjectFromS3 (dayFileName standupRecord today) = JS.Normal (Some (Plain text)))) ->
      saveAsJSON getObjectFromS3 standupRecord today
      = JS.Normal
          [ putObjectToS3 (dayFileName standupRecord today) (Json (Array [standupRecord]));
            putObjectToS3 (individualFileName standupRecord) (Json (Single standupRecord)) ])
  /\ (forall record,
         getObjectFromS3 (dayFileName standupRecord today) = JS.Normal (Some (Json (Single record))) ->
         saveAsJSON getObjectFromS3 standupRecord today = JS.Throw "TypeError").
Proof.
  unfold saveAsJSON. repeat split.
  - intros records ->. reflexivity.
  - intros [->|[(error & ->)|(text & ->)]]; cbn [JS.bind JS.tryCatch truthyBody parseBody];
      try reflexivity.
    destruct (JS.truthy text); reflexivity.
  - intros record ->. reflexivity.
Qed.

(** *** Previous updates *)

Lemma sliceToLimit_incl {A : Type} (l : list A) (limit : Z) (x : A) :
  In x (sliceToLimit l limit) -> In x l.
Proof. unfold sliceToLimit. destruct (0 <=? limit)%Z; apply in_firstn. Qed.

Lemma sliceToLimit_length {A : Type} (l : list A) (limit : Z) :
  (0 <= limit)%Z -> (Z.of_nat (List.length (sliceToLimit l limit)) <= limit)%Z.
Proof.
  intros H. unfold sliceToLimit. destruct (Z.leb_spec 0 limit); [|lia].
  rewrite length_firstn. lia.
Qed.

Lemma firstn_capped {A : Type} (l : list A) (n : nat) :
  firstn (Nat.min (List.length l) n) l = firstn n l.
Proof.
  destruct (Nat.le_ge_cases n (List.length l)) as [H|H].
  - rewrite Nat.min_r by exact H. reflexivity.
  - rewrite Nat.min_l by exact H. rewrite !firstn_all2; [reflexivity|exact H|apply Nat.le_refl].
Qed.

Lemma getPreviousUpdates_read
  (listObjectsFromS3 : string -> list S3Object.t)
  (getObjectFromS3 : string -> JS.Completion (option Body))
  (dateValue : string -> option Z) (teamMemberName : string) (limit : Z) :
  getPreviousUpdates listObjectsFromS3 getObjectFromS3 dateValue teamMemberName limit
  = sliceToLimit
      (JS.sort (byTimestampDescending dateValue)
         (flat_map (fun obj => recordsAt getObjectFromS3 (S3Object.Key obj))
            (firstn (Z.to_nat limit)
               (JS.sort byLastModifiedDescending
                  (listObjectsFromS3 (jsonFolder teamMemberName))))))
      limit.
Proof.
  unfold getPreviousUpdates. fold (jsonFolder teamMemberName).
  set (objects := listObjectsFromS3 (jsonFolder teamMemberName)).
  destruct objects as [|obj objects'] eqn:Hobjects.
  { cbn [List.length Nat.eqb JS.sort fold_right]. rewrite firstn_nil. cbn [flat_map fold_right].
    unfold sliceToLimit. destruct (0 <=? limit)%Z; rewrite firstn_nil; reflexivity. }
  rewrite <- Hobjects. replace (List.length objects =? 0) with false
    by (rewrite Hobjects; reflexivity).
  set (sorted := JS.sort byLastModifiedDescending objects).
  cbn zeta. f_equal. f_equal. f_equal.
  destruct (Z.le_gt_cases 0 limit) as [Hl|Hl].
  - replace (Z.to_nat (Z.min (Z.of_nat (List.length sorted)) limit))
      with (Nat.min (List.length sorted) (Z.to_nat limit)) by lia.
    apply firstn_capped.
  - replace (Z.to_nat (Z.min (Z.of_nat (List.length sorted)) limit)) with 0 by lia.
    replace (Z.to_nat limit) with 0 by lia. reflexivity.
Qed.

Lemma getPreviousUpdates_length
  (listObjectsFromS3 : string -> list S3Object.t)
  (getObjectFromS3 : string -> JS.Completion (option Body))
  (dateValue : string -> option Z) (teamMemberName : string) (limit : Z) :
  let updates :=
    getPreviousUpdates listObjectsFromS3 getObjectFromS3 dateValue teamMemberName limit in
  ((limit <= 0)%Z -> updates = [])
  /\ ((0 <= limit)%Z -> (Z.of_nat (List.length updates) <= limit)%Z).
Proof.
  cbv zeta. rewrite getPreviousUpdates_read. split.
  - intros Hl. replace (Z.to_nat limit) with 0 by lia. cbn [firstn flat_map].
    unfold sliceToLimit. destruct (0 <=? limit)%Z; apply firstn_nil.
  - apply sliceToLimit_length.
Qed.

(** X12.  [getPreviousUpdates] returns nothing for a limit of zero or less,
    and at most [limit] records otherwise; each record it returns was read
    from one of the [limit] most recently modified files of the member's
    folder. *)
Theorem previous_updates_bound
  (listObjectsFromS3 : string -> list S3Object.t)
  (getObjectFromS3 : string -> JS.Completion (option Body))
  (dateValue : string -> option Z) (teamMemberName : string) (limit : Z) :
  let updates :=
    getPreviousUpdates listObjectsFromS3 getObjectFromS3 dateValue teamMemberName limit in
  let mostRecentlyModified :=
    firstn (Z.to_nat limit)
      (JS.sort byLastModifiedDescending (listObjectsFromS3 (jsonFolder teamMemberName))) in
  ((limit <= 0)%Z -> updates = [])
  /\ ((0 <= limit)%Z -> (Z.of_nat (List.length updates) <= limit)%Z)
  /\ (forall record,
         In record updates ->
         exists obj, In obj mostRecentlyModified
                     /\ In record (recordsAt getObjectFromS3 (S3Object.Key obj))).
Proof.
  cbv zeta.
  destruct (getPreviousUpdates_length listObjectsFromS3 getObjectFromS3 dateValue
              teamMemberName limit) as [Hnone Hmost].
  split; [exact Hnone|]. split; [exact Hmost|].
  intros record Hr. rewrite getPreviousUpdates_read in Hr.
  apply sliceToLimit_incl in Hr.
  apply (Permutation_in _ (sort_perm _ _ _)) in Hr.
  apply in_flat_map in Hr. exact Hr.
Qed.

Lemma firstn_sorted {A : Type} (R : A -> A -> Prop) (l : list A) (n : nat) :
  StronglySorted R l -> StronglySorted R (firstn n l).
Proof.
  intros H. revert n. induction H as [|x l Hs IH Hx]; intros [|n]; cbn [firstn];
    try constructor; [apply IH|].
  rewrite Forall_forall in *. intros y Hy. apply Hx. apply in_firstn in Hy. exact Hy.
Qed.

Lemma sorted_weaken {A : Type} (R R' : A -> A -> Prop) (l : list A) :
  (forall a b, R a b -> R' a b) -> StronglySorted R l -> StronglySorted R' l.
Proof.
  intros H. induction 1 as [|x l Hs IH Hx]; constructor; [exact IH|].
  eapply Forall_impl; [|exact Hx]. intros y. apply H.
Qed.

Lemma sliceToLimit_sorted {A : Type} (R : A -> A -> Prop) (l : list A) (limit : Z) :
  StronglySorted R l -> StronglySorted R (sliceToLimit l limit).
Proof. intros H. unfold sliceToLimit. destruct (0 <=? limit)%Z; apply firstn_sorted, H. Qed.

Lemma sorted_last {A : Type} (R : A -> A -> Prop) (l : list A) (x : A) :
  (forall a, R a a) -> StronglySorted R l ->
  nth_error l (List.length l - 1) = Some x -> forall y, In y l -> R y x.
Proof.
  intros Hrefl Hs. induction Hs as [|a l Hs IH Ha]; intros Hn y Hy; [contradiction|].
  destruct l as [|b l].
  - cbn in Hn. injection Hn as <-. destruct Hy as [<-|[]]. apply Hrefl.
  - cbn [List.length] in Hn.
    replace (S (S (List.length l)) - 1) with (S (List.length (b :: l) - 1)) in Hn
      by (cbn [List.length]; lia).
    cbn [nth_error] in Hn.
    destruct Hy as [<-|Hy].
    + rewrite Forall_forall in Ha. apply Ha. eapply nth_error_In. exact Hn.
    + apply IH; assumption.
Qed.

Lemma byTimestampDescending_time (dateValue : string -> option Z) (a b : StandupRecord.t) :
  validDate dateValue (StandupRecord.standup a) -> validDate dateValue (StandupRecord.standup b) ->
  JS.comesAfter (byTimestampDescending dateValue) a b
  = (- recordTime dateValue b <? - recordTime dateValue a)%Z.
Proof.
  unfold validDate, JS.comesAfter, byTimestampDescending, recordTime, timeOf. intros Ha Hb.
  destruct (dateValue (Standup.timestamp (StandupRecord.standup a))) as [x|]; [|congruence].
  destruct (dateValue (Standup.timestamp (StandupRecord.standup b))) as [y|]; [|congruence].
  destruct (Z.ltb_spec 0 (y - x)), (Z.ltb_spec (- y) (- x)); try reflexivity; lia.
Qed.

(** X13.  When the stored timestamps are valid dates, [getPreviousUpdates]
    returns the records from the newest to the oldest.  The last element of
    the result, which [generateInsights] and [buildContextForAI] read as the
    last standup, is therefore the oldest record returned. *)
Theorem previous_updates_newest_first
  (listObjectsFromS3 : string -> list S3Object.t)
  (getObjectFromS3 : string -> JS.Completion (option Body))
  (dateValue : string -> option Z) (teamMemberName : string) (limit : Z) :
  (forall key record,
      In record (recordsAt getObjectFromS3 key) ->
      validDate dateValue (StandupRecord.standup record)) ->
  let updates :=
    getPreviousUpdates listObjectsFromS3 getObjectFromS3 dateValue teamMemberName limit in
  StronglySorted (fun a b => (recordTime dateValue b <= recordTime dateValue a)%Z) updates
  /\ (forall lastUpdate,
         nth_error updates (List.length updates - 1) = Some lastUpdate ->
         forall record, In record updates ->
                        (recordTime dateValue lastUpdate <= recordTime dateValue record)%Z).
Proof.
  intros Hvalid updates.
  assert (Hs : StronglySorted
                 (fun a b => (recordTime dateValue b <= recordTime dateValue a)%Z) updates).
  { unfold updates, getPreviousUpdates.
    destruct (List.length _ =? 0); [constructor|].
    apply sliceToLimit_sorted.
    match goal with
    | |- StronglySorted _ (JS.sort _ ?l) =>
        pose proof (sort_ascending StandupRecord.t (fun r => (- recordTime dateValue r)%Z)
                      (byTimestampDescending dateValue)
                      (fun r => validDate dateValue (StandupRecord.standup r))
                      (byTimestampDescending_time dateValue) l) as H
    end.
    eapply sorted_weaken; [|apply H].
    - intros a b Hab. cbn beta in Hab. lia.
    - rewrite Forall_forall. intros r Hr. apply in_flat_map in Hr.
      destruct Hr as (obj & _ & Hr). exact (Hvalid _ _ Hr). }
  split; [exact Hs|].
  intros lastUpdate Hlast record Hr.
  apply (sorted_last (fun a b => (recordTime dateValue b <= recordTime dateValue a)%Z)
           updates lastUpdate); [intros a; lia|exact Hs|exact Hlast|exact Hr].
Qed.

Lemma previous_updates_newest_first_witness :
  map (fun record => Standup.timestamp (StandupRecord.standup record))
      (getPreviousUpdates oneListedFile twoDays isoDateValue "dana" 10)
  = [ "2024-03-05T09:00:00.000Z"; "2024-03-04T09:00:00.000Z" ]
  /\ StronglySorted
       (fun a b => (recordTime isoDateValue b <= recordTime isoDateValue a)%Z)
       (getPreviousUpdates oneListedFile twoDays isoDateValue "dana" 10).
Proof.
  split; [vm_compute; reflexivity|].
  apply (previous_updates_newest_first oneListedFile twoDays isoDateValue "dana" 10).
  intros key record Hin. unfold recordsAt, twoDays in Hin.
  cbn [JS.bind JS.tryCatch truthyBody parseBody] in Hin.
  destruct Hin as [<-|[<-|[]]]; vm_compute; discriminate.
Defined.

(** *** Dates as texts *)

Lemma ascii_compare_refl (c : ascii) : Ascii.compare c c = Eq.
Proof. unfold Ascii.compare. apply N.compare_refl. Qed.

Lemma string_compare_refl (s : string) : String.compare s s = Eq.
Proof.
  induction s as [|c s IH]; [reflexivity|].
  cbn [String.compare]. rewrite ascii_compare_refl. exact IH.
Qed.

Lemma stringLt_irreflexive (s : string) : JS.stringLt s s = false.
Proof. unfold JS.stringLt, String.ltb. rewrite string_compare_refl. reflexivity. Qed.

Lemma stringLt_extension (s rest : string) :
  rest <> "" -> JS.stringLt s (String.append s rest) = true.
Proof.
  intros Hr. unfold JS.stringLt, String.ltb.
  induction s as [|c s IH]; cbn [String.append String.compare].
  - destruct rest; [contradiction|reflexivity].
  - rewrite ascii_compare_refl. exact IH.
Qed.

Lemma visitAll_after_end (endDate : string) (t : Tables.t) (standups : list Standup.t) :
  endDate <> "" -> Forall (stampedOn endDate) standups ->
  visitAll None (Some endDate) t standups = (t, JS.Normal tt).
Proof.
  intros Hd H. induction H as [|standup rest (time & Ht & E) Hrest IH]; [reflexivity|].
  cbn [visitAll]. unfold visit. cbn [beforeStart].
  assert (Hafter : afterEnd (Some endDate) standup = true).
  { unfold afterEnd. rewrite E, (stringLt_extension endDate time Ht).
    destruct endDate; [contradiction|reflexivity]. }
  rewrite Hafter. exact IH.
Qed.

(** X14.  The two filters treat the end date differently.  For an end date
    [endDate] that is not empty, [getStandupHistory] keeps the file named
    after that day, whereas [getTeamMetrics] compares the whole timestamp
    with [endDate] and drops every standup stamped on that day: when all
    stored standups are of that day it counts no standup and no member. *)
Theorem end_date_kept_by_history_dropped_by_metrics (endDate : string) :
  endDate <> "" ->
  (forall obj : S3Object.t,
      withoutExtension (baseName (S3Object.Key obj)) = endDate ->
      inDateRange None (Some endDate) obj = true)
  /\ (forall objects,
         Forall (stampedOn endDate) (standupsOf objects) ->
         Metrics.totalStandups (getTeamMetrics None (Some endDate) objects) = 0
         /\ Metrics.activeMembers (getTeamMetrics None (Some endDate) objects) = 0).
Proof.
  intros Hd. split.
  - intros obj E. unfold inDateRange. rewrite E, stringLt_irreflexive.
    rewrite andb_false_r. reflexivity.
  - intros objects Hall.
    assert (Hagg : forall t, fold_left (readObject None (Some endDate)) objects t = t).
    { induction objects as [|obj objects IH]; intros t; [reflexivity|].
      cbn [fold_left]. unfold standupsOf in Hall. cbn [flat_map] in Hall.
      apply Forall_app in Hall. destruct Hall as [Hobj Hrest].
      destruct obj as [|standups]; cbn [readObject].
      - apply IH. exact Hrest.
      - rewrite (visitAll_after_end endDate t standups Hd Hobj). cbn [fst].
        apply IH. exact Hrest. }
    unfold getTeamMetrics, aggregate. rewrite Hagg.
    destruct objects; split; reflexivity.
Qed.

Lemma end_date_kept_by_history_dropped_by_metrics_witness :
  "2024-03-12" <> ""
  /\ inDateRange None (Some "2024-03-12") marchTwelfth = true
  /\ Metrics.totalStandups (getTeamMetrics None (Some "2024-03-12") [ Records [todaysStandup] ])
     = 0.
Proof.
  assert (Hd : "2024-03-12" <> "") by discriminate.
  destruct (end_date_kept_by_history_dropped_by_metrics "2024-03-12" Hd) as [Hkept Hdropped].
  split; [exact Hd|]. split.
  - apply Hkept. vm_compute. reflexivity.
  - apply Hdropped. constructor; [|constructor].
    exists "T09:00:00.000Z". split; [discriminate|reflexivity].
Defined.

(** *** The bucket *)

Lemma getObject_put_same (bucket : Bucket) (key : string) (data : Body) (now : Z) :
  getObject (putObject bucket key data now) key = JS.Normal (Some data).
Proof.
  unfold getObject. induction bucket as [|file rest IH]; cbn [putObject find].
  - cbn [StoredFile.Key]. rewrite String.eqb_refl. reflexivity.
  - destruct (String.eqb (StoredFile.Key file) key) eqn:E; cbn [find StoredFile.Key].
    + rewrite String.eqb_refl. reflexivity.
    + rewrite E. exact IH.
Qed.

Lemma getObject_put_other (bucket : Bucket) (key other : string) (data : Body) (now : Z) :
  other <> key ->
  getObject (putObject bucket key data now) other = getObject bucket other.
Proof.
  intros Hne. unfold getObject. induction bucket as [|file rest IH]; cbn [putObject find].
  - cbn [StoredFile.Key]. destruct (String.eqb_spec key other); [congruence|reflexivity].
  - destruct (String.eqb_spec (StoredFile.Key file) key) as [E|E]; cbn [find StoredFile.Key].
    + destruct (String.eqb_spec key other); [congruence|].
      destruct (String.eqb_spec (StoredFile.Key file) other); [congruence|reflexivity].
    + destruct (String.eqb (StoredFile.Key file) other); [reflexivity|].
      injection IH as IH. f_equal. exact IH.
Qed.

Lemma putObject_has (bucket : Bucket) (key : string) (data : Body) (now : Z) :
  exists file, In file (putObject bucket key data now) /\ StoredFile.Key file = key.
Proof.
  induction bucket as [|f rest (file & Hin & Hk)]; cbn [putObject].
  - eexists. split; [left; reflexivity|reflexivity].
  - destruct (String.eqb (StoredFile.Key f) key).
    + eexists. split; [left; reflexivity|reflexivity].
    + exists file. split; [right; exact Hin|exact Hk].
Qed.

Lemma putObject_keeps (bucket : Bucket) (key : string) (data : Body) (now : Z)
  (file : StoredFile.t) :
  In file bucket -> StoredFile.Key file <> key -> In file (putObject bucket key data now).
Proof.
  intros Hin Hne. induction bucket as [|f rest IH]; [contradiction|].
  cbn [putObject]. destruct Hin as [->|Hin].
  - destruct (String.eqb_spec (StoredFile.Key file) key); [contradiction|left; reflexivity].
  - destruct (String.eqb (StoredFile.Key f) key); right; [exact Hin|apply IH; exact Hin].
Qed.

Lemma prefix_empty (s : string) : String.prefix "" s = true.
Proof. destruct s; reflexivity. Qed.

Lemma prefix_append (a b c : string) :
  String.prefix (String.append a b) (String.append a c) = String.prefix b c.
Proof.
  induction a as [|x a IH]; [reflexivity|].
  cbn [String.append]. simpl. destruct (ascii_dec x x); [exact IH|congruence].
Qed.

Lemma prefix_here (a c : string) : String.prefix a (String.append a c) = true.
Proof.
  induction a as [|x a IH]; [apply prefix_empty|].
  cbn [String.append]. simpl. destruct (ascii_dec x x); [exact IH|congruence].
Qed.

Lemma append_cancel_l (a b c : string) : String.append a b = String.append a c -> b = c.
Proof.
  induction a as [|x a IH]; [trivial|]. cbn [String.append]. intros H.
  injection H as H. apply IH. exact H.
Qed.

Lemma json_files_in_folder (standupRecord : StandupRecord.t) (today : string) :
  String.prefix
    (String.concat ""
       [ "standups/"; "json"; "/";
         Standup.teamMemberName (StandupRecord.standup standupRecord); "/" ])
    (dayFileName standupRecord today) = true
  /\ String.prefix
       (String.concat ""
          [ "standups/"; "json"; "/";
            Standup.teamMemberName (StandupRecord.standup standupRecord); "/" ])
       (individualFileName standupRecord) = true
  /\ String.prefix "standups/json/" (dayFileName standupRecord today) = true
  /\ String.prefix "standups/json/" (individualFileName standupRecord) = true.
Proof.
  unfold dayFileName, individualFileName. cbn [String.concat].
  set (name := Standup.teamMemberName _).
  change (String.append "standups/" (String.append "" (String.append "json" (String.append ""
            (String.append "/" (String.append "" (String.append name (String.append "" "/"))))))))
    with (String.append "standups/json/" (String.append name "/")).
  repeat split.
  - change (String.append "standups/json/" (String.append ""
              (String.append name (String.append "" (String.append "/" (String.append ""
                 (String.append today (String.append "" ".json"))))))))
      with (String.append "standups/json/" (String.append name
              (String.append "/" (String.append today ".json")))).
    rewrite !prefix_append. apply prefix_here.
  - change (String.append "standups/json/" (String.append ""
              (String.append name (String.append "" (String.append "/" (String.append ""
                 (String.append (Standup.id (StandupRecord.standup standupRecord))
                    (String.append "" ".json"))))))))
      with (String.append "standups/json/" (String.append name
              (String.append "/" (String.append (Standup.id (StandupRecord.standup standupRecord))
                 ".json")))).
    rewrite !prefix_append. apply prefix_here.
  - apply prefix_here.
  - apply prefix_here.
Qed.

Lemma file_names_differ (standupRecord : StandupRecord.t) (today : string) :
  Standup.id (StandupRecord.standup standupRecord) <> today ->
  individualFileName standupRecord <> dayFileName standupRecord today.
Proof.
  intros Hne E. apply Hne. unfold dayFileName, individualFileName in E.
  cbn [String.concat] in E.
  repeat (apply append_cancel_l in E).
  apply (append_cancel_r _ _ ".json"). exact E.
Qed.

Lemma two_elements_in_order {A : Type} (a b : A) (l : list A) :
  In a l -> In b l -> a <> b -> before a b l \/ before b a l.
Proof.
  intros Ha Hb Hne. apply in_split in Ha. destruct Ha as (l1 & l2 & ->).
  apply in_app_or in Hb. destruct Hb as [Hb|[Hb|Hb]].
  - right. apply in_split in Hb. destruct Hb as (m1 & m2 & ->).
    exists m1, m2, l2. rewrite <- app_assoc. reflexivity.
  - congruence.
  - left. apply in_split in Hb. destruct Hb as (m1 & m2 & ->).
    exists l1, m1, m2. reflexivity.
Qed.

Lemma before_flat_map {A B : Type} (f : A -> list B) (a b : A) (x y : B) (l : list A) :
  before a b l -> In x (f a) -> In y (f b) -> before x y (flat_map f l).
Proof.
  intros (l1 & l2 & l3 & ->) Hx Hy.
  apply in_split in Hx. destruct Hx as (x1 & x2 & Ex).
  apply in_split in Hy. destruct Hy as (y1 & y2 & Ey).
  exists (flat_map f l1 ++ x1), (x2 ++ flat_map f l2 ++ y1), (y2 ++ flat_map f l3).
  rewrite flat_map_app. cbn [flat_map]. rewrite flat_map_app. cbn [flat_map].
  rewrite Ex, Ey. rewrite <- ?app_assoc. cbn [app]. rewrite <- ?app_assoc. reflexivity.
Qed.

Lemma savedAsJSON_writes (bucket saved : Bucket) (standupRecord : StandupRecord.t)
  (today : string) (now : Z) :
  savedAsJSON bucket standupRecord today now = JS.Normal saved ->
  exists dayData,
    saved
    = putObject
        (putObject bucket (dayFileName standupRecord today)
           (Json (Array (dayData ++ [standupRecord]))) now)
        (individualFileName standupRecord) (Json (Single standupRecord)) now.
Proof.
  unfold savedAsJSON, saveAsJSON, getObject.
  destruct (find _ bucket) as [file|]; cbn [option_map JS.bind JS.tryCatch].
  - destruct (StoredFile.Content file) as [text|[record|records]];
      cbn [truthyBody parseBody JS.bind JS.tryCatch].
    + destruct (JS.truthy text); cbn [JS.bind JS.tryCatch fold_left upload putObjectToS3
                                      Upload.Key Upload.Data];
        intros H; injection H as <-; exists []; reflexivity.
    + discriminate.
    + cbn [fold_left upload putObjectToS3 Upload.Key Upload.Data].
      intros H; injection H as <-. exists records. reflexivity.
  - cbn [fold_left upload putObjectToS3 Upload.Key Upload.Data].
    intros H; injection H as <-. exists []. reflexivity.
Qed.

Lemma listObjects_has (bucket : Bucket) (prefix : string) (file : StoredFile.t) :
  List.length bucket <= 1000 -> In file bucket ->
  String.prefix prefix (StoredFile.Key file) = true ->
  In (listed file) (listObjects bucket prefix).
Proof.
  intros Hlen Hin Hp. unfold listObjects.
  rewrite firstn_all2.
  - apply (Permutation_in _ (Permutation_sym (sort_perm _ _ _))).
    apply in_map. apply filter_In. split; assumption.
  - rewrite (Permutation_length (sort_perm _ _ _)), length_map.
    etransitivity; [apply filter_length_le|exact Hlen].
Qed.

Lemma recordsAt_single (bucket : Bucket) (key : string) (record : StandupRecord.t) :
  getObject bucket key = JS.Normal (Some (Json (Single record))) ->
  recordsAt (getObject bucket) key = [record].
Proof. intros H. unfold recordsAt. rewrite H. reflexivity. Qed.

Lemma recordsAt_array (bucket : Bucket) (key : string) (records : list StandupRecord.t) :
  getObject bucket key = JS.Normal (Some (Json (Array records))) ->
  recordsAt (getObject bucket) key = records.
Proof. intros H. unfold recordsAt. rewrite H. reflexivity. Qed.

(** X15.  After [saveAsJSON] has stored a record in a bucket (of at most a
    thousand objects, the record's identifier not being the date of the
    day), [getStandupHistory] for the member, without dates and in the JSON
    format, returns the record twice: once from the day file and once from
    the file of the record. *)
Theorem saved_standup_is_read_twice (bucket saved : Bucket)
  (standupRecord : StandupRecord.t) (today : string) (now : Z) :
  savedAsJSON bucket standupRecord today now = JS.Normal saved ->
  Standup.id (StandupRecord.standup standupRecord) <> today ->
  List.length saved <= 1000 ->
  before (Stored standupRecord) (Stored standupRecord)
    (getStandupHistory (listObjects saved) (getObject saved)
       (Standup.teamMemberName (StandupRecord.standup standupRecord)) None None "json").
Proof.
  intros Hsave Hid Hlen.
  destruct (savedAsJSON_writes _ _ _ _ _ Hsave) as (dayData & ->).
  pose proof (file_names_differ standupRecord today Hid) as Hne.
  set (dayFile := dayFileName standupRecord today) in *.
  set (ownFile := individualFileName standupRecord) in *.
  set (withDay := putObject bucket dayFile (Json (Array (dayData ++ [standupRecord]))) now) in *.
  set (saved := putObject withDay ownFile (Json (Single standupRecord)) now) in *.
  destruct (putObject_has withDay ownFile (Json (Single standupRecord)) now)
    as (own & Hown & Kown). fold saved in Hown.
  destruct (putObject_has bucket dayFile (Json (Array (dayData ++ [standupRecord]))) now)
    as (day & Hday & Kday). fold withDay in Hday.
  assert (Hday' : In day saved).
  { apply putObject_keeps; [exact Hday|]. rewrite Kday. congruence. }
  destruct (json_files_in_folder standupRecord today) as (Pday & Pown & _ & _).
  fold dayFile in Pday. fold ownFile in Pown.
  set (folder := String.concat "" _) in *.
  assert (Lday : In (listed day) (listObjects saved folder))
    by (apply listObjects_has; [exact Hlen|exact Hday'|rewrite Kday; exact Pday]).
  assert (Lown : In (listed own) (listObjects saved folder))
    by (apply listObjects_has; [exact Hlen|exact Hown|rewrite Kown; exact Pown]).
  assert (Rown : recordsAt (getObject saved) (S3Object.Key (listed own)) = [standupRecord]).
  { cbn [listed S3Object.Key]. rewrite Kown. apply recordsAt_single.
    apply getObject_put_same. }
  assert (Rday : recordsAt (getObject saved) (S3Object.Key (listed day))
                 = dayData ++ [standupRecord]).
  { cbn [listed S3Object.Key]. rewrite Kday. apply recordsAt_array.
    unfold saved. rewrite getObject_put_other by congruence. apply getObject_put_same. }
  assert (Hdiff : listed day <> listed own).
  { intros E. apply (f_equal S3Object.Key) in E. cbn [listed S3Object.Key] in E.
    rewrite Kday, Kown in E. congruence. }
  unfold getStandupHistory. fold folder.
  destruct (Nat.eqb_spec (List.length (listObjects saved folder)) 0) as [E|_].
  { destruct (listObjects saved folder); [contradiction|discriminate]. }
  cbn [given orb].
  assert (Iown : In (Stored standupRecord) (entriesAt (getObject saved) "json" (listed own))).
  { unfold entriesAt. cbn [String.eqb Ascii.eqb Bool.eqb]. rewrite Rown. left. reflexivity. }
  assert (Iday : In (Stored standupRecord) (entriesAt (getObject saved) "json" (listed day))).
  { unfold entriesAt. cbn [String.eqb Ascii.eqb Bool.eqb]. rewrite Rday.
    apply in_map. apply in_or_app. right. left. reflexivity. }
  destruct (two_elements_in_order _ _ _ Lday Lown Hdiff) as [H|H].
  - exact (before_flat_map _ _ _ _ _ _ H Iday Iown).
  - exact (before_flat_map _ _ _ _ _ _ H Iown Iday).
Qed.

Lemma saved_standup_is_read_twice_witness :
  savedAsJSON [] (storedAs todaysStandup) "2024-03-12" 1710234000000
  = JS.Normal oneSavedStandup
  /\ Standup.id (StandupRecord.standup (storedAs todaysStandup)) <> "2024-03-12"
  /\ List.length oneSavedStandup <= 1000
  /\ before (Stored (storedAs todaysStandup)) (Stored (storedAs todaysStandup))
       (getStandupHistory (listObjects oneSavedStandup) (getObject oneSavedStandup)
          "dana" None None "json").
Proof.
  assert (H1 : savedAsJSON [] (storedAs todaysStandup) "2024-03-12" 1710234000000
               = JS.Normal oneSavedStandup) by reflexivity.
  assert (H2 : Standup.id (StandupRecord.standup (storedAs todaysStandup)) <> "2024-03-12")
    by discriminate.
  assert (H3 : List.length oneSavedStandup <= 1000) by (vm_compute; lia).
  split; [exact H1|]. split; [exact H2|]. split; [exact H3|].
  exact (saved_standup_is_read_twice [] oneSavedStandup (storedAs todaysStandup)
           "2024-03-12" 1710234000000 H1 H2 H3).
Defined.

Lemma readObject_one (t : Tables.t) (standup : Standup.t) :
  Tables.allStandups (readObject None None t (Records [standup]))
  = Tables.allStandups t ++ [standup]
  /\ (JS.inherited (Standup.teamMemberName standup) = false ->
      Tables.memberStats (readObject None None t (Records [standup]))
      = JS.setOwn (Tables.memberStats t) (Standup.teamMemberName standup)
          (record standup
             (match JS.getOwn (Tables.memberStats t) (Standup.teamMemberName standup) with
              | Some stats => stats
              | None => newStats
              end))).
Proof.
  cbn [readObject visitAll]. unfold visit. cbn [beforeStart afterEnd].
  destruct (JS.getOwn (Tables.memberStats t) (Standup.teamMemberName standup)) as [stats|].
  - split; [reflexivity|]. intros _. reflexivity.
  - destruct (JS.inherited (Standup.teamMemberName standup)).
    + split; [|discriminate].
      destruct (reportsBlocker (Standup.blockers standup)); reflexivity.
    + split; [reflexivity|]. intros _. reflexivity.
Qed.

Lemma twice_read_metrics (standup : Standup.t) :
  let metrics := getTeamMetrics None None [ Records [standup]; Records [standup] ] in
  Metrics.totalStandups metrics = 2
  /\ (JS.inherited (Standup.teamMemberName standup) = false ->
      Metrics.activeMembers metrics = 1 /\ standupCountSum metrics = 2).
Proof.
  cbn zeta. unfold getTeamMetrics, aggregate, standupCountSum.
  cbn [fold_left Metrics.totalStandups Metrics.activeMembers Metrics.memberStats].
  set (first := readObject None None emptyTables (Records [standup])).
  destruct (readObject_one emptyTables standup) as [Hall Hstats]. fold first in Hall, Hstats.
  destruct (readObject_one first standup) as [Hall' Hstats'].
  split.
  - rewrite Hall', Hall. reflexivity.
  - intros Hin. rewrite (Hstats' Hin), (Hstats Hin).
    cbn [emptyTables Tables.memberStats JS.getOwn JS.setOwn].
    destruct (String.eqb_spec (Standup.teamMemberName standup)
                               (Standup.teamMemberName standup)) as [_|E]; [|congruence].
    unfold JS.keys, JS.values, JS.entries. cbn [filter fst].
    destruct (JS.isArrayIndex (Standup.teamMemberName standup));
      cbn [negb]; split; reflexivity.
Qed.

Lemma listObjects_two (day own : StoredFile.t) (prefix : string) :
  String.prefix prefix (StoredFile.Key day) = true ->
  String.prefix prefix (StoredFile.Key own) = true ->
  listObjects [day; own] prefix
  = if JS.comesAfter byKey (listed day) (listed own)
    then [listed own; listed day] else [listed day; listed own].
Proof.
  intros Hday Hown. unfold listObjects. cbn [filter]. rewrite Hday, Hown.
  cbn [map JS.sort fold_right JS.insertSorted].
  destruct (JS.comesAfter byKey (listed day) (listed own)); reflexivity.
Qed.

(** X16.  After [saveAsJSON] has stored one record in an empty bucket (the
    identifier of the record not being the date of the day),
    [getTeamMetrics] without dates counts two standups; for a member whose
    name is not an inherited property name it counts one member, with a
    standup count of two. *)
Theorem one_standup_counts_twice (standupRecord : StandupRecord.t) (today : string) (now : Z) :
  Standup.id (StandupRecord.standup standupRecord) <> today ->
  exists saved,
    savedAsJSON [] standupRecord today now = JS.Normal saved
    /\ Metrics.totalStandups
         (getTeamMetricsOfStore (listObjects saved) (getObject saved) None None) = 2
    /\ (JS.inherited (Standup.teamMemberName (StandupRecord.standup standupRecord)) = false ->
        Metrics.activeMembers
          (getTeamMetricsOfStore (listObjects saved) (getObject saved) None None) = 1
        /\ standupCountSum
             (getTeamMetricsOfStore (listObjects saved) (getObject saved) None None) = 2).
Proof.
  intros Hid. pose proof (file_names_differ standupRecord today Hid) as Hne.
  destruct (json_files_in_folder standupRecord today) as (_ & _ & Pday & Pown).
  eexists. split; [reflexivity|].
  cbn [fold_left upload putObjectToS3 Upload.Key Upload.Data putObject StoredFile.Key app].
  set (dayFile := dayFileName standupRecord today) in *.
  set (ownFile := individualFileName standupRecord) in *.
  destruct (String.eqb_spec dayFile ownFile) as [E|_]; [congruence|].
  set (day := {| StoredFile.Key := dayFile |}).
  set (own := {| StoredFile.Key := ownFile |}).
  assert (Hday : storedObjectAt (getObject [day; own]) (listed day)
                 = Records [StandupRecord.standup standupRecord]).
  { unfold storedObjectAt, getObject. cbn [listed S3Object.Key find StoredFile.Key day].
    rewrite String.eqb_refl. reflexivity. }
  assert (Hown : storedObjectAt (getObject [day; own]) (listed own)
                 = Records [StandupRecord.standup standupRecord]).
  { unfold storedObjectAt, getObject. cbn [listed S3Object.Key find StoredFile.Key day own].
    destruct (String.eqb_spec dayFile ownFile) as [E|_]; [congruence|].
    rewrite String.eqb_refl. reflexivity. }
  assert (Hobjects :
            map (storedObjectAt (getObject [day; own])) (listObjects [day; own] "standups/json/")
            = [ Records [StandupRecord.standup standupRecord];
                Records [StandupRecord.standup standupRecord] ]).
  { rewrite (listObjects_two day own "standups/json/" Pday Pown).
    destruct (JS.comesAfter byKey (listed day) (listed own)); cbn [map];
      rewrite Hday, Hown; reflexivity. }
  unfold getTeamMetricsOfStore. rewrite Hobjects.
  apply twice_read_metrics.
Qed.

Lemma one_standup_counts_twice_witness :
  Standup.id (StandupRecord.standup (storedAs todaysStandup)) <> "2024-03-12"
  /\ Metrics.totalStandups
       (getTeamMetricsOfStore (listObjects oneSavedStandup) (getObject oneSavedStandup)
          None None) = 2.
Proof.
  assert (H : Standup.id (StandupRecord.standup (storedAs todaysStandup)) <> "2024-03-12")
    by discriminate.
  split; [exact H|].
  destruct (one_standup_counts_twice (storedAs todaysStandup) "2024-03-12" 1710234000000 H)
    as (saved & Hsaved & Htotal & _).
  assert (E : saved = oneSavedStandup).
  { assert (Hrun : savedAsJSON [] (storedAs todaysStandup) "2024-03-12" 1710234000000
                   = JS.Normal oneSavedStandup) by reflexivity.
    congruence. }
  rewrite <- E. exact Htotal.
Defined.

(** *** Insights on one standup *)

Lemma prefix_of_substring (s : string) (n : nat) :
  String.prefix (String.substring 0 n s) s = true.
Proof.
  revert n. induction s as [|c s IH]; intros [|n]; try reflexivity.
  simpl. destruct (ascii_dec c c); [apply IH|congruence].
Qed.

Lemma includes_own_start (s : string) (n : nat) :
  JS.includes s (JS.substring s 0 n) = true.
Proof.
  unfold JS.substring. destruct s as [|c s].
  - destruct (n - 0); reflexivity.
  - cbn [JS.includes]. rewrite prefix_of_substring. reflexivity.
Qed.

Lemma recurringBlockerInsight_same_text
  (currentStandup lastUpdate : StandupRecord.t) (previousUpdates : list StandupRecord.t) :
  nth_error previousUpdates (List.length previousUpdates - 1) = Some lastUpdate ->
  Standup.blockers (StandupRecord.standup currentStandup) <> "" ->
  JS.toLowerCase (Standup.blockers (StandupRecord.standup lastUpdate))
  = JS.toLowerCase (Standup.blockers (StandupRecord.standup currentStandup)) ->
  recurringBlockerInsight currentStandup previousUpdates = [ recurringBlockerNotice ].
Proof.
  intros Hlast Hne Hsame.
  unfold recurringBlockerInsight. rewrite Hlast.
  set (current := Standup.blockers (StandupRecord.standup currentStandup)) in *.
  set (last := Standup.blockers (StandupRecord.standup lastUpdate)) in *.
  assert (Hc : JS.truthy current = true) by (destruct current; [contradiction|reflexivity]).
  assert (Hl : JS.truthy last = true).
  { destruct last; [|reflexivity]. destruct current; [contradiction|discriminate]. }
  rewrite Hc, Hl, Hsame. cbn [andb]. rewrite includes_own_start. reflexivity.
Qed.

(** X17.  On a record with an array of pull requests, as [processStandup]
    supplies it, whose blocker text is not empty and equals, up to the case
    of letters, the blocker text of the last element of [previousUpdates],
    [generateInsights] returns the insight on a recurring blocker first,
    followed by at most two insights on pull requests.  This holds for the
    text [None] as well. *)
Theorem repeated_blocker_text_is_flagged (hrefOf : PullRequest.t -> option string)
  (currentStandup lastUpdate : StandupRecord.t) (previousUpdates : list StandupRecord.t)
  (prs : list PullRequest.t) :
  nth_error previousUpdates (List.length previousUpdates - 1) = Some lastUpdate ->
  Standup.blockers (StandupRecord.standup currentStandup) <> "" ->
  JS.toLowerCase (Standup.blockers (StandupRecord.standup lastUpdate))
  = JS.toLowerCase (Standup.blockers (StandupRecord.standup currentStandup)) ->
  Standup.bitbucketPRs (StandupRecord.standup currentStandup) = Some prs ->
  exists others,
    generateInsights hrefOf currentStandup previousUpdates
    = JS.Normal (recurringBlockerNotice :: others)
    /\ List.length others <= 2.
Proof.
  intros Hlast Hne Hsame Hprs.
  unfold generateInsights.
  rewrite Hprs, (recurringBlockerInsight_same_text _ _ _ Hlast Hne Hsame).
  eexists. split; [reflexivity|].
  rewrite length_app.
  destruct (3 <? _), (0 <? _); cbn [List.length]; lia.
Qed.

Lemma repeated_blocker_text_is_flagged_witness :
  generateInsights noLinks noneAgain [noneBefore] = JS.Normal [ recurringBlockerNotice ].
Proof.
  destruct (repeated_blocker_text_is_flagged noLinks noneAgain noneBefore [noneBefore]
              [samplePR] eq_refl ltac:(discriminate) eq_refl eq_refl)
    as (others & Hrun & _).
  rewrite Hrun. f_equal. f_equal.
  assert (E : generateInsights noLinks noneAgain [noneBefore]
              = JS.Normal [ recurringBlockerNotice ]) by (vm_compute; reflexivity).
  rewrite E in Hrun. injection Hrun as <-. reflexivity.
Defined.

(** *** [detectIntent] *)

Lemma includes_shorter (s long short : string) :
  (forall t, String.prefix long t = true -> String.prefix short t = true) ->
  JS.includes s long = true -> JS.includes s short = true.
Proof.
  intros Hp. induction s as [|c s IH]; cbn [JS.includes]; intros H.
  - rewrite orb_false_r in *. rewrite Hp; [reflexivity|exact H].
  - apply orb_prop in H. destruct H as [H|H].
    + rewrite (Hp _ H). reflexivity.
    + rewrite (IH H). apply orb_true_r.
Qed.

Lemma prefix_of_longer (p q t : string) :
  String.prefix (String.append p q) t = true -> String.prefix p t = true.
Proof.
  revert t. induction p as [|c p IH]; intros t; [intros _; apply prefix_empty|].
  destruct t as [|d t]; [discriminate|].
  cbn [String.append].
  change (String.prefix (String c (String.append p q)) (String d t))
    with (if ascii_dec c d then String.prefix (String.append p q) t else false).
  change (String.prefix (String c p) (String d t))
    with (if ascii_dec c d then String.prefix p t else false).
  destruct (ascii_dec c d); [apply IH|discriminate].
Qed.

Lemma previous_has_pr (t : string) :
  String.prefix "previous" t = true -> String.prefix "pr" t = true.
Proof. exact (prefix_of_longer "pr" "evious" t). Qed.

(** X18.  In [detectIntent] two keywords never decide: a message with
    [previous] has [pr] in it and is never a history query, and a message
    with [help] is never a request for general help.  A history query
    mentions [history] or [past]; a request for general help mentions [how]
    or [what]. *)
Theorem intent_words_shadowed (message : string) :
  (JS.includes (JS.toLowerCase message) "previous" = true ->
   detectIntent message <> history_query)
  /\ (JS.includes (JS.toLowerCase message) "help" = true ->
      detectIntent message <> general_help)
  /\ (detectIntent message = history_query ->
      mentions (JS.toLowerCase message) [ "history"; "past" ] = true)
  /\ (detectIntent message = general_help ->
      mentions (JS.toLowerCase message) [ "how"; "what" ] = true).
Proof.
  unfold detectIntent, mentions. cbn [existsb].
  set (lower := JS.toLowerCase message).
  assert (Hpr : JS.includes lower "previous" = true -> JS.includes lower "pr" = true)
    by (apply includes_shorter; exact previous_has_pr).
  destruct (JS.includes lower "standup" || (JS.includes lower "update"
            || (JS.includes lower "status" || false))); [repeat split; discriminate|].
  destruct (JS.includes lower "team" || (JS.includes lower "metrics"
            || (JS.includes lower "statistics" || false))); [repeat split; discriminate|].
  destruct (JS.includes lower "task" || (JS.includes lower "jira"
            || (JS.includes lower "ticket" || false))); [repeat split; discriminate|].
  destruct (JS.includes lower "pr") eqn:Epr; cbn [orb]; [repeat split; discriminate|].
  destruct (JS.includes lower "pull request" || (JS.includes lower "merge" || false));
    [repeat split; discriminate|].
  destruct (JS.includes lower "previous") eqn:Eprev; [specialize (Hpr eq_refl); discriminate|].
  destruct (JS.includes lower "help") eqn:Ehelp.
  { rewrite !orb_true_r. repeat split; discriminate. }
  destruct (JS.includes lower "blocker" || (JS.includes lower "blocked" || (false || false)));
    [repeat split; discriminate|].
  cbn [orb].
  destruct (JS.includes lower "history") eqn:Eh; cbn [orb].
  { repeat split; try discriminate. }
  destruct (JS.includes lower "past") eqn:Ep; cbn [orb].
  { repeat split; try discriminate. }
  destruct (JS.includes lower "how") eqn:Ehow; cbn [orb].
  { repeat split; try discriminate. }
  destruct (JS.includes lower "what") eqn:Ewhat; cbn [orb];
    repeat split; discriminate.
Qed.

(** *** The summary of one member *)

(** X19.  For a member name that is not empty, [getTeamMemberSummary] never
    answers with the error 400; its report is on between 1 and 50 standups,
    no more than the days asked for, shows the first five of them as recent
    activity, and its consistency is the one the counts give.  For a
    negative number of days the answer is the one without recent
    activity. *)
Theorem member_summary_is_bounded
  (listObjectsFromS3 : string -> list S3Object.t)
  (getObjectFromS3 : string -> JS.Completion (option Body))
  (dateValue : string -> option Z) (teamMember : string) (parsedDays : option Z) :
  teamMember <> "" ->
  match getTeamMemberSummary listObjectsFromS3 getObjectFromS3 dateValue
          (Some teamMember) parsedDays with
  | MemberRequired => False
  | NoRecentActivity => True
  | Report data => boundedReport (daysOr30 parsedDays) data
  end
  /\ ((daysOr30 parsedDays < 0)%Z ->
      getTeamMemberSummary listObjectsFromS3 getObjectFromS3 dateValue
        (Some teamMember) parsedDays = NoRecentActivity).
Proof.
  intros Hname. unfold getTeamMemberSummary.
  assert (Ht : JS.truthy teamMember = true) by (destruct teamMember; [contradiction|reflexivity]).
  rewrite Ht. cbn [negb].
  set (days := daysOr30 parsedDays).
  destruct (getPreviousUpdates_length listObjectsFromS3 getObjectFromS3 dateValue teamMember
              (Z.min days 50)) as (Hneg & Hlen).
  set (updates := getPreviousUpdates listObjectsFromS3 getObjectFromS3 dateValue teamMember
                    (Z.min days 50)) in *.
  rewrite length_map. split.
  - destruct (Nat.eqb_spec (List.length updates) 0) as [E|E]; [exact I|].
    assert (Hpos : (0 <= Z.min days 50)%Z).
    { destruct (Z.le_gt_cases (Z.min days 50) 0) as [H|H]; [|lia].
      rewrite (Hneg H) in E. contradiction. }
    specialize (Hlen Hpos).
    unfold boundedReport.
    cbn [MemberReport.summary MemberReport.recentActivity].
    unfold calculateMemberSummary. rewrite length_map.
    destruct (Nat.eqb_spec (List.length updates) 0) as [E'|_]; [contradiction|].
    cbn [Summary.totalStandups Summary.consistency].
    split; [lia|]. split; [lia|]. split.
    + rewrite length_map. unfold JS.sliceTo. rewrite length_firstn, length_map. reflexivity.
    + rewrite consistencyOf_capped.
      replace (Z.min days 30) with (Z.of_nat (Z.to_nat (Z.min days 30))) at 1 by lia.
      apply consistency_checked; lia.
  - intros Hd. rewrite (Hneg ltac:(lia)). reflexivity.
Qed.

Lemma member_summary_is_bounded_witness :
  "dana" <> ""
  /\ exists data,
       getTeamMemberSummary (listObjects oneSavedStandup) (getObject oneSavedStandup)
         isoDateValue (Some "dana") (Some 7%Z) = Report data
       /\ boundedReport 7 data.
Proof.
  assert (Hname : "dana" <> "") by discriminate.
  split; [exact Hname|].
  pose proof (member_summary_is_bounded (listObjects oneSavedStandup)
                (getObject oneSavedStandup) isoDateValue "dana" (Some 7%Z) Hname) as [H _].
  destruct (getTeamMemberSummary _ _ _ _ _) as [| |data] eqn:E.
  - contradiction.
  - vm_compute in E. discriminate E.
  - exists data. split; [reflexivity|exact H].
Defined.

(** *** The team *)

Lemma above_eight (x : JS.number) :
  JS.gt x (JS.ofNat 8) = true ->
  JS.gt x (JS.ofNat 6) = true /\ JS.gt x (JS.ofNat 5) = true.
Proof.
  unfold JS.gt.
  change (JS.ofNat 8) with (S754_finite false 4503599627370496 (-49)).
  change (JS.ofNat 6) with (S754_finite false 6755399441055744 (-50)).
  change (JS.ofNat 5) with (S754_finite false 5629499534213120 (-50)).
  destruct x as [s|s| |s m e].
  - destruct s; discriminate.
  - destruct s; [discriminate|]. intros _. split; reflexivity.
  - discriminate.
  - destruct s; [discriminate|].
    unfold SFltb, SFcompare.
    assert (H50 : forall mantissa : positive,
               (-49 <= e)%Z ->
               match (-50 ?= e)%Z with
               | Eq => Pos.compare_cont Eq mantissa m
               | Lt => Lt
               | Gt => Gt
               end = Lt).
    { intros mantissa He. destruct (Z.compare_spec (-50) e); [lia|reflexivity|lia]. }
    destruct (Z.compare_spec (-49) e) as [E|Hlt|Hgt]; try discriminate.
    + intros _. rewrite !H50 by lia. split; reflexivity.
    + intros _. rewrite !H50 by lia. split; reflexivity.
Qed.

(** X20.  Whenever [generateTeamInsights] warns about a high average task
    load, [calculateTeamProductivity] rates the same metrics [High] and
    [generateTeamRecommendations] advises to review the distribution of
    tasks. *)
Theorem workload_warning_agrees_with_productivity (metrics : Metrics.t)
  (insights : list Insight.t) :
  generateTeamInsights metrics = JS.Normal insights ->
  In highLoadWarning insights ->
  TeamProductivity.productivity (calculateTeamProductivity metrics) = High
  /\ In "Review task distribution and consider load balancing"
        (generateTeamRecommendations metrics).
Proof.
  unfold generateTeamInsights, generateTeamRecommendations, calculateTeamProductivity.
  cbn [TeamProductivity.productivity].
  destruct (Metrics.totalStandups metrics =? 0).
  { intros H Hin. injection H as <-. destruct Hin as [Hin|[]]. discriminate Hin. }
  destruct (blockerInsight_returns metrics) as [blocked Hb]. rewrite Hb.
  cbn [JS.bind]. intros H Hin. injection H as <-.
  assert (Hgt : JS.gt (Metrics.averageTasksPerMember metrics) (JS.ofNat 8) = true).
  { apply in_app_or in Hin. destruct Hin as [Hin|Hin].
    - apply in_app_or in Hin. destruct Hin as [Hin|Hin].
      + unfold participationInsight in Hin.
        destruct (0 <? _); [|contradiction].
        destruct (JS.lt _ _); [destruct Hin as [Hin|[]]; discriminate Hin|].
        destruct (JS.gt _ _); [destruct Hin as [Hin|[]]; discriminate Hin|contradiction].
      + unfold workloadInsights in Hin.
        destruct (JS.gt (Metrics.averageTasksPerMember metrics) (JS.ofNat 8));
          [reflexivity|].
        cbn [app] in Hin.
        destruct (JS.gt _ _); [destruct Hin as [Hin|[]]; discriminate Hin|contradiction].
    - unfold blockerInsight in Hb.
      destruct (0 <? _); [|injection Hb as <-; contradiction].
      destruct (JS.elementAt _ 0) as [top|]; cbn [JS.bind] in Hb; [|discriminate].
      destruct (freqGt _ _); injection Hb as <-; [|contradiction].
      destruct Hin as [Hin|[]]. discriminate Hin. }
  destruct (above_eight _ Hgt) as [H6 H5]. rewrite H5, H6.
  split; [reflexivity|].
  match goal with
  | |- In _ (if List.length ?l =? 0 then _ else _) =>
      assert (Hl : In "Review task distribution and consider load balancing" l)
  end.
  { apply in_or_app. right. apply in_or_app. left. left. reflexivity. }
  match goal with
  | |- In _ (if List.length ?l =? 0 then _ else _) =>
      destruct l as [|r rest]; [contradiction|exact Hl]
  end.
Qed.

Lemma workload_warning_agrees_with_productivity_witness :
  generateTeamInsights busyTeam = JS.Normal [ highLoadWarning ]
  /\ In highLoadWarning [ highLoadWarning ]
  /\ TeamProductivity.productivity (calculateTeamProductivity busyTeam) = High.
Proof.
  assert (Hrun : generateTeamInsights busyTeam = JS.Normal [ highLoadWarning ])
    by (vm_compute; reflexivity).
  assert (Hin : In highLoadWarning [ highLoadWarning ]) by (left; reflexivity).
  split; [exact Hrun|]. split; [exact Hin|].
  exact (proj1 (workload_warning_agrees_with_productivity busyTeam _ Hrun Hin)).
Defined.

(** *** [processStandup] *)

Lemma generateFollowUpQuestions_length
  (invokeModel : string -> JS.Completion ResponseBody)
  (JSONparse : string -> JS.Completion JSON)
  (standupData : Standup.t) (previousUpdates : list Standup.t)
  (tasks : list Task.t) (prs : list PullRequest.t) :
  exists questions,
    generateFollowUpQuestions invokeModel JSONparse standupData previousUpdates tasks prs
    = JS.Normal questions
    /\ 1 <= List.length questions <= 5.
Proof.
  pose proof (generateFallbackQuestions_shape standupData tasks prs) as [Hlen _].
  assert (Hfb : 1 <= List.length (map JString (generateFallbackQuestions standupData tasks prs)) <= 5)
    by (rewrite length_map; lia).
  destruct (invokeModel (promptFor (buildContextForAI standupData previousUpdates tasks prs)))
    as [[|text]|error] eqn:Hcall.
  - eexists. split; [|exact Hfb].
    unfold generateFollowUpQuestions. rewrite Hcall.
    cbn [JS.bind JS.tryCatch contentText]. rewrite firstFive_of_fallback. reflexivity.
  - rewrite (generateFollowUpQuestions_on_text _ JSONparse _ _ _ _ _ Hcall).
    destruct (isNonEmptyArray (questionsFrom JSONparse text)) eqn:E.
    + destruct (questionsFrom JSONparse text) as [| | | |elements|]; try discriminate.
      eexists. split; [reflexivity|].
      unfold JS.sliceTo. rewrite length_firstn.
      cbn in E. destruct elements; [discriminate|]. cbn [List.length]. lia.
    + eexists. split; [reflexivity|exact Hfb].
  - eexists. split; [|exact Hfb].
    unfold generateFollowUpQuestions. rewrite Hcall. reflexivity.
Qed.

Lemma abbreviated_length (text : string) : String.length (abbreviated text) <= 103.
Proof.
  unfold abbreviated. rewrite append_length.
  pose proof (substring_length text 100).
  destruct (100 <? String.length text); cbn [String.length]; lia.
Qed.

Lemma generateInsights_length (hrefOf : PullRequest.t -> option string)
  (currentStandup : StandupRecord.t) (previousUpdates : list StandupRecord.t)
  (insights : list StandupInsight.t) :
  generateInsights hrefOf currentStandup previousUpdates = JS.Normal insights ->
  List.length insights <= 3.
Proof.
  unfold generateInsights, recurringBlockerInsight.
  destruct (Standup.bitbucketPRs _); [|discriminate].
  intros H. injection H as <-. rewrite !length_app.
  destruct (nth_error _ _); [destruct (_ && _); [destruct (_ || _)|]|];
    destruct (3 <? _); destruct (0 <? _); cbn [List.length]; lia.
Qed.

Lemma missing_complete (body : RequestBody) :
  complete body <->
  exists n y t b, body = Submitted n y t b
                  /\ missing n || missing y || missing t || missing b = false.
Proof.
  unfold complete. split.
  - intros (n & y & t & b & -> & Hn & Hy & Ht & Hb).
    exists (Some n), (Some y), (Some t), (Some b). split; [reflexivity|].
    destruct n, y, t, b; try contradiction; reflexivity.
  - intros (n & y & t & b & -> & H).
    destruct n as [n|], y as [y|], t as [t|], b as [b|];
      cbn [missing orb] in H; try (rewrite ?orb_true_r in H; discriminate).
    exists n, y, t, b. split; [reflexivity|].
    destruct n, y, t, b; cbn in H; try discriminate; repeat split; discriminate.
Qed.

Lemma processStandup_cases
  (listObjectsFromS3 : string -> list S3Object.t)
  (getObjectFromS3 : string -> JS.Completion (option Body))
  (dateValue : string -> option Z)
  (stringify : Document -> string) (numberToString : string -> string)
  (getTeamMemberTasks : string -> JS.Completion (list Task.t))
  (getPRStatus : string -> JS.Completion (list PullRequest.t))
  (invokeModel : string -> JS.Completion ResponseBody)
  (JSONparse : string -> JS.Completion JSON)
  (hrefOf : PullRequest.t -> option string) (STORAGE_TYPE : string)
  (body : RequestBody) (uuid now today : string) :
  let outcome :=
    processStandup listObjectsFromS3 getObjectFromS3 dateValue stringify numberToString
      getTeamMemberTasks getPRStatus invokeModel JSONparse hrefOf STORAGE_TYPE
      body uuid now today in
  match body with
  | Unparsable error => outcome = ([], InternalError error)
  | Submitted n y t b =>
      if missing n || missing y || missing t || missing b
      then outcome = ([], MissingFields)
      else
        (exists uploads error,
            outcome = (uploads, InternalError error)
            /\ (STORAGE_TYPE = "json" \/ STORAGE_TYPE = "both"))
        \/ (exists uploads data,
               outcome = (uploads, Success data) /\ wellFormed data
               /\ (STORAGE_TYPE <> "json" -> STORAGE_TYPE <> "csv" ->
                   STORAGE_TYPE <> "both" -> uploads = []))
  end.
Proof.
  cbv zeta. unfold processStandup.
  destruct body as [error|n y t b]; [reflexivity|].
  destruct (missing n || missing y || missing t || missing b); [reflexivity|].
  set (standupData := {| Standup.id := uuid |}).
  set (previousUpdates := getPreviousUpdates _ _ _ _ _).
  set (tasks := match getTeamMemberTasks _ with JS.Normal v => v | JS.Throw _ => [] end).
  set (prs := match getPRStatus _ with JS.Normal v => v | JS.Throw _ => [] end).
  destruct (generateFollowUpQuestions_length invokeModel JSONparse standupData
              (map StandupRecord.standup previousUpdates) tasks prs) as (questions & -> & Hq).
  set (completeRecord := {| StandupRecord.standup := _ |}).
  unfold saveStandupData.
  set (asCSV := if String.eqb STORAGE_TYPE "csv" || String.eqb STORAGE_TYPE "both" then _ else _).
  set (asJSON := if String.eqb STORAGE_TYPE "json" || String.eqb STORAGE_TYPE "both" then _ else _).
  assert (Hinsights : exists insights,
             generateInsights hrefOf completeRecord previousUpdates = JS.Normal insights).
  { unfold generateInsights. cbn [completeRecord StandupRecord.standup Standup.bitbucketPRs].
    eexists. reflexivity. }
  destruct Hinsights as (insights & Hinsights).
  pose proof (generateInsights_length _ _ _ _ Hinsights) as Hlen.
  destruct asJSON as [uploads|error] eqn:EJ.
  - right. rewrite Hinsights. eexists _, _. split; [reflexivity|]. split.
    + unfold wellFormed.
      cbn [Processed.followUpQuestions Processed.summary Processed.insights
           StandupSummary.followUpQuestionsCount StandupSummary.yesterday
           StandupSummary.today StandupSummary.blockers].
      repeat split; try lia; apply abbreviated_length.
    + intros H1 H2 H3. unfold asJSON in EJ. unfold asCSV.
      destruct (String.eqb_spec STORAGE_TYPE "json"); [contradiction|].
      destruct (String.eqb_spec STORAGE_TYPE "csv"); [contradiction|].
      destruct (String.eqb_spec STORAGE_TYPE "both"); [contradiction|].
      cbn [orb] in *. injection EJ as <-. reflexivity.
  - left. eexists _, _. split; [reflexivity|].
    unfold asJSON in EJ.
    destruct (String.eqb_spec STORAGE_TYPE "json"); [left; assumption|].
    destruct (String.eqb_spec STORAGE_TYPE "both"); [right; assumption|].
    discriminate EJ.
Qed.

(** X21.  [processStandup] answers with status 400 exactly when the body
    was parsed and one of the four fields is absent or empty, and then asks
    for no upload.  A successful answer is given only for a complete
    request; it has between one and five follow-up questions, counted
    correctly in its summary, at most three insights, and the three texts
    of its summary are at most 103 code units long. *)
Theorem standup_answer_shape
  (listObjectsFromS3 : string -> list S3Object.t)
  (getObjectFromS3 : string -> JS.Completion (option Body))
  (dateValue : string -> option Z)
  (stringify : Document -> string) (numberToString : string -> string)
  (getTeamMemberTasks : string -> JS.Completion (list Task.t))
  (getPRStatus : string -> JS.Completion (list PullRequest.t))
  (invokeModel : string -> JS.Completion ResponseBody)
  (JSONparse : string -> JS.Completion JSON)
  (hrefOf : PullRequest.t -> option string) (STORAGE_TYPE : string)
  (body : RequestBody) (uuid now today : string) :
  let outcome :=
    processStandup listObjectsFromS3 getObjectFromS3 dateValue stringify numberToString
      getTeamMemberTasks getPRStatus invokeModel JSONparse hrefOf STORAGE_TYPE
      body uuid now today in
  (snd outcome = MissingFields <->
   exists n y t b, body = Submitted n y t b
                   /\ missing n || missing y || missing t || missing b = true)
  /\ (snd outcome = MissingFields -> fst outcome = [])
  /\ (forall data, snd outcome = Success data -> complete body /\ wellFormed data).
Proof.
  intros outcome.
  pose proof (processStandup_cases listObjectsFromS3 getObjectFromS3 dateValue stringify
                numberToString getTeamMemberTasks getPRStatus invokeModel JSONparse hrefOf
                STORAGE_TYPE body uuid now today) as H.
  cbv beta zeta in H. unfold outcome. clear outcome.
  destruct body as [error|n y t b].
  - rewrite H. cbn [fst snd]. split; [|split].
    + split; [discriminate|]. intros (? & ? & ? & ? & E & _). discriminate E.
    + reflexivity.
    + discriminate.
  - destruct (missing n || missing y || missing t || missing b) eqn:Em.
    + rewrite H. cbn [fst snd]. split; [|split].
      * split; [|reflexivity]. intros _. exists n, y, t, b. split; [reflexivity|exact Em].
      * reflexivity.
      * discriminate.
    + assert (Hc : complete (Submitted n y t b)).
      { apply missing_complete. exists n, y, t, b. split; [reflexivity|exact Em]. }
      destruct H as [(uploads & error & -> & _)|(uploads & data & -> & Hw & _)];
        cbn [fst snd]; (split; [|split]); try discriminate.
      * split; [discriminate|].
        intros (? & ? & ? & ? & E & Em'). injection E as <- <- <- <-. congruence.
      * split; [discriminate|].
        intros (? & ? & ? & ? & E & Em'). injection E as <- <- <- <-. congruence.
      * intros d E. injection E as <-. split; [exact Hc|exact Hw].
Qed.

(** X22.  When [STORAGE_TYPE] is none of [json], [csv] and [both],
    [processStandup] answers a request whose four fields are texts, none of
    them empty, with success and asks for no upload: the standup is stored
    nowhere.  (The standups already in the store have texts as their fields
    as well.) *)
Theorem unknown_storage_type_stores_nothing
  (listObjectsFromS3 : string -> list S3Object.t)
  (getObjectFromS3 : string -> JS.Completion (option Body))
  (dateValue : string -> option Z)
  (stringify : Document -> string) (numberToString : string -> string)
  (getTeamMemberTasks : string -> JS.Completion (list Task.t))
  (getPRStatus : string -> JS.Completion (list PullRequest.t))
  (invokeModel : string -> JS.Completion ResponseBody)
  (JSONparse : string -> JS.Completion JSON)
  (hrefOf : PullRequest.t -> option string) (STORAGE_TYPE : string)
  (body : RequestBody) (uuid now today : string) :
  STORAGE_TYPE <> "json" -> STORAGE_TYPE <> "csv" -> STORAGE_TYPE <> "both" ->
  complete body ->
  exists data,
    processStandup listObjectsFromS3 getObjectFromS3 dateValue stringify numberToString
      getTeamMemberTasks getPRStatus invokeModel JSONparse hrefOf STORAGE_TYPE
      body uuid now today
    = ([], Success data).
Proof.
  intros H1 H2 H3 Hc.
  pose proof (processStandup_cases listObjectsFromS3 getObjectFromS3 dateValue stringify
                numberToString getTeamMemberTasks getPRStatus invokeModel JSONparse hrefOf
                STORAGE_TYPE body uuid now today) as H.
  cbv beta zeta in H.
  apply missing_complete in Hc. destruct Hc as (n & y & t & b & -> & Em).
  rewrite Em in H.
  destruct H as [(uploads & error & _ & [E|E])|(uploads & data & -> & _ & Hnone)];
    try contradiction.
  exists data. rewrite (Hnone H1 H2 H3). reflexivity.
Qed.

Lemma unknown_storage_type_stores_nothing_witness :
  "JSON" <> "json" /\ "JSON" <> "csv" /\ "JSON" <> "both" /\ complete danasRequest
  /\ fst (processStandup emptyListing nothingStored isoDateValue plainText sameText
            noTasks noPullRequests unavailable readJSON noLinks "JSON"
            danasRequest "7f9c" "2024-03-12T09:00:00.000Z" "2024-03-12") = [].
Proof.
  assert (H1 : "JSON" <> "json") by discriminate.
  assert (H2 : "JSON" <> "csv") by discriminate.
  assert (H3 : "JSON" <> "both") by discriminate.
  assert (Hc : complete danasRequest).
  { exists "dana", "Reviewed code", "Write tests", "None".
    repeat split; discriminate. }
  repeat (split; [assumption|]).
  destruct (unknown_storage_type_stores_nothing emptyListing nothingStored isoDateValue
              plainText sameText noTasks noPullRequests unavailable readJSON noLinks "JSON"
              danasRequest "7f9c" "2024-03-12T09:00:00.000Z" "2024-03-12" H1 H2 H3 Hc)
    as (data & ->).
  reflexivity.
Defined.

(** *** The prompt *)

Lemma prefix_refl (s : string) : String.prefix s s = true.
Proof. rewrite <- (append_empty s) at 2. apply prefix_here. Qed.

Lemma includes_refl (s : string) : JS.includes s s = true.
Proof. destruct s; cbn [JS.includes]; rewrite prefix_refl; reflexivity. Qed.

Lemma prefix_in_longer (x a b : string) :
  String.prefix x a = true -> String.prefix x (String.append a b) = true.
Proof.
  revert a. induction x as [|c x IH]; intros a; [intros _; apply prefix_empty|].
  destruct a as [|d a]; [discriminate|].
  cbn [String.append].
  change (String.prefix (String c x) (String d a))
    with (if ascii_dec c d then String.prefix x a else false).
  change (String.prefix (String c x) (String d (String.append a b)))
    with (if ascii_dec c d then String.prefix x (String.append a b) else false).
  destruct (ascii_dec c d); [apply IH|discriminate].
Qed.

Lemma includes_append_l (x a b : string) :
  JS.includes a x = true -> JS.includes (String.append a b) x = true.
Proof.
  induction a as [|c a IH]; cbn [JS.includes String.append]; intros H.
  - rewrite orb_false_r in H. destruct x; [|discriminate H].
    destruct b; reflexivity.
  - apply orb_prop in H. destruct H as [H|H].
    + pose proof (prefix_in_longer x (String c a) b H) as Hp.
      cbn [String.append] in Hp. rewrite Hp. reflexivity.
    + rewrite (IH H). apply orb_true_r.
Qed.

Lemma includes_append_r (x a b : string) :
  JS.includes b x = true -> JS.includes (String.append a b) x = true.
Proof.
  intros H. induction a as [|c a IH]; [exact H|].
  cbn [String.append JS.includes]. rewrite IH. apply orb_true_r.
Qed.

Lemma includes_concat (x part : string) (parts : list string) :
  In part parts -> JS.includes part x = true ->
  JS.includes (String.concat "" parts) x = true.
Proof.
  intros Hin Hx. induction parts as [|p parts IH]; [contradiction|].
  destruct Hin as [->|Hin].
  - destruct parts as [|q parts]; cbn [String.concat]; [exact Hx|].
    apply includes_append_l. exact Hx.
  - destruct parts as [|q parts]; [contradiction|]. cbn [String.concat].
    apply includes_append_r. cbn [String.append]. apply IH. exact Hin.
Qed.

(** X23.  The prompt sent to the model contains the name of the member and
    the three texts of the standup as they were submitted, whatever they
    hold. *)
Theorem prompt_quotes_the_standup_verbatim (standupData : Standup.t)
  (previousUpdates : list Standup.t) (tasks : list Task.t) (prs : list PullRequest.t) :
  let prompt := promptFor (buildContextForAI standupData previousUpdates tasks prs) in
  JS.includes prompt (Standup.teamMemberName standupData) = true
  /\ JS.includes prompt (Standup.yesterday standupData) = true
  /\ JS.includes prompt (Standup.today standupData) = true
  /\ JS.includes prompt (Standup.blockers standupData) = true.
Proof.
  cbn zeta.
  assert (H : forall x, In x [ Standup.teamMemberName standupData;
                               Standup.yesterday standupData;
                               Standup.today standupData;
                               Standup.blockers standupData ] ->
                        JS.includes (promptFor (buildContextForAI standupData previousUpdates
                                                  tasks prs)) x = true).
  { intros x Hx. unfold promptFor.
    apply (includes_concat x (buildContextForAI standupData previousUpdates tasks prs));
      [cbn [In]; tauto|].
    unfold buildContextForAI. apply (includes_concat x x); [|apply includes_refl].
    cbn [In] in *. tauto. }
  repeat split; apply H; cbn [In]; tauto.
Qed.

(** *** The chat handler *)

Lemma mapThrowing_undefined (first : RecentBlocker.t) (rest : list RecentBlocker.t) :
  RecentBlocker.blocker first = None ->
  mapThrowing (fun b => lowerCaseOf (RecentBlocker.blocker b)) (first :: rest)
  = JS.Throw "TypeError".
Proof.
  intros H. cbn [mapThrowing]. rewrite H. reflexivity.
Qed.

Lemma filter_nil_iff {A : Type} (f : A -> bool) (l : list A) :
  filter f l = [] <-> Forall (fun a => f a = false) l.
Proof.
  induction l as [|a l IH]; cbn [filter].
  - split; [constructor|reflexivity].
  - destruct (f a) eqn:Ha.
    + split; [discriminate|]. intros H. inversion H; subst. congruence.
    + rewrite IH. split; [constructor; assumption|]. intros H. inversion H; assumption.
Qed.

Lemma filter_cons_iff {A : Type} (f : A -> bool) (l : list A) :
  filter f l <> [] <-> exists a, In a l /\ f a = true.
Proof.
  split.
  - intros H. destruct (filter f l) as [|a r] eqn:E; [contradiction|].
    exists a. apply filter_In. rewrite E. left. reflexivity.
  - intros (a & Hin & Ha) E.
    assert (Hf : In a (filter f l)) by (apply filter_In; split; assumption).
    rewrite E in Hf. destruct Hf.
Qed.

(** X24.  [handleBlockerHelpQuery] never answers with a blocker analysis.
    It reads the property [blocker] of the updates, which the stored
    records do not have, and throws on it: the answer is the one of type
    [error] exactly when a member is named and one of the member's five
    latest updates reports a blocker, and the one of type [positive]
    exactly when the member has updates and none of them reports a
    blocker. *)
Theorem blocker_help_never_analyses
  (listObjectsFromS3 : string -> list S3Object.t)
  (getObjectFromS3 : string -> JS.Completion (option Body))
  (dateValue : string -> option Z) (teamMember : option string) :
  let answer :=
    handleBlockerHelpQuery listObjectsFromS3 getObjectFromS3 dateValue teamMember in
  let updatesOf name :=
    getPreviousUpdates listObjectsFromS3 getObjectFromS3 dateValue name 5 in
  ChatAnswer.type answer <> ChatType.blocker_analysis
  /\ ChatAnswer.data answer = None
  /\ (ChatAnswer.type answer = ChatType.error <->
      exists name,
        teamMember = Some name /\ name <> ""
        /\ exists update,
             In update (updatesOf name)
             /\ reportsBlocker (Standup.blockers (StandupRecord.standup update)) = true)
  /\ (ChatAnswer.type answer = ChatType.positive <->
      exists name,
        teamMember = Some name /\ name <> "" /\ updatesOf name <> []
        /\ Forall (fun update =>
                     reportsBlocker (Standup.blockers (StandupRecord.standup update)) = false)
                  (updatesOf name)).
Proof.
  cbv zeta. unfold handleBlockerHelpQuery.
  destruct teamMember as [name|].
  2:{ cbn. repeat split; try discriminate; intros (n & H & _); discriminate H. }
  unfold JS.truthy. rewrite negb_involutive.
  destruct (String.eqb_spec name "") as [->|Hname].
  { cbn. repeat split; try discriminate; intros (n & H & Hn & _); inversion H; subst;
      contradiction Hn; reflexivity. }
  set (updates := getPreviousUpdates listObjectsFromS3 getObjectFromS3 dateValue name 5).
  destruct updates as [|u us] eqn:Hupdates.
  { cbn. repeat split; try discriminate.
    - intros (n & H & _ & x & Hx & _). inversion H; subst n.
      fold updates in Hx. rewrite Hupdates in Hx. destruct Hx.
    - intros (n & H & _ & Hne & _). inversion H; subst n.
      fold updates in Hne. rewrite Hupdates in Hne. contradiction Hne; reflexivity. }
  cbn [List.length Nat.eqb].
  set (reported := filter _ (u :: us)).
  destruct reported as [|b bs] eqn:Hreported.
  - cbn. repeat split; try discriminate.
    + intros (n & H & _ & x & Hx & Hb). inversion H; subst n.
      fold updates in Hx. rewrite Hupdates in Hx.
      assert (Hin : In x reported)
        by (unfold reported; apply filter_In; split; assumption).
      rewrite Hreported in Hin. destruct Hin.
    + intros _. exists name. split; [reflexivity|]. split; [assumption|].
      fold updates. rewrite Hupdates. split; [discriminate|].
      apply (proj1 (filter_nil_iff _ _)). exact Hreported.
  - cbn [map List.length Nat.eqb].
    rewrite (mapThrowing_undefined (toRecentBlocker b) (map toRecentBlocker bs))
      by reflexivity.
    cbn. repeat split; try discriminate.
    + intros _. exists name. split; [reflexivity|]. split; [assumption|].
      fold updates. rewrite Hupdates.
      apply (proj1 (filter_cons_iff _ _)). fold reported. rewrite Hreported. discriminate.
    + intros (n & H & _ & _ & Hall). inversion H; subst n.
      fold updates in Hall. rewrite Hupdates in Hall.
      apply (proj2 (filter_nil_iff _ _)) in Hall. fold reported in Hall.
      rewrite Hreported in Hall. discriminate Hall.
Qed.

(** X25.  [handleGeneralQuery] always answers with a general response,
    never with the request to rephrase of its [catch]: its data carry
    between one and three suggested questions, and when every call of the
    model throws they are the three default questions. *)
Theorem general_query_never_asks_to_rephrase
  (invokeModel : string -> JS.Completion ResponseBody)
  (JSONparse : string -> JS.Completion JSON)
  (teamMember : option string) (message : string) (chatContext : option JSON) :
  exists text data suggestions,
    handleGeneralQuery invokeModel JSONparse teamMember message chatContext
    = general_response text data suggestions
    /\ 1 <= List.length (GeneralData.suggestions data) <= 3
    /\ ((forall prompt, exists error, invokeModel prompt = JS.Throw error) ->
        GeneralData.suggestions data = defaultQuestions).
Proof.
  unfold handleGeneralQuery.
  destruct (generateFollowUpQuestions_length invokeModel JSONparse
              (standupOfMessage teamMember message) [] [] [])
    as (questions & Heq & Hlen).
  rewrite Heq. cbn [JS.bind orCaught].
  eexists _, _, _. split; [reflexivity|].
  cbn [GeneralData.suggestions]. unfold JS.sliceTo. rewrite length_firstn.
  split; [lia|].
  intros Hthrow.
  unfold generateFollowUpQuestions in Heq.
  destruct (Hthrow (promptFor (buildContextForAI (standupOfMessage teamMember message) [] [] [])))
    as (error & Herror).
  rewrite Herror in Heq. cbn in Heq. inversion Heq; subst questions. reflexivity.
Qed.
